(** * OptiRoute: the AI gateway module and the shelter-plan page

    A shallow embedding of the service module (class [GeminiService],
    the wrapper around the generative-AI client) and of the React page
    [SmartShelterAllocator.jsx], followed by the properties proved of
    them.

    Modelling conventions.
    - A JavaScript string is the list of its UTF-16 code units.
    - A JavaScript value is a finite tree ([value]): the gateway only ever
      handles JSON-like data.  Objects keep their properties as an
      association list in insertion order.
    - Numbers that the code computes with are integers ([jsint], with NaN);
      numbers that are only carried around are exact rationals.  Both agree
      with IEEE doubles on integers of magnitude below 2^53 and on short
      decimal literals; beyond that range the program rounds and the model
      does not, so every property that depends on the outcome of the
      arithmetic carries a bound on the quantities it is about.
    - Regular expressions are run by a backtracking matcher with the
      priorities of the language standard; JSON.parse is a recursive
      descent parser of the JSON grammar.
    - Conversions are where the source has them.  A template literal
      converts each substitution to a string where it stands, and a
      comparison converts its operand to a number; either throws a
      TypeError on an object that carries a property named toString, and
      the method throws with it unless the literal stands in a try block.
    - The external completion service, the clock and the console are the
      outside world: the service and the clock are oracles of a [runtime],
      and every interaction is recorded in a trace. *)

From Stdlib Require Import ZArith QArith NArith List String Ascii Bool Lia.
Import ListNotations.
Close Scope Q_scope.

Set Implicit Arguments.
Set Warnings "-register-all".

(* ================================================================= *)
(** ** Strings *)

Module JsString.

Definition jsstring := list N.

Fixpoint eqb (a b : jsstring) : bool :=
  match a, b with
  | [], [] => true
  | x :: a', y :: b' => N.eqb x y && eqb a' b'
  | _, _ => false
  end.

(** Source literals are written as Rocq strings (UTF-8 bytes) and turned
    into code units: UTF-8 is decoded to code points, code points above the
    basic plane become surrogate pairs. *)
Fixpoint bytes_of (s : string) : list N :=
  match s with
  | EmptyString => []
  | String c s' => N_of_ascii c :: bytes_of s'
  end.

Fixpoint code_points (bs : list N) : list N :=
  match bs with
  | [] => []
  | b :: r =>
      if (b <? 128)%N then b :: code_points r
      else if (b <? 224)%N then
        match r with
        | b1 :: r1 => ((b - 192) * 64 + (b1 - 128))%N :: code_points r1
        | _ => []
        end
      else if (b <? 240)%N then
        match r with
        | b1 :: b2 :: r2 =>
            ((b - 224) * 4096 + (b1 - 128) * 64 + (b2 - 128))%N :: code_points r2
        | _ => []
        end
      else
        match r with
        | b1 :: b2 :: b3 :: r3 =>
            ((b - 240) * 262144 + (b1 - 128) * 4096 + (b2 - 128) * 64 + (b3 - 128))%N
              :: code_points r3
        | _ => []
        end
  end.

Definition utf16_units (cp : N) : list N :=
  if (cp <? 65536)%N then [cp]
  else let c := (cp - 65536)%N in [(55296 + c / 1024)%N; (56320 + c mod 1024)%N].

(** A source literal.  Inside the Rocq literal a backquote stands for the
    double quote of the source text (a template literal cannot contain a
    backquote of its own, so no confusion arises). *)
Definition js (s : string) : jsstring :=
  flat_map utf16_units
    (map (fun c => if (c =? 96)%N then 34%N else c) (code_points (bytes_of s))).

Definition nl : jsstring := [10%N].

Fixpoint join (sep : jsstring) (l : list jsstring) : jsstring :=
  match l with
  | [] => []
  | [x] => x
  | x :: r => x ++ sep ++ join sep r
  end.

(** Decimal digits of a natural number, as [Number::toString] prints an
    integer below 10^21. *)
Fixpoint uint_units (d : Decimal.uint) : jsstring :=
  match d with
  | Decimal.Nil => []
  | Decimal.D0 d' => 48%N :: uint_units d'
  | Decimal.D1 d' => 49%N :: uint_units d'
  | Decimal.D2 d' => 50%N :: uint_units d'
  | Decimal.D3 d' => 51%N :: uint_units d'
  | Decimal.D4 d' => 52%N :: uint_units d'
  | Decimal.D5 d' => 53%N :: uint_units d'
  | Decimal.D6 d' => 54%N :: uint_units d'
  | Decimal.D7 d' => 55%N :: uint_units d'
  | Decimal.D8 d' => 56%N :: uint_units d'
  | Decimal.D9 d' => 57%N :: uint_units d'
  end.

Definition decimal_of_N (n : N) : jsstring := uint_units (N.to_uint n).

Definition decimal_of_Z (z : Z) : jsstring :=
  match z with
  | Z0 => [48%N]
  | Zpos p => decimal_of_N (Npos p)
  | Zneg p => 45%N :: decimal_of_N (Npos p)
  end.

Definition is_digit (c : N) : bool := ((48 <=? c) && (c <=? 57))%N.

End JsString.
Import JsString.

Declare Scope js_scope.
Delimit Scope js_scope with js.
Notation "'#' s" := (js s) (at level 1, s at level 0, format "'#' s") : js_scope.
Open Scope js_scope.

(* ================================================================= *)
(** ** Values *)

Module Js.

(** Integers as the code computes with them: [parseInt], [+=], [*],
    [Math.floor(x / 3)], and the NaN that [parseInt] returns on a string
    that has no leading digit.  The operations are those of the program as
    long as their results stay below 2^53 in magnitude, where double
    precision is exact on integers (and [Math.floor(x / 3)] is the integer
    quotient); above it the program rounds. *)
Inductive jsint : Type :=
| NaN
| Int (z : Z).

Definition int_add (a b : jsint) : jsint :=
  match a, b with
  | Int x, Int y => Int (x + y)
  | _, _ => NaN
  end.

Definition int_mul (a b : jsint) : jsint :=
  match a, b with
  | Int x, Int y => Int (x * y)
  | _, _ => NaN
  end.

(** [Math.floor(a / d)] for a positive integer literal [d]. *)
Definition int_floor_div (a : jsint) (d : Z) : jsint :=
  match a with
  | Int x => Int (x / d)
  | NaN => NaN
  end.

(** [a || d]: NaN and 0 are falsy. *)
Definition int_or (a : jsint) (d : jsint) : jsint :=
  match a with
  | NaN => d
  | Int 0 => d
  | Int _ => a
  end.

Definition int_to_string (a : jsint) : jsstring :=
  match a with
  | NaN => #"NaN"
  | Int z => decimal_of_Z z
  end.

Inductive value : Type :=
| VUndefined
| VNull
| VBool (b : bool)
| VNaN
| VNum (q : Q)
| VStr (s : jsstring)
| VArr (items : list value)
| VObj (props : list (jsstring * value)).

(** Numeric literals are kept in lowest terms, so that equal numbers are
    equal terms. *)
Definition num (q : Q) : value := VNum (Qred q).
Definition int (z : Z) : value := VNum (inject_Z z).
Definition str (s : string) : value := VStr (js s).
Definition strings (l : list string) : value := VArr (map str l).
Definition integers (l : list Z) : value := VArr (map int l).

Definition of_jsint (a : jsint) : value :=
  match a with
  | NaN => VNaN
  | Int z => int z
  end.

(** ToBoolean *)
Definition truthy (v : value) : bool :=
  match v with
  | VUndefined | VNull | VNaN => false
  | VBool b => b
  | VNum q => negb (Qeq_bool q 0)
  | VStr s => match s with [] => false | _ => true end
  | VArr _ | VObj _ => true
  end.

(** [a || b] *)
Definition or_else (a b : value) : value := if truthy a then a else b.

Definition is_object (v : value) : bool :=
  match v with VObj _ => true | _ => false end.

(** Own-property lookup in an object literal. *)
Fixpoint assoc (k : jsstring) (props : list (jsstring * value)) : option value :=
  match props with
  | [] => None
  | (k', v) :: r => if JsString.eqb k k' then Some v else assoc k r
  end.

Definition keys (v : value) : list jsstring :=
  match v with
  | VObj props => map fst props
  | _ => []
  end.

(** [Number::toString] of a number with a short decimal expansion and a
    magnitude between 10^-6 and 10^21, where the program prints no
    exponent: integer part, then the fractional digits. *)
Fixpoint frac_digits (fuel : nat) (r d : Z) : jsstring :=
  match fuel with
  | O => []
  | S f =>
      if (r =? 0)%Z then []
      else N.add 48 (Z.to_N (r * 10 / d)) :: frac_digits f ((r * 10) mod d) d
  end.

Definition number_to_string (q : Q) : jsstring :=
  let n := Qnum (Qred q) in
  let d := Zpos (Qden (Qred q)) in
  let a := Z.abs n in
  let sign := if (n <? 0)%Z then [45%N] else [] in
  let ip := decimal_of_Z (a / d) in
  match frac_digits 30 (a mod d) d with
  | [] => sign ++ ip
  | fd => sign ++ ip ++ [46%N] ++ fd
  end.

(** ToString, as template literals apply it; [None] where it throws a
    TypeError.  An object is converted by its toString method and, failing
    that, by valueOf.  An own property named toString hides
    Object.prototype.toString and, holding data, cannot be called, and the
    valueOf of a plain object returns no primitive: such an object has no
    string.  An array is converted by join, which converts the elements in
    turn, undefined and null to the empty string. *)
Fixpoint to_string (v : value) : option jsstring :=
  match v with
  | VUndefined => Some #"undefined"
  | VNull => Some #"null"
  | VBool true => Some #"true"
  | VBool false => Some #"false"
  | VNaN => Some #"NaN"
  | VNum q => Some (number_to_string q)
  | VStr s => Some s
  | VArr items =>
      option_map (join [44%N])
        ((fix elements (l : list value) : option (list jsstring) :=
            match l with
            | [] => Some []
            | x :: r =>
                match (match x with
                       | VUndefined | VNull => Some []
                       | _ => to_string x
                       end), elements r with
                | Some a, Some b => Some (a :: b)
                | _, _ => None
                end
            end) items)
  | VObj props =>
      match assoc #"toString" props with
      | Some _ => None
      | None => Some #"[object Object]"
      end
  end.

End Js.
Import Js.

Notation "k ':-' v" := (js k, v) (at level 60, no associativity) : js_scope.
Notation "'obj' l" := (VObj l) (at level 10, only parsing) : js_scope.
Abbreviation strs l := (strings l%string) (only parsing).
Abbreviation ints l := (integers l%Z) (only parsing).

(* ================================================================= *)
(** ** Regular expressions

    A backtracking matcher in continuation-passing style, after the
    matcher semantics of the language standard: alternatives are tried left
    to right, a greedy star tries one more iteration before it tries the
    rest of the pattern, a lazy star does the opposite, and an iteration
    that consumes nothing is rejected. *)

Module RegExp.

Inductive regex : Type :=
| Empty
| Char (c : N)                      (* a pattern character *)
| Class (p : N -> bool)             (* a character class *)
| Seq (r1 r2 : regex)
| Alt (r1 r2 : regex)               (* r1|r2 *)
| Star (greedy : bool) (r : regex)  (* r* and r*? *)
| Group (n : nat) (r : regex).      (* the n-th capturing group *)

Definition Plus (r : regex) : regex := Seq r (Star true r).   (* r+ *)
Definition Opt (r : regex) : regex := Alt r Empty.            (* r? *)

Fixpoint Lit_units (l : list N) : regex :=
  match l with
  | [] => Empty
  | [c] => Char c
  | c :: l' => Seq (Char c) (Lit_units l')
  end.
Definition Lit (s : string) : regex := Lit_units (js s).

(** The classes the source patterns use. *)
Definition any_char (c : N) : bool := true.                    (* [\s\S] *)
Definition digit (c : N) : bool := is_digit c.                 (* \d *)
Definition line_terminator (c : N) : bool :=
  ((c =? 10) || (c =? 13) || (c =? 8232) || (c =? 8233))%N.
Definition dot (c : N) : bool := negb (line_terminator c).     (* . *)
Definition white_space (c : N) : bool :=                       (* \s *)
  ((c =? 9) || (c =? 10) || (c =? 11) || (c =? 12) || (c =? 13) || (c =? 32)
   || (c =? 160) || (c =? 5760) || ((8192 <=? c) && (c <=? 8202))
   || (c =? 8232) || (c =? 8233) || (c =? 8239) || (c =? 8287)
   || (c =? 12288) || (c =? 65279))%N.

(** Canonicalize, for the [i] flag.  The pattern characters of this program
    are ASCII letters; a code unit of 128 or more never canonicalizes to an
    ASCII one, so upper-casing the ASCII range decides every comparison
    with a pattern character. *)
Definition canonicalize (c : N) : N :=
  if ((97 <=? c) && (c <=? 122))%N then (c - 32)%N else c.

Definition char_matches (ignore_case : bool) (p c : N) : bool :=
  if ignore_case then (canonicalize p =? canonicalize c)%N else (p =? c)%N.

(** Captures: group number, start and end offset from the start of the
    match. *)
Definition captures := list (nat * (nat * nat)).

Section Matcher.
Variable ignore_case : bool.
Variable R : Type.

Definition continuation := jsstring -> nat -> captures -> option R.

(** The iterations of a star.  [step] matches the starred pattern once;
    the fuel, one more than the number of code units left, is never
    exhausted, because every accepted iteration consumes at least one. *)
Fixpoint star_loop (step : jsstring -> nat -> captures -> continuation -> option R)
         (greedy : bool) (k : continuation) (fuel : nat)
         (s : jsstring) (pos : nat) (caps : captures) {struct fuel} : option R :=
  match fuel with
  | O => None
  | S fuel' =>
      let again : continuation :=
        fun s1 pos1 caps1 =>
          if (pos <? pos1)%nat then star_loop step greedy k fuel' s1 pos1 caps1
          else None in
      if greedy then
        match step s pos caps again with
        | Some res => Some res
        | None => k s pos caps
        end
      else
        match k s pos caps with
        | Some res => Some res
        | None => step s pos caps again
        end
  end.

Fixpoint m (r : regex) (s : jsstring) (pos : nat) (caps : captures)
         (k : continuation) {struct r} : option R :=
  match r with
  | Empty => k s pos caps
  | Char p =>
      match s with
      | c :: s' => if char_matches ignore_case p c then k s' (S pos) caps else None
      | [] => None
      end
  | Class p =>
      match s with
      | c :: s' => if p c then k s' (S pos) caps else None
      | [] => None
      end
  | Seq r1 r2 => m r1 s pos caps (fun s1 pos1 caps1 => m r2 s1 pos1 caps1 k)
  | Alt r1 r2 =>
      match m r1 s pos caps k with
      | Some res => Some res
      | None => m r2 s pos caps k
      end
  | Star greedy r1 => star_loop (m r1) greedy k (S (List.length s)) s pos caps
  | Group n r1 =>
      m r1 s pos caps (fun s1 pos1 caps1 => k s1 pos1 ((n, (pos, pos1)) :: caps1))
  end.
End Matcher.

(** The match array of [RegExp.prototype.exec]. *)
Record match_result : Type := {
  index : nat;
  matched : jsstring;                  (* match[0] *)
  group : nat -> option jsstring       (* match[n], None for undefined *)
}.

Fixpoint lookup_capture (n : nat) (caps : captures) : option (nat * nat) :=
  match caps with
  | [] => None
  | (n', be) :: r => if Nat.eqb n n' then Some be else lookup_capture n r
  end.

Definition substring (s : jsstring) (b e : nat) : jsstring :=
  firstn (e - b) (skipn b s).

Definition match_at (ignore_case : bool) (r : regex) (s : jsstring)
  : option (nat * captures) :=
  m ignore_case r s 0 [] (fun _ pos caps => Some (pos, caps)).

(** A regular expression literal: pattern and [i] flag. *)
Record regexp : Type := { pattern : regex; flag_i : bool }.

(** [exec] without the [g] flag: the leftmost start position at which the
    pattern matches. *)
Fixpoint exec_from (re : regexp) (s : jsstring) (start : nat) : option match_result :=
  match match_at (flag_i re) (pattern re) s with
  | Some (len, caps) =>
      Some {| index := start;
              matched := firstn len s;
              group := fun n =>
                         match lookup_capture n caps with
                         | Some (b, e) => Some (substring s b e)
                         | None => None
                         end |}
  | None =>
      match s with
      | [] => None
      | _ :: s' => exec_from re s' (S start)
      end
  end.

(** [String.prototype.match] with a regular expression without [g]. *)
Definition String_match (s : jsstring) (re : regexp) : option match_result :=
  exec_from re s 0.

End RegExp.
Import RegExp.

(* ================================================================= *)
(** ** JSON.parse and JSON.stringify *)

Module JSON.

Definition is_ws (c : N) : bool :=
  ((c =? 32) || (c =? 9) || (c =? 10) || (c =? 13))%N.

Fixpoint skip_ws (s : jsstring) : jsstring :=
  match s with
  | c :: r => if is_ws c then skip_ws r else s
  | [] => []
  end.

Definition hex_digit (c : N) : option N :=
  if is_digit c then Some (c - 48)%N
  else if ((97 <=? c) && (c <=? 102))%N then Some (c - 87)%N
  else if ((65 <=? c) && (c <=? 70))%N then Some (c - 55)%N
  else None.

Definition hex4 (a b c d : N) : option N :=
  match hex_digit a, hex_digit b, hex_digit c, hex_digit d with
  | Some x, Some y, Some z, Some w => Some (x * 4096 + y * 256 + z * 16 + w)%N
  | _, _, _, _ => None
  end.

Definition escape (e : N) : option N :=
  if (e =? 34)%N then Some 34%N          (* quote *)
  else if (e =? 92)%N then Some 92%N     (* backslash *)
  else if (e =? 47)%N then Some 47%N     (* slash *)
  else if (e =? 98)%N then Some 8%N      (* backspace *)
  else if (e =? 102)%N then Some 12%N    (* form feed *)
  else if (e =? 110)%N then Some 10%N    (* line feed *)
  else if (e =? 114)%N then Some 13%N    (* carriage return *)
  else if (e =? 116)%N then Some 9%N     (* tab *)
  else None.

Definition cons_fst (c : N) (o : option (jsstring * jsstring))
  : option (jsstring * jsstring) :=
  match o with
  | Some (a, r) => Some (c :: a, r)
  | None => None
  end.

(** The characters of a string after its opening quote, up to and
    including the closing quote. *)
Fixpoint parse_string_body (s : jsstring) : option (jsstring * jsstring) :=
  match s with
  | [] => None
  | c :: r =>
      if (c =? 34)%N then Some ([], r)
      else if (c =? 92)%N then
        match r with
        | [] => None
        | e :: r1 =>
            if (e =? 117)%N then
              match r1 with
              | h1 :: h2 :: h3 :: h4 :: r2 =>
                  match hex4 h1 h2 h3 h4 with
                  | Some u => cons_fst u (parse_string_body r2)
                  | None => None
                  end
              | _ => None
              end
            else
              match escape e with
              | Some u => cons_fst u (parse_string_body r1)
              | None => None
              end
        end
      else if (c <? 32)%N then None
      else cons_fst c (parse_string_body r)
  end.

Fixpoint take_digits (s : jsstring) : list N * jsstring :=
  match s with
  | c :: r =>
      if is_digit c then let '(ds, r') := take_digits r in (c :: ds, r')
      else ([], s)
  | [] => ([], [])
  end.

Definition Z_of_digits (ds : list N) : Z :=
  fold_left (fun acc c => (acc * 10 + Z.of_N (c - 48))%Z) ds 0%Z.

Definition scale10 (mant e : Z) : Q :=
  if (0 <=? e)%Z then inject_Z (mant * 10 ^ e)
  else Qred (Qmake mant (Z.to_pos (10 ^ (- e)))).

(** A number: [-]? int frac? exp?  The value kept is that of the literal;
    the program keeps the double nearest to it. *)
Definition take_sign (s : jsstring) : bool * jsstring :=
  match s with
  | c :: r => if (c =? 45)%N then (true, r) else (false, s)
  | [] => (false, s)
  end.

(** frac: a point and at least one digit *)
Definition take_fraction (s : jsstring) : option (list N * jsstring) :=
  match s with
  | c :: r =>
      if (c =? 46)%N then
        match take_digits r with
        | ([], _) => None
        | (fd, r') => Some (fd, r')
        end
      else Some ([], s)
  | [] => Some ([], s)
  end.

(** exp: e or E, an optional sign and at least one digit *)
Definition take_exponent_sign (s : jsstring) : bool * jsstring :=
  match s with
  | sg :: r =>
      if (sg =? 45)%N then (true, r)
      else if (sg =? 43)%N then (false, r)
      else (false, s)
  | [] => (false, s)
  end.

Definition take_exponent (s : jsstring) : option (Z * jsstring) :=
  match s with
  | c :: r =>
      if ((c =? 101) || (c =? 69))%N then
        let '(eneg, r1) := take_exponent_sign r in
        match take_digits r1 with
        | ([], _) => None
        | (ed, r2) => Some ((if eneg then - Z_of_digits ed else Z_of_digits ed)%Z, r2)
        end
      else Some (0%Z, s)
  | [] => Some (0%Z, s)
  end.

Definition parse_number (s : jsstring) : option (value * jsstring) :=
  let '(neg, s1) := take_sign s in
  let '(ip, s2) := take_digits s1 in
  match ip with
  | [] => None
  | d0 :: ip' =>
      (* no leading zero before further digits *)
      if (d0 =? 48)%N && negb (match ip' with [] => true | _ => false end) then None
      else
        match take_fraction s2 with
        | None => None
        | Some (fd, s3) =>
            match take_exponent s3 with
            | None => None
            | Some (e, s4) =>
                let mant := Z_of_digits (ip ++ fd) in
                let q := scale10 mant (e - Z.of_nat (List.length fd)) in
                Some (VNum (if neg then Qred (- q) else q), s4)
            end
        end
  end.

Fixpoint strip_prefix (p s : jsstring) : option jsstring :=
  match p, s with
  | [], _ => Some s
  | a :: p', b :: s' => if (a =? b)%N then strip_prefix p' s' else None
  | _ :: _, [] => None
  end.

(** CreateDataProperty on the object under construction: a repeated key
    overwrites the earlier value. *)
Fixpoint obj_set (props : list (jsstring * value)) (k : jsstring) (v : value)
  : list (jsstring * value) :=
  match props with
  | [] => [(k, v)]
  | (k', v') :: r =>
      if JsString.eqb k k' then (k', v) :: r else (k', v') :: obj_set r k v
  end.

Fixpoint parse_value (fuel : nat) (s : jsstring) : option (value * jsstring) :=
  match fuel with
  | O => None
  | S f =>
      match skip_ws s with
      | [] => None
      | c :: r =>
          if (c =? 123)%N then
            match skip_ws r with
            | c' :: r' =>
                if (c' =? 125)%N then Some (VObj [], r') else parse_members f r []
            | [] => None
            end
          else if (c =? 91)%N then
            match skip_ws r with
            | c' :: r' =>
                if (c' =? 93)%N then Some (VArr [], r') else parse_elements f r []
            | [] => None
            end
          else if (c =? 34)%N then
            match parse_string_body r with
            | Some (str, r') => Some (VStr str, r')
            | None => None
            end
          else
            match strip_prefix #"true" (c :: r) with
            | Some r' => Some (VBool true, r')
            | None =>
                match strip_prefix #"false" (c :: r) with
                | Some r' => Some (VBool false, r')
                | None =>
                    match strip_prefix #"null" (c :: r) with
                    | Some r' => Some (VNull, r')
                    | None => parse_number (c :: r)
                    end
                end
            end
      end
  end
with parse_members (fuel : nat) (s : jsstring) (acc : list (jsstring * value))
  : option (value * jsstring) :=
  match fuel with
  | O => None
  | S f =>
      match skip_ws s with
      | c :: r =>
          if (c =? 34)%N then
            match parse_string_body r with
            | Some (key, r1) =>
                match skip_ws r1 with
                | c1 :: r2 =>
                    if (c1 =? 58)%N then
                      match parse_value f r2 with
                      | Some (v, r3) =>
                          match skip_ws r3 with
                          | c3 :: r4 =>
                              if (c3 =? 44)%N then parse_members f r4 (obj_set acc key v)
                              else if (c3 =? 125)%N then Some (VObj (obj_set acc key v), r4)
                              else None
                          | [] => None
                          end
                      | None => None
                      end
                    else None
                | [] => None
                end
            | None => None
            end
          else None
      | [] => None
      end
  end
with parse_elements (fuel : nat) (s : jsstring) (acc : list value)
  : option (value * jsstring) :=
  match fuel with
  | O => None
  | S f =>
      match parse_value f s with
      | Some (v, r) =>
          match skip_ws r with
          | c :: r' =>
              if (c =? 44)%N then parse_elements f r' (acc ++ [v])
              else if (c =? 93)%N then Some (VArr (acc ++ [v]), r')
              else None
          | [] => None
          end
      | None => None
      end
  end.

(** [JSON.parse]: [None] stands for the SyntaxError it throws. *)
Definition parse (s : jsstring) : option value :=
  match parse_value (S (2 * List.length s)) s with
  | Some (v, r) => match skip_ws r with [] => Some v | _ => None end
  | None => None
  end.

(** QuoteJSONString *)
Definition hex_unit (n : N) : N :=
  if (n <? 10)%N then (48 + n)%N else (87 + n)%N.

Definition unicode_escape (c : N) : jsstring :=
  [92; 117; hex_unit (c / 4096); hex_unit ((c / 256) mod 16);
   hex_unit ((c / 16) mod 16); hex_unit (c mod 16)]%N.

Definition is_high_surrogate (c : N) : bool := ((55296 <=? c) && (c <=? 56319))%N.
Definition is_low_surrogate (c : N) : bool := ((56320 <=? c) && (c <=? 57343))%N.

Fixpoint quote_units (s : jsstring) : jsstring :=
  match s with
  | [] => []
  | c :: r =>
      if (c =? 34)%N then [92; 34]%N ++ quote_units r
      else if (c =? 92)%N then [92; 92]%N ++ quote_units r
      else if (c =? 8)%N then [92; 98]%N ++ quote_units r
      else if (c =? 12)%N then [92; 102]%N ++ quote_units r
      else if (c =? 10)%N then [92; 110]%N ++ quote_units r
      else if (c =? 13)%N then [92; 114]%N ++ quote_units r
      else if (c =? 9)%N then [92; 116]%N ++ quote_units r
      else if (c <? 32)%N then unicode_escape c ++ quote_units r
      else if is_high_surrogate c then
        match r with
        | c2 :: r2 =>
            if is_low_surrogate c2 then c :: c2 :: quote_units r2
            else unicode_escape c ++ quote_units r
        | [] => unicode_escape c
        end
      else if is_low_surrogate c then unicode_escape c ++ quote_units r
      else c :: quote_units r
  end.

Definition quote (s : jsstring) : jsstring := [34%N] ++ quote_units s ++ [34%N].

(** [JSON.stringify] of one argument: [None] is the [undefined] it returns
    for [undefined]. *)
Fixpoint stringify (v : value) : option jsstring :=
  match v with
  | VUndefined => None
  | VNull => Some #"null"
  | VBool true => Some #"true"
  | VBool false => Some #"false"
  | VNaN => Some #"null"
  | VNum q => Some (number_to_string q)
  | VStr s => Some (quote s)
  | VArr items =>
      Some ([91%N]
              ++ join [44%N]
                   (map (fun x => match stringify x with
                                  | Some t => t
                                  | None => #"null"
                                  end) items)
              ++ [93%N])
  | VObj props =>
      Some ([123%N]
              ++ join [44%N]
                   ((fix members (ps : list (jsstring * value)) : list jsstring :=
                       match ps with
                       | [] => []
                       | (k, x) :: r =>
                           match stringify x with
                           | Some t => (quote k ++ [58%N] ++ t) :: members r
                           | None => members r
                           end
                       end) props)
              ++ [125%N])
  end.

End JSON.

(* ================================================================= *)
(** ** The outside world and the effects of a call *)

Module World.

(** What one use of the completion service yields:
    [await this.model.generateContent(prompt)], [await result.response] and
    [response.text()] either deliver the response text or one of them
    throws. *)
Inductive outcome : Type :=
| Responds (text : jsstring)
| Rejects (error : value).

Record runtime : Type := {
  completion_service : nat -> jsstring -> outcome;   (* n-th use, prompt *)
  toISOString : nat -> jsstring;                     (* n-th reading of the clock *)
  toLocaleString : nat -> jsstring
}.

Inductive console_level : Type := Log | Warn | Error.

Inductive event : Type :=
| ServiceCall (prompt : jsstring)
| ParseAttempt (source : jsstring)
| ClockRead
| Console (level : console_level) (args : list value).

Definition trace := list event.

Definition is_service_call (e : event) : bool :=
  match e with ServiceCall _ => true | _ => false end.
Definition is_clock_read (e : event) : bool :=
  match e with ClockRead => true | _ => false end.

Definition service_calls (t : trace) : nat := List.length (filter is_service_call t).
Definition clock_reads (t : trace) : nat := List.length (filter is_clock_read t).

Definition parse_attempts (t : trace) : list jsstring :=
  flat_map (fun e => match e with ParseAttempt s => [s] | _ => [] end) t.

(** A call either completes normally or throws. *)
Inductive completion (A : Type) : Type :=
| Normal (a : A)
| Throw (error : value).
Arguments Normal {A} a.
Arguments Throw {A} error.

Definition M (A : Type) : Type := trace -> completion A * trace.

Definition ret {A} (a : A) : M A := fun t => (Normal a, t).
Definition throw {A} (e : value) : M A := fun t => (Throw e, t).

Definition bind {A B} (c : M A) (k : A -> M B) : M B :=
  fun t =>
    match c t with
    | (Normal a, t') => k a t'
    | (Throw e, t') => (Throw e, t')
    end.

(** try { body } catch (e) { handler e } *)
Definition try_catch {A} (body : M A) (handler : value -> M A) : M A :=
  fun t =>
    match body t with
    | (Normal a, t') => (Normal a, t')
    | (Throw e, t') => handler e t'
    end.

Definition emit (e : event) : M unit := fun t => (Normal tt, t ++ [e]).

Definition console (level : console_level) (args : list value) : M unit :=
  emit (Console level args).

Definition TypeError : value := VObj [(js "name", VStr (js "TypeError"))].
Definition SyntaxError : value := VObj [(js "name", VStr (js "SyntaxError"))].

Section Primitives.
Variable rt : runtime.

(** this.model.generateContent(prompt), then the text of its response *)
Definition model_generateContent (prompt : jsstring) : M jsstring :=
  fun t =>
    match completion_service rt (service_calls t) prompt with
    | Responds text => (Normal text, t ++ [ServiceCall prompt])
    | Rejects e => (Throw e, t ++ [ServiceCall prompt])
    end.

(** new Date().toISOString() and new Date().toLocaleString() *)
Definition Date_toISOString : M jsstring :=
  fun t => (Normal (toISOString rt (clock_reads t)), t ++ [ClockRead]).
Definition Date_toLocaleString : M jsstring :=
  fun t => (Normal (toLocaleString rt (clock_reads t)), t ++ [ClockRead]).
End Primitives.

(** JSON.parse(source) *)
Definition JSON_parse (source : jsstring) : M value :=
  fun t =>
    match JSON.parse source with
    | Some v => (Normal v, t ++ [ParseAttempt source])
    | None => (Throw SyntaxError, t ++ [ParseAttempt source])
    end.

(** ToString in a template literal *)
Definition ToString (v : value) : M jsstring :=
  match to_string v with
  | Some s => ret s
  | None => throw TypeError
  end.

(** Reading a property: of [undefined] and [null] it throws, of an object
    it is the own property or [undefined]; the other values have none of
    the properties this program reads. *)
Definition get (v : value) (k : string) : M value :=
  match v with
  | VUndefined | VNull => throw TypeError
  | VObj props => ret (match assoc (js k) props with Some x => x | None => VUndefined end)
  | _ => ret VUndefined
  end.

(** v?.k *)
Definition opt_get (v : value) (k : string) : value :=
  match v with
  | VObj props => match assoc (js k) props with Some x => x | None => VUndefined end
  | _ => VUndefined
  end.

End World.
Import World.

Notation "x <- c ;; k" := (bind c (fun x => k))
  (at level 61, c at next level, right associativity) : js_scope.
Notation "c ;;; k" := (bind c (fun _ => k))
  (at level 61, right associativity) : js_scope.

(* ================================================================= *)
(** ** The gateway: class GeminiService *)

Module GeminiService.

(** /\{[\s\S]*\}/ *)
Definition json_object_regexp : regexp :=
  {| pattern := Seq (Char 123) (Seq (Star true (Class any_char)) (Char 125));
     flag_i := false |}.

(** `${JSON.stringify(x)}` and a JSON.stringify(x) passed as user input *)
Definition stringify_text (v : value) : jsstring :=
  match JSON.stringify v with
  | Some t => t
  | None => #"undefined"
  end.

(** [v === s] for a string literal [s] *)
Definition strict_equals (v w : value) : bool :=
  match v, w with
  | VStr a, VStr b => JsString.eqb a b
  | _, _ => false
  end.

(** [a * q] for a numeric literal [q] *)
Definition int_times (a : jsint) (q : Q) : value :=
  match a with
  | NaN => VNaN
  | Int z => num (inject_Z z * q)%Q
  end.

(** `${a * q}` *)
Definition int_times_text (a : jsint) (q : Q) : jsstring :=
  match a with
  | NaN => #"NaN"
  | Int z => number_to_string (inject_Z z * q)
  end.

(** *** Prompts and fallback records

    A template literal converts the value of each substitution to a string
    where it stands, and the conversion can throw.  The methods below do
    the conversions, in the order of the source; the texts are then built
    from the strings. *)

(** [getHospitals] *)
Definition getHospitals_systemPrompt : jsstring :=
  #"You are a hospital management system. Generate realistic hospital data for Chennai, India. 
    Return JSON with an array of hospitals, each having: id, name, location, total_beds, available_beds, specialties, contact_number, emergency_services, rating.".

Definition getHospitals_fallbackData : value :=
  obj [
    "hospitals" :- VArr [
      obj [
        "id" :- int 1;
        "name" :- str "Apollo Hospital Chennai";
        "location" :- str "Greams Road, Chennai";
        "total_beds" :- int 650;
        "available_beds" :- int 45;
        "specialties" :- strs ["Cardiology"; "Neurology"; "Oncology"; "Emergency"];
        "contact_number" :- str "+91-44-2829-3333";
        "emergency_services" :- VBool true;
        "rating" :- num 4.5%Q];
      obj [
        "id" :- int 2;
        "name" :- str "Fortis Malar Hospital";
        "location" :- str "Adyar, Chennai";
        "total_beds" :- int 400;
        "available_beds" :- int 32;
        "specialties" :- strs ["Orthopedics"; "Gastroenterology"; "Pediatrics"];
        "contact_number" :- str "+91-44-4289-4289";
        "emergency_services" :- VBool true;
        "rating" :- num 4.2%Q];
      obj [
        "id" :- int 3;
        "name" :- str "MIOT International";
        "location" :- str "Manapakkam, Chennai";
        "total_beds" :- int 500;
        "available_beds" :- int 28;
        "specialties" :- strs ["Multi-organ transplant"; "Cardiothoracic Surgery"; "Neurosurgery"];
        "contact_number" :- str "+91-44-4200-2500";
        "emergency_services" :- VBool true;
        "rating" :- num 4.4%Q]]].

(** [getDoctors] *)
Definition getDoctors_systemPrompt : jsstring :=
  #"You are a doctor management system. Generate realistic doctor data.
    Return JSON with an array of doctors, each having: id, name, specialty, hospital_id, years_experience, availability_status, consultations_today, rating.".

Definition getDoctors_fallbackData : value :=
  obj [
    "doctors" :- VArr [
      obj [
        "id" :- int 1;
        "name" :- str "Dr. Rajesh Kumar";
        "specialty" :- str "Cardiology";
        "hospital_id" :- int 1;
        "years_experience" :- int 15;
        "availability_status" :- str "available";
        "consultations_today" :- int 12;
        "rating" :- num 4.6%Q];
      obj [
        "id" :- int 2;
        "name" :- str "Dr. Priya Sharma";
        "specialty" :- str "Neurology";
        "hospital_id" :- int 1;
        "years_experience" :- int 18;
        "availability_status" :- str "busy";
        "consultations_today" :- int 8;
        "rating" :- num 4.8%Q];
      obj [
        "id" :- int 3;
        "name" :- str "Dr. Suresh Reddy";
        "specialty" :- str "Emergency Medicine";
        "hospital_id" :- int 2;
        "years_experience" :- int 10;
        "availability_status" :- str "available";
        "consultations_today" :- int 15;
        "rating" :- num 4.3%Q]]].

(** [getPatients] *)
Definition getPatients_systemPrompt : jsstring :=
  #"You are a patient management system. Generate realistic patient data.
    Return JSON with an array of patients, each having: id, name, age, condition, severity, admission_date, doctor_id, status.".

Definition getPatients_fallbackData : value :=
  obj [
    "patients" :- VArr [
      obj [
        "id" :- int 1;
        "name" :- str "Ramesh Kumar";
        "age" :- int 45;
        "condition" :- str "Heart Attack";
        "severity" :- str "critical";
        "admission_date" :- str "2024-01-15";
        "doctor_id" :- int 1;
        "status" :- str "admitted"];
      obj [
        "id" :- int 2;
        "name" :- str "Lakshmi Devi";
        "age" :- int 32;
        "condition" :- str "Stroke";
        "severity" :- str "serious";
        "admission_date" :- str "2024-01-16";
        "doctor_id" :- int 2;
        "status" :- str "stable"];
      obj [
        "id" :- int 3;
        "name" :- str "Arjun Patel";
        "age" :- int 28;
        "condition" :- str "Accident Injury";
        "severity" :- str "moderate";
        "admission_date" :- str "2024-01-16";
        "doctor_id" :- int 3;
        "status" :- str "recovering"]]].

(** [findHospitalIntelligent] *)
Definition findHospitalIntelligent_systemPrompt : jsstring :=
  #"You are an intelligent hospital recommendation system. Based on patient condition, location, and requirements, recommend the best hospital.
    Analyze: patient condition, severity, location, insurance, specialization needed.
    Return JSON with: recommended_hospital (object with hospital details), reasoning (string), alternatives (array of other options), estimated_time, cost_estimate.".

Definition findHospitalIntelligent_fallbackData : value :=
  obj [
    "recommended_hospital" :- obj [
      "id" :- int 1;
      "name" :- str "Apollo Hospital Chennai";
      "location" :- str "Greams Road, Chennai";
      "specialties" :- strs ["Cardiology"; "Emergency"];
      "available_beds" :- int 45;
      "estimated_time" :- str "15 minutes";
      "rating" :- num 4.5%Q];
    "reasoning" :- str "Apollo Hospital is recommended due to its excellent cardiology department and proximity to your location. They have emergency services available and experienced specialists on duty.";
    "alternatives" :- VArr [
      obj [
        "name" :- str "Fortis Malar Hospital";
        "distance" :- str "8 km";
        "specialties" :- strs ["Emergency"; "General Medicine"]]];
    "cost_estimate" :- str "₹15,000 - ₹25,000";
    "emergency_contact" :- str "+91-44-2829-3333"].

(** [getDashboardStats] *)
Definition getDashboardStats_systemPrompt : jsstring :=
  #"Generate hospital dashboard statistics including total hospitals, doctors, patients, emergencies today, average waiting time.
    Return JSON with comprehensive stats.".

Definition getDashboardStats_fallbackData : value :=
  obj [
    "total_hospitals" :- int 25;
    "total_doctors" :- int 450;
    "total_patients" :- int 1200;
    "emergencies_today" :- int 35;
    "average_waiting_time" :- int 18;
    "bed_occupancy_rate" :- int 78;
    "critical_patients" :- int 42;
    "ambulances_active" :- int 12].

(** [getOccupancyTrends] *)
Definition getOccupancyTrends_systemPrompt : jsstring :=
  #"Generate hospital bed occupancy trends for the last 7 days.
    Return JSON with days array and occupancy_rates array (percentage values).".

Definition getOccupancyTrends_fallbackData : value :=
  obj [
    "days" :- strs ["Mon"; "Tue"; "Wed"; "Thu"; "Fri"; "Sat"; "Sun"];
    "occupancy_rates" :- ints [72; 75; 80; 85; 78; 65; 70];
    "emergency_admissions" :- ints [15; 18; 22; 25; 20; 12; 16];
    "discharges" :- ints [20; 25; 18; 30; 22; 28; 24]].

(** [getSpecialtyDistribution] *)
Definition getSpecialtyDistribution_systemPrompt : jsstring :=
  #"Generate distribution of medical specialties in hospitals.
    Return JSON with labels array (specialty names) and data array (number of doctors/cases).".

Definition getSpecialtyDistribution_fallbackData : value :=
  obj [
    "labels" :- strs ["Cardiology"; "Neurology"; "Orthopedics"; "Emergency"; "Pediatrics"; "General Medicine"];
    "data" :- ints [85; 65; 75; 95; 55; 120]].

(** [allocateShelter] *)
Definition allocateShelter_systemPrompt : jsstring :=
  #"You are a smart shelter allocation system using AI. Analyze applicant data and recommend suitable shelter.
    Consider: family_size, income, location_preference, special_needs, urgency_score.
    Return JSON with: allocated_shelter (object), allocation_score, reasoning, wait_time, required_documents.".

Definition allocateShelter_fallbackData : value :=
  obj [
    "allocated_shelter" :- obj [
      "shelter_id" :- str "SH001";
      "name" :- str "New Hope Community Shelter";
      "location" :- str "Anna Nagar, Chennai";
      "capacity" :- int 50;
      "available_slots" :- int 5;
      "facilities" :- strs ["Kitchen"; "School"; "Medical Care"];
      "monthly_rent" :- int 2500];
    "allocation_score" :- num 0.87%Q;
    "reasoning" :- str "High compatibility based on family size, location preference, and available facilities. The shelter has good schools nearby for children and medical facilities.";
    "wait_time" :- str "2-3 days";
    "required_documents" :- strs ["Aadhar Card"; "Income Certificate"; "Family Photos"; "Bank Statement"]].

(** [getShelterStats] *)
Definition getShelterStats_systemPrompt : jsstring :=
  #"Generate shelter allocation system statistics.
    Return JSON with: total_shelters, total_capacity, occupied_slots, waiting_list, allocation_success_rate, average_wait_time.".

Definition getShelterStats_fallbackData : value :=
  obj [
    "total_shelters" :- int 15;
    "total_capacity" :- int 750;
    "occupied_slots" :- int 580;
    "waiting_list" :- int 95;
    "allocation_success_rate" :- int 78;
    "average_wait_time" :- num 4.2%Q].

Definition reverseGeocodingPrompt (latitude longitude : jsstring) : jsstring :=
  #"You are a precise reverse geocoding system. Given these coordinates: latitude "
    ++ latitude
    ++ #", longitude "
    ++ longitude
    ++ #" in Chennai, India, determine the exact locality, neighborhood, or area name these coordinates belong to.
    
    Output ONLY a detailed JSON object with this structure:
    {
      `area_name`: `The specific neighborhood or locality name`, 
      `district`: `The district this area belongs to`,
      `city`: `Chennai`,
      `landmarks`: [`Notable landmark 1`, `Notable landmark 2`],
      `postal_code`: `The postal code for this area`
    }
    
    Be very precise and accurate with neighborhood names in Chennai. Do not include any explanations, just the JSON.".

Definition findNearbyHospitals_systemPrompt
    (location latitude longitude near focus severity latitude' longitude' area_name
       district nearest_landmarks postal_code emergency_level response_time severity'
     : jsstring) : jsstring :=
  #"You are a hospital locator system for Chennai, India. Based on the user's current location in "
    ++ location
    ++ #" (lat: "
    ++ latitude
    ++ #", lon: "
    ++ longitude
    ++ #"), find nearby hospitals.
    
    IMPORTANT: Generate realistic hospital data specifically for Chennai with:
    - Real hospital names that exist in Chennai, especially those near "
    ++ near
    ++ #"
    - Accurate distance calculations from the given coordinates 
    - Proper Chennai area/locality names, with special focus on "
    ++ focus
    ++ #" and surrounding neighborhoods
    - Realistic contact information and services
    - Consideration of the emergency severity level: "
    ++ severity
    ++ #"/5
    
    Return JSON with structure:
    {
      `hospitals`: [
        {
          `id`: number,
          `name`: `Hospital Name`,
          `location`: `Area, Chennai`,
          `address`: `Full Address`, 
          `distance_km`: number,
          `latitude`: number,
          `longitude`: number,
          `total_beds`: number,
          `available_beds`: number,
          `available_icu_beds`: number,
          `occupancy_rate`: `percentage`,
          `status`: `Available/Limited/Full`,
          `specialties`: [`list of medical specialties`],
          `emergency_services`: boolean,
          `contact_number`: `phone number`,
          `rating`: number (1-5),
          `estimated_wait_time`: `minutes`,
          `ambulance_available`: boolean,
          `has_parking`: boolean,
          `accepts_insurance`: boolean
        }
      ],
      `user_location`: {
        `latitude`: "
    ++ latitude'
    ++ #",
        `longitude`: "
    ++ longitude'
    ++ #",
        `area_name`: `"
    ++ area_name
    ++ #"`,
        `district`: `"
    ++ district
    ++ #"`,
        `nearest_landmarks`: "
    ++ nearest_landmarks
    ++ #",
        `postal_code`: `"
    ++ postal_code
    ++ #"`
      },
      `emergency_level`: `"
    ++ emergency_level
    ++ #"`,
      `response_time`: `"
    ++ response_time
    ++ #"`
    }
    
    Generate at least 8-12 hospitals sorted by distance from closest to farthest, with special consideration for the patient's severity level ("
    ++ severity'
    ++ #"/5) when ranking them.".

Definition findNearbyHospitals_fallbackData (latitude longitude : value)
    (emergency_level response_time : jsstring) : value :=
  obj [
    "hospitals" :- VArr [
      obj [
        "id" :- int 1;
        "name" :- str "Apollo Hospital Chennai";
        "location" :- str "Greams Road, Chennai";
        "address" :- str "21, Greams Lane, Off Greams Road, Chennai - 600006";
        "distance_km" :- num 2.5%Q;
        "latitude" :- num 13.0569%Q;
        "longitude" :- num 80.2452%Q;
        "total_beds" :- int 650;
        "available_beds" :- int 45;
        "available_icu_beds" :- int 8;
        "occupancy_rate" :- str "93%";
        "status" :- str "Available";
        "specialties" :- strs ["Cardiology"; "Neurology"; "Oncology"; "Emergency Medicine"; "Pediatrics"];
        "emergency_services" :- VBool true;
        "contact_number" :- str "+91-44-2829-3333";
        "rating" :- num 4.5%Q;
        "estimated_wait_time" :- str "15 minutes";
        "ambulance_available" :- VBool true;
        "has_parking" :- VBool true;
        "accepts_insurance" :- VBool true];
      obj [
        "id" :- int 2;
        "name" :- str "Fortis Malar Hospital";
        "location" :- str "Adyar, Chennai";
        "address" :- str "52, 1st Main Road, Gandhi Nagar, Adyar, Chennai - 600020";
        "distance_km" :- num 3.8%Q;
        "latitude" :- num 13.0067%Q;
        "longitude" :- num 80.2206%Q;
        "total_beds" :- int 400;
        "available_beds" :- int 32;
        "available_icu_beds" :- int 5;
        "occupancy_rate" :- str "92%";
        "status" :- str "Available";
        "specialties" :- strs ["Orthopedics"; "Gastroenterology"; "Pediatrics"; "Emergency Medicine"];
        "emergency_services" :- VBool true;
        "contact_number" :- str "+91-44-4289-4289";
        "rating" :- num 4.2%Q;
        "estimated_wait_time" :- str "20 minutes";
        "ambulance_available" :- VBool true;
        "has_parking" :- VBool true;
        "accepts_insurance" :- VBool true];
      obj [
        "id" :- int 3;
        "name" :- str "MIOT International";
        "location" :- str "Manapakkam, Chennai";
        "address" :- str "4/112, Mount Poonamalle Road, Manapakkam, Chennai - 600089";
        "distance_km" :- num 5.2%Q;
        "latitude" :- num 13.0244%Q;
        "longitude" :- num 80.1700%Q;
        "total_beds" :- int 500;
        "available_beds" :- int 28;
        "available_icu_beds" :- int 6;
        "occupancy_rate" :- str "94%";
        "status" :- str "Limited";
        "specialties" :- strs ["Multi-organ transplant"; "Cardiothoracic Surgery"; "Neurosurgery"; "Emergency"];
        "emergency_services" :- VBool true;
        "contact_number" :- str "+91-44-4200-2500";
        "rating" :- num 4.4%Q;
        "estimated_wait_time" :- str "25 minutes";
        "ambulance_available" :- VBool true;
        "has_parking" :- VBool true;
        "accepts_insurance" :- VBool true];
      obj [
        "id" :- int 4;
        "name" :- str "Gleneagles Global Health City";
        "location" :- str "Perumbakkam, Chennai";
        "address" :- str "439, Cheran Nagar, Perumbakkam, Chennai - 600100";
        "distance_km" :- num 6.7%Q;
        "latitude" :- num 12.9010%Q;
        "longitude" :- num 80.2279%Q;
        "total_beds" :- int 750;
        "available_beds" :- int 55;
        "available_icu_beds" :- int 12;
        "occupancy_rate" :- str "93%";
        "status" :- str "Available";
        "specialties" :- strs ["Cardiac Sciences"; "Neurosciences"; "Transplant"; "Emergency"; "Critical Care"];
        "emergency_services" :- VBool true;
        "contact_number" :- str "+91-44-4444-1234";
        "rating" :- num 4.6%Q;
        "estimated_wait_time" :- str "18 minutes";
        "ambulance_available" :- VBool true;
        "has_parking" :- VBool true;
        "accepts_insurance" :- VBool true];
      obj [
        "id" :- int 5;
        "name" :- str "Sri Ramachandra Medical Centre";
        "location" :- str "Porur, Chennai";
        "address" :- str "No.1, Ramachandra Nagar, Porur, Chennai - 600116";
        "distance_km" :- num 8.3%Q;
        "latitude" :- num 13.0358%Q;
        "longitude" :- num 80.1557%Q;
        "total_beds" :- int 580;
        "available_beds" :- int 38;
        "available_icu_beds" :- int 7;
        "occupancy_rate" :- str "93%";
        "status" :- str "Available";
        "specialties" :- strs ["General Medicine"; "Surgery"; "Pediatrics"; "Emergency Medicine"; "Orthopedics"];
        "emergency_services" :- VBool true;
        "contact_number" :- str "+91-44-4928-1000";
        "rating" :- num 4.1%Q;
        "estimated_wait_time" :- str "30 minutes";
        "ambulance_available" :- VBool true;
        "has_parking" :- VBool true;
        "accepts_insurance" :- VBool true];
      obj [
        "id" :- int 6;
        "name" :- str "Government General Hospital";
        "location" :- str "Park Town, Chennai";
        "address" :- str "EVR Periyar Salai, Park Town, Chennai - 600003";
        "distance_km" :- num 4.1%Q;
        "latitude" :- num 13.0878%Q;
        "longitude" :- num 80.2785%Q;
        "total_beds" :- int 1200;
        "available_beds" :- int 85;
        "available_icu_beds" :- int 15;
        "occupancy_rate" :- str "93%";
        "status" :- str "Available";
        "specialties" :- strs ["General Medicine"; "Surgery"; "Emergency Medicine"; "Trauma Care"; "Pediatrics"];
        "emergency_services" :- VBool true;
        "contact_number" :- str "+91-44-2819-2000";
        "rating" :- num 3.8%Q;
        "estimated_wait_time" :- str "45 minutes";
        "ambulance_available" :- VBool true;
        "has_parking" :- VBool false;
        "accepts_insurance" :- VBool true]];
    "user_location" :- obj [
      "latitude" :- latitude;
      "longitude" :- longitude;
      "nearest_landmark" :- str "Chennai Central Area"];
    "emergency_level" :- VStr emergency_level;
    "response_time" :- VStr response_time].

Definition unknown_location : value :=
  obj [
    "area_name" :- str "Unknown Area";
    "district" :- str "Chennai";
    "city" :- str "Chennai";
    "landmarks" :- strs ["Unknown"];
    "postal_code" :- str "600000"].

Definition generateWastePlan_systemPrompt : jsstring :=
  #"You are HungerGuard AI, a food waste optimizer. Create an optimal food distribution plan.
    Consider: food_surplus_report, priority_focus (hunger_relief/farmer_support/environment/all).
    Return JSON with: allocation_plan (detailed string), human_summary (string), estimated_impact (object with people_served, food_saved_kg, economic_value_rupees, emissions_saved_kg).".


(** *** The food-item extraction of generateWastePlan *)

(** (\d+)\s*(?:kg|kilograms?) and (\d+)\s*(?:l|liters?) *)
Definition quantity_in (unit_words : regex) : regex :=
  Seq (Group 1 (Plus (Class digit))) (Seq (Star true (Class white_space)) unit_words).
Definition kg_words : regex := Alt (Lit "kg") (Seq (Lit "kilogram") (Opt (Char 115))).
Definition liter_words : regex := Alt (Lit "l") (Seq (Lit "liter") (Opt (Char 115))).

(** quantity, then .*? and the item words, with the [i] flag *)
Definition item_regexp (unit_words item_words : regex) : regexp :=
  {| pattern := Seq (quantity_in unit_words) (Seq (Star false (Class dot)) item_words);
     flag_i := true |}.

Record food_pattern : Type := {
  regex : regexp;
  name : jsstring;
  unit : jsstring;
  price : Z
}.

Definition tomatoes : food_pattern :=
  {| regex := item_regexp kg_words (Alt (Lit "tomato") (Lit "tomatoes"));
     name := #"Tomatoes"; unit := #"kg"; price := 15 |}.
Definition milk : food_pattern :=
  {| regex := item_regexp liter_words (Lit "milk");
     name := #"Milk"; unit := #"L"; price := 40 |}.
Definition potatoes : food_pattern :=
  {| regex := item_regexp kg_words (Alt (Lit "potato") (Lit "potatoes"));
     name := #"Potatoes"; unit := #"kg"; price := 20 |}.
Definition rice : food_pattern :=
  {| regex := item_regexp kg_words (Lit "rice");
     name := #"Rice"; unit := #"kg"; price := 25 |}.

Definition patterns : list food_pattern := [tomatoes; milk; potatoes; rice].

(** parseInt(string) without a radix: leading white space, a sign, then
    hexadecimal digits after 0x or 0X and decimal digits otherwise; NaN if
    there is no digit.  The argument [None] is [undefined].  The result is
    the value of the digits, which is the program's result as long as it is
    below 2^53; a longer run of digits the program rounds to a double. *)
Fixpoint skip_white_space (s : jsstring) : jsstring :=
  match s with
  | c :: r => if white_space c then skip_white_space r else s
  | [] => []
  end.

Fixpoint take_hex (s : jsstring) : list N :=
  match s with
  | c :: r => match JSON.hex_digit c with Some d => d :: take_hex r | None => [] end
  | [] => []
  end.

Definition digits_value (radix : Z) (ds : list N) : Z :=
  fold_left (fun acc d => (acc * radix + Z.of_N d)%Z) ds 0%Z.

Definition parseInt (arg : option jsstring) : jsint :=
  let s := skip_white_space (match arg with Some s => s | None => #"undefined" end) in
  let '(negative, s1) :=
    match s with
    | c :: r => if (c =? 45)%N then (true, r) else if (c =? 43)%N then (false, r) else (false, s)
    | [] => (false, s)
    end in
  let signed (z : Z) := if negative then (- z)%Z else z in
  let decimal :=
    match fst (JSON.take_digits s1) with
    | [] => NaN
    | ds => Int (signed (digits_value 10 (map (fun c => (c - 48)%N) ds)))
    end in
  match s1 with
  | c0 :: x :: r =>
      if ((c0 =? 48) && ((x =? 120) || (x =? 88)))%N then
        match take_hex r with
        | [] => NaN
        | ds => Int (signed (digits_value 16 ds))
        end
      else decimal
  | _ => decimal
  end.

Record extraction : Type := {
  items : list jsstring;
  totalQuantity : jsint;
  totalValue : jsint
}.

(** The body of patterns.forEach(pattern => ...) *)
Definition accumulate (report : jsstring) (acc : extraction) (pattern : food_pattern)
  : extraction :=
  match String_match report (regex pattern) with
  | Some mtch =>
      let quantity := parseInt (group mtch 1) in
      {| items := items acc
                    ++ [name pattern ++ #": " ++ int_to_string quantity ++ unit pattern];
         totalQuantity := int_add (totalQuantity acc) quantity;
         totalValue := int_add (totalValue acc) (int_mul quantity (Int (price pattern))) |}
  | None => acc
  end.

Definition extractFoodItems (report : jsstring) : extraction :=
  fold_left (accumulate report) patterns
    {| items := []; totalQuantity := Int 0; totalValue := Int 0 |}.

(** Math.floor(totalQuantity / 3) || 50 *)
Definition estimatedPeople_of (totalQuantity : jsint) : jsint :=
  int_or (int_floor_div totalQuantity 3) (Int 50).

Definition allocation_plan_text (priority_focus : value) (focus now : jsstring)
    (items : list jsstring) (totalQuantity totalValue estimatedPeople : jsint) : jsstring :=
  #"🤖 HungerGuard AI Food Distribution Plan
==================================================
Priority Focus: "
    ++ focus
    ++ #"
Report Analysis Date: "
    ++ now
    ++ #"

📦 IDENTIFIED FOOD SURPLUS:
"
    ++ (match items with
        | [] => #"   • Mixed Food Items: 200kg"
        | _ => join nl (map (fun item => #"   • " ++ item) items)
        end)
    ++ #"

🎯 ALLOCATION STRATEGY:
"
    ++ (if strict_equals priority_focus (str "hunger_relief")
       then #"1. 🚨 URGENT HUNGER RELIEF (70% of surplus):
   • Target: Orphanages, emergency shelters, food banks
   • Priority: Highly perishable items first
   • Timeline: Within 6 hours

2. 🏘️ COMMUNITY SUPPORT (30% of surplus):
   • Target: Community centers, schools, elderly care
   • Timeline: Within 24 hours"
       else #"1. 🔄 BALANCED MULTI-OBJECTIVE APPROACH:
   • 40% - Urgent hunger relief (orphanages, shelters)
   • 30% - Farmer economic support
   • 20% - Community centers and schools
   • 10% - Environmental sustainability programs")
    ++ #"

🚛 LOGISTICS & DISTRIBUTION:
   • Refrigerated vehicles for perishable items
   • Standard trucks for non-perishable items
   • Route optimization to minimize travel time
   • Real-time tracking and delivery confirmations

📊 ESTIMATED IMPACT:
   • People served: ~"
    ++ int_to_string estimatedPeople
    ++ #" individuals
   • Food waste prevented: "
    ++ int_to_string (int_or totalQuantity (Int 200))
    ++ #"kg
   • Economic value: ₹"
    ++ int_to_string (int_or totalValue (Int 5000))
    ++ #"
   • CO2 emissions avoided: "
    ++ int_times_text (int_or totalQuantity (Int 200)) 2.5
    ++ #"kg
   • Water saved: ~"
    ++ int_to_string (int_mul (int_or totalQuantity (Int 200)) (Int 1000))
    ++ #" liters".

Definition human_summary_text (focus : jsstring)
    (totalQuantity totalValue estimatedPeople : jsint) : jsstring :=
  #"Smart allocation plan created for "
    ++ int_to_string (int_or totalQuantity (Int 200))
    ++ #"kg food surplus, targeting "
    ++ int_to_string estimatedPeople
    ++ #" people with ₹"
    ++ int_to_string (int_or totalValue (Int 5000))
    ++ #" economic impact. Prioritizes "
    ++ focus
    ++ #" while ensuring efficient distribution and minimal waste.".

(** [focus] is the text of priority_focus || 'Balanced Approach' and
    [focus'] that of priority_focus || 'balanced approach'. *)
Definition generateWastePlan_fallbackData (priority_focus : value)
    (focus now focus' : jsstring) (e : extraction) : value :=
  let estimatedPeople := estimatedPeople_of (totalQuantity e) in
  obj [
    "allocation_plan" :-
      VStr (allocation_plan_text priority_focus focus now (items e) (totalQuantity e)
              (totalValue e) estimatedPeople);
    "human_summary" :-
      VStr (human_summary_text focus' (totalQuantity e) (totalValue e)
              estimatedPeople);
    "estimated_impact" :- obj [
      "people_served" :- of_jsint estimatedPeople;
      "food_saved_kg" :- of_jsint (int_or (totalQuantity e) (Int 200));
      "economic_value_rupees" :- of_jsint (int_or (totalValue e) (Int 5000));
      "emissions_saved_kg" :- int_times (int_or (totalQuantity e) (Int 200)) 2.5%Q;
      "water_saved_liters" :- of_jsint (int_mul (int_or (totalQuantity e) (Int 200)) (Int 1000))]].

(** *** The comparisons of findNearbyHospitals *)

(** StringToNumber: the number a text denotes, before it is rounded to a
    double.  White space around the literal is ignored and the empty text
    denotes 0; a literal is a signed decimal with an optional fraction and
    exponent, Infinity, or an unsigned binary, octal or hexadecimal
    integer.  Every digit counts, also beyond the twentieth significant
    one, from where on the standard lets an implementation read zeros. *)
Inductive numeric : Type :=
| NotANumber
| Infinite (negative : bool)
| Finite (q : Q).

Definition trim (s : jsstring) : jsstring :=
  rev (skip_white_space (rev (skip_white_space s))).

Fixpoint radix_value (radix acc : Z) (s : jsstring) : option Z :=
  match s with
  | [] => Some acc
  | c :: r =>
      match JSON.hex_digit c with
      | Some d =>
          if (Z.of_N d <? radix)%Z then radix_value radix (acc * radix + Z.of_N d) r
          else None
      | None => None
      end
  end.

Definition radix_literal (radix : Z) (digits : jsstring) : numeric :=
  match digits with
  | [] => NotANumber
  | _ =>
      match radix_value radix 0 digits with
      | Some z => Finite (inject_Z z)
      | None => NotANumber
      end
  end.

Definition unsigned_decimal (s : jsstring) : numeric :=
  if JsString.eqb s #"Infinity" then Infinite false
  else
    let '(ip, s1) := JSON.take_digits s in
    let '(fd, s2) :=
      match s1 with
      | c :: r => if (c =? 46)%N then JSON.take_digits r else ([], s1)
      | [] => ([], s1)
      end in
    match ip ++ fd with
    | [] => NotANumber
    | ds =>
        match JSON.take_exponent s2 with
        | Some (e, []) =>
            Finite (JSON.scale10 (JSON.Z_of_digits ds) (e - Z.of_nat (List.length fd)))
        | _ => NotANumber
        end
    end.

Definition negated (x : numeric) : numeric :=
  match x with
  | NotANumber => NotANumber
  | Infinite negative => Infinite (negb negative)
  | Finite q => Finite (- q)
  end.

Definition string_to_number (s : jsstring) : numeric :=
  match trim s with
  | [] => Finite 0
  | c :: r =>
      if (c =? 43)%N then unsigned_decimal r
      else if (c =? 45)%N then negated (unsigned_decimal r)
      else
        match r with
        | x :: digits =>
            if ((c =? 48) && ((x =? 120) || (x =? 88)))%N then radix_literal 16 digits
            else if ((c =? 48) && ((x =? 111) || (x =? 79)))%N then radix_literal 8 digits
            else if ((c =? 48) && ((x =? 98) || (x =? 66)))%N then radix_literal 2 digits
            else unsigned_decimal (c :: r)
        | [] => unsigned_decimal (c :: r)
        end
  end.

(** ToNumber; [None] where it throws a TypeError.  An object or array is
    first converted to a primitive, which for the values at hand is the
    string of [to_string]. *)
Definition to_number (v : value) : option numeric :=
  match v with
  | VUndefined | VNaN => Some NotANumber
  | VNull => Some (Finite 0)
  | VBool b => Some (Finite (if b then 1 else 0))
  | VNum q => Some (Finite q)
  | VStr s => Some (string_to_number s)
  | VArr _ | VObj _ => option_map string_to_number (to_string v)
  end.

(** [v >= n] for the literals 3 and 4.  A number is compared as it is.  A
    text denotes the double nearest to its value, and that double is at
    least [n] exactly when the value is at least n - 2^-52, half a step
    below [n] (the tie goes to [n], whose significand is even). *)
Definition at_least (v : value) (n : Z) : option bool :=
  match v with
  | VNum q => Some (Qle_bool (inject_Z n) q)
  | _ =>
      match to_number v with
      | None => None
      | Some NotANumber => Some false
      | Some (Infinite negative) => Some (negb negative)
      | Some (Finite q) => Some (Qle_bool (inject_Z n - Qmake 1 (2 ^ 52)) q)%Q
      end
  end.

(** severity >= 4 ? 'Critical' : severity >= 3 ? 'High' : 'Normal' *)
Definition emergency_level (severity : value) : option jsstring :=
  match at_least severity 4 with
  | None => None
  | Some true => Some #"Critical"
  | Some false =>
      match at_least severity 3 with
      | None => None
      | Some true => Some #"High"
      | Some false => Some #"Normal"
      end
  end.

(** *** The methods *)

Section Methods.
Variable rt : runtime.

Definition prompt_of (systemPrompt userInput : jsstring) : jsstring :=
  systemPrompt ++ nl ++ nl ++ #"User Input: " ++ userInput ++ nl ++ nl
    ++ #"Please provide a detailed JSON response.".

Definition generateContent (systemPrompt userInput : jsstring) (fallbackData : value)
  : M value :=
  let fallbackData := match fallbackData with VUndefined => VNull | v => v end in
  try_catch
    (let prompt := prompt_of systemPrompt userInput in
     text <- model_generateContent rt prompt ;;
     try_catch
       (match String_match text json_object_regexp with
        | Some jsonMatch => JSON_parse (matched jsonMatch)
        | None =>
            ret (or_else fallbackData
                   (obj ["success" :- VBool true; "data" :- VStr text]))
        end)
       (fun parseError =>
          console Warn [str "Failed to parse JSON response, using fallback:"; parseError] ;;;
          ret (or_else fallbackData
                 (obj ["success" :- VBool true; "data" :- VStr text]))))
    (fun error =>
       console Error [str "Gemini API error:"; error] ;;;
       ret (or_else fallbackData
              (obj ["success" :- VBool false;
                    "error" :- str "AI service temporarily unavailable"]))).

Definition getHospitals : M value :=
  generateContent getHospitals_systemPrompt #"List hospitals in Chennai"
    getHospitals_fallbackData.

Definition getDoctors : M value :=
  generateContent getDoctors_systemPrompt #"List doctors" getDoctors_fallbackData.

Definition getPatients : M value :=
  generateContent getPatients_systemPrompt #"List current patients"
    getPatients_fallbackData.

Definition findHospitalIntelligent (patientData : value) : M value :=
  generateContent findHospitalIntelligent_systemPrompt (stringify_text patientData)
    findHospitalIntelligent_fallbackData.

(** The conditional expression on the severity, where it is evaluated *)
Definition EmergencyLevel (severity : value) : M jsstring :=
  match emergency_level severity with
  | Some level => ret level
  | None => throw TypeError
  end.

Definition findNearbyHospitals (locationData : value) : M value :=
  (* const { latitude, longitude, severity = 1 } = locationData *)
  latitude <- get locationData "latitude" ;;
  longitude <- get locationData "longitude" ;;
  given <- get locationData "severity" ;;
  let severity := match given with VUndefined => int 1 | v => v end in
  (* reverseGeocodingPrompt *)
  lat <- ToString latitude ;;
  lon <- ToString longitude ;;
  userLocation <-
    try_catch
      (text <- model_generateContent rt (reverseGeocodingPrompt lat lon) ;;
       match String_match text json_object_regexp with
       | Some jsonMatch =>
           userLocation <- JSON_parse (matched jsonMatch) ;;
           console Log [str "🌍 Reverse geocoded location:"; userLocation] ;;;
           ret userLocation
       | None => ret VUndefined
       end)
      (fun error =>
         console Error [str "Error during reverse geocoding:"; error] ;;;
         ret unknown_location) ;;
  (* systemPrompt *)
  location <- ToString (or_else (opt_get userLocation "area_name") (str "Chennai")) ;;
  lat1 <- ToString latitude ;;
  lon1 <- ToString longitude ;;
  near <- ToString (or_else (opt_get userLocation "area_name")
                      (str "the given coordinates")) ;;
  focus <- ToString (or_else (opt_get userLocation "area_name") (str "the area")) ;;
  sev1 <- ToString severity ;;
  lat2 <- ToString latitude ;;
  lon2 <- ToString longitude ;;
  area_name <- ToString (or_else (opt_get userLocation "area_name")
                           (str "Unknown Area")) ;;
  district <- ToString (or_else (opt_get userLocation "district") (str "Chennai")) ;;
  let nearest_landmarks :=
    stringify_text (or_else (opt_get userLocation "landmarks") (strs ["Unknown"])) in
  postal_code <- ToString (or_else (opt_get userLocation "postal_code")
                             (str "600000")) ;;
  level1 <- EmergencyLevel severity ;;
  now1 <- Date_toISOString rt ;;
  sev2 <- ToString severity ;;
  let systemPrompt :=
    findNearbyHospitals_systemPrompt location lat1 lon1 near focus sev1 lat2 lon2
      area_name district nearest_landmarks postal_code level1 now1 sev2 in
  (* fallbackData *)
  level2 <- EmergencyLevel severity ;;
  now2 <- Date_toISOString rt ;;
  let fallbackData := findNearbyHospitals_fallbackData latitude longitude level2 now2 in
  (* the user input *)
  lat3 <- ToString latitude ;;
  lon3 <- ToString longitude ;;
  sev3 <- ToString severity ;;
  generateContent systemPrompt
    (#"Find hospitals near location: " ++ lat3 ++ #", " ++ lon3
       ++ #" with severity level " ++ sev3)
    fallbackData.

Definition getDashboardStats : M value :=
  generateContent getDashboardStats_systemPrompt #"Generate hospital dashboard stats"
    getDashboardStats_fallbackData.

Definition getOccupancyTrends : M value :=
  generateContent getOccupancyTrends_systemPrompt #"Generate occupancy trends"
    getOccupancyTrends_fallbackData.

Definition getSpecialtyDistribution : M value :=
  generateContent getSpecialtyDistribution_systemPrompt
    #"Generate specialty distribution" getSpecialtyDistribution_fallbackData.

Definition allocateShelter (applicantData : value) : M value :=
  generateContent allocateShelter_systemPrompt (stringify_text applicantData)
    allocateShelter_fallbackData.

Definition getShelterStats : M value :=
  generateContent getShelterStats_systemPrompt #"Generate shelter statistics"
    getShelterStats_fallbackData.

Definition generateWastePlan (planData : value) : M value :=
  raw_report <- get planData "raw_report" ;;
  priority_focus <- get planData "priority_focus" ;;
  e <- match raw_report with
       | VStr report => ret (extractFoodItems report)
       | _ => throw TypeError          (* report.match is not a function *)
       end ;;
  (* fallbackData: the substitutions of allocation_plan, then human_summary *)
  focus <- ToString (or_else priority_focus (str "Balanced Approach")) ;;
  now <- Date_toLocaleString rt ;;
  focus' <- ToString (or_else priority_focus (str "balanced approach")) ;;
  generateContent generateWastePlan_systemPrompt (stringify_text planData)
    (generateWastePlan_fallbackData priority_focus focus now focus' e).

Definition getWasteOptimizerStats : M value :=
  now <- Date_toISOString rt ;;
  ret (obj [
      "total_inventory_kg" :- int 1500;
      "total_demand_capacity" :- int 1200;
      "utilization_rate" :- num 87.5%Q;
      "available_vehicles" :- int 8;
      "total_vehicles" :- int 12;
      "available_storage_kg" :- int 4000;
      "total_storage_capacity" :- int 6500;
      "last_updated" :- VStr now]).

End Methods.

(** The endpoints that return fixed data. *)
Definition getInventoryFlow : M value :=
  ret (obj [
      "days" :- strs ["Mon"; "Tue"; "Wed"; "Thu"; "Fri"; "Sat"; "Sun"];
      "food_in" :- ints [2500; 3200; 2800; 3500; 4000; 1800; 2200];
      "food_out" :- ints [2200; 2800; 2600; 3000; 3500; 1600; 2000];
      "waste" :- ints [150; 200; 120; 180; 220; 100; 130]]).

Definition getNetworkStatus : M value :=
  ret (obj [
      "locations" :- strs ["Central Food Bank"; "North Branch"; "South Hub"; "East Center"; "West Station"];
      "current_inventory" :- ints [2500; 1800; 2200; 1600; 2000];
      "daily_distribution" :- ints [800; 600; 700; 500; 650];
      "surplus_available" :- ints [300; 200; 250; 150; 180]]).

Definition getWasteReduction : M value :=
  ret (obj [
      "categories" :- strs ["Vegetables"; "Fruits"; "Dairy"; "Meat"; "Bakery"; "Prepared Meals"];
      "waste_before" :- ints [150; 120; 80; 60; 90; 110];
      "waste_after" :- ints [45; 36; 24; 18; 27; 33]]).

Definition getInventory : M value :=
  ret (VArr [
      obj [
        "id" :- int 1;
        "location" :- str "Farm Co. (Chennai)";
        "item" :- str "Tomatoes";
        "quantity" :- str "200kg";
        "perishability" :- str "high";
        "price_per_kg" :- int 15;
        "farmer_id" :- str "F1001"];
      obj [
        "id" :- int 2;
        "location" :- str "Dairy Central (Chennai)";
        "item" :- str "Milk";
        "quantity" :- str "150L";
        "perishability" :- str "high";
        "price_per_l" :- int 40;
        "farmer_id" :- str "D2001"];
      obj [
        "id" :- int 3;
        "location" :- str "Warehouse A (Chennai)";
        "item" :- str "Potatoes";
        "quantity" :- str "500kg";
        "perishability" :- str "low";
        "price_per_kg" :- int 20;
        "farmer_id" :- str "F1002"]]).

Definition getDemand : M value :=
  ret (VArr [
      obj [
        "id" :- int 1;
        "location" :- str "Downtown Kitchen (Chennai)";
        "needs" :- strs ["Fresh produce"; "dairy"];
        "urgency" :- str "high";
        "capacity_kg" :- int 300;
        "population_served" :- int 200];
      obj [
        "id" :- int 2;
        "location" :- str "Northside Shelter (Chennai)";
        "needs" :- strs ["Any food"];
        "urgency" :- str "medium";
        "capacity_kg" :- int 500;
        "population_served" :- int 150]]).

Definition getLogistics : M value :=
  ret (VArr [
      obj [
        "id" :- int 1;
        "vehicle_type" :- str "Refrigerated Truck";
        "capacity_kg" :- int 1000;
        "location" :- str "Chennai Central";
        "status" :- str "available";
        "cost_per_km" :- int 15];
      obj [
        "id" :- int 2;
        "vehicle_type" :- str "Small Van";
        "capacity_kg" :- int 300;
        "location" :- str "North Chennai";
        "status" :- str "available";
        "cost_per_km" :- int 8]]).

Definition getStorage : M value :=
  ret (VArr [
      obj [
        "id" :- int 1;
        "location" :- str "Cold Storage A (Chennai)";
        "capacity_kg" :- int 2000;
        "available_kg" :- int 800;
        "temperature" :- str "2°C";
        "cost_per_day_per_kg" :- num 0.5%Q];
      obj [
        "id" :- int 2;
        "location" :- str "Cold Storage B (Chennai)";
        "capacity_kg" :- int 1500;
        "available_kg" :- int 1200;
        "temperature" :- str "4°C";
        "cost_per_day_per_kg" :- num 0.4%Q]]).

Definition getFarmers : M value :=
  ret (obj [
      "F1001" :- obj [
        "name" :- str "Raj Kumar";
        "location" :- str "Chennai";
        "years_farming" :- int 12;
        "economic_status" :- str "struggling";
        "last_month_income" :- int 15000];
      "F1002" :- obj [
        "name" :- str "Vijay Singh";
        "location" :- str "Kanchipuram";
        "years_farming" :- int 8;
        "economic_status" :- str "moderate";
        "last_month_income" :- int 25000]]).

End GeminiService.

(* ================================================================= *)
(** ** The page: SmartShelterAllocator.jsx *)

Module SmartShelterAllocator.

Definition staticShelterPlan : value :=
  obj [
    "allocation_plan" :- str "Shelter beds allocated: 50 to Center A, 30 to Center B.";
    "human_summary" :- str "Shelter allocation completed.";
    "estimated_impact" :- obj [
      "people_served" :- int 80;
      "beds_allocated" :- int 80;
      "economic_value_rupees" :- int 12000;
      "emissions_saved_kg" :- int 20]].

(** const [generatedShelterPlan, setGeneratedShelterPlan] = useState(null):
    the state of the component is the value of generatedShelterPlan. *)
Definition initial_state : value := VNull.

(** handleGenerateShelterPlan: setGeneratedShelterPlan(staticShelterPlan) *)
Definition handleGenerateShelterPlan (generatedShelterPlan : value) : value :=
  staticShelterPlan.

(** What React puts on the page. *)
Inductive node : Type :=
| Text (s : jsstring)
| Element (tag : string) (children : list node).

(** A value used as a child: strings and numbers are text, null, undefined
    and booleans render nothing, an array renders its items, a plain object
    is refused. *)
Fixpoint child (v : value) : completion (list node) :=
  match v with
  | VStr s => Normal [Text s]
  | VNum q => Normal [Text (number_to_string q)]
  | VNaN => Normal [Text #"NaN"]
  | VUndefined | VNull | VBool _ => Normal []
  | VArr items =>
      fold_right
        (fun x acc =>
           match child x, acc with
           | Normal a, Normal b => Normal (a ++ b)
           | Throw e, _ => Throw e
           | _, Throw e => Throw e
           end) (Normal []) items
  | VObj _ => Throw TypeError
  end.

Definition field (v : value) (k : string) : completion value :=
  fst (get v k []).

Definition and_then {A B} (c : completion A) (k : A -> completion B) : completion B :=
  match c with
  | Normal a => k a
  | Throw e => Throw e
  end.

(** <tag>label{v.k}</tag> *)
Definition labelled (tag : string) (label : string) (v : value) (k : string)
  : completion node :=
  and_then (field v k) (fun x =>
  and_then (child x) (fun c =>
  Normal (Element tag (match label with
                       | EmptyString => c
                       | _ => Text (js label) :: c
                       end)))).

(** The plan block, the right operand of generatedShelterPlan && (...) *)
Definition plan_block (generatedShelterPlan : value) : completion node :=
  and_then (labelled "p" "" generatedShelterPlan "allocation_plan") (fun p1 =>
  and_then (labelled "p" "" generatedShelterPlan "human_summary") (fun p2 =>
  and_then (field generatedShelterPlan "estimated_impact") (fun impact =>
  and_then (labelled "p" "People Served: " impact "people_served") (fun i1 =>
  and_then (labelled "p" "Beds Allocated: " impact "beds_allocated") (fun i2 =>
  and_then (labelled "p" "Economic Value (Rupees): " impact "economic_value_rupees") (fun i3 =>
  and_then (labelled "p" "Emissions Saved (kg): " impact "emissions_saved_kg") (fun i4 =>
  Normal
    (Element "div"
       [Element "h3" [Text #"Generated Shelter Plan"];
        p1; p2;
        Element "div" [Element "h4" [Text #"Estimated Impact"]; i1; i2; i3; i4]])))))))).

(** The returned JSX. *)
Definition render (generatedShelterPlan : value) : completion node :=
  let button := Element "Button" [Text #"Generate Shelter Plan"] in
  if truthy generatedShelterPlan then
    and_then (plan_block generatedShelterPlan) (fun block =>
    Normal (Element "div" [button; block]))
  else
    and_then (child generatedShelterPlan) (fun c =>
    Normal (Element "div" (button :: c))).

(** The page after a sequence of clicks on the button. *)
Definition clicks (n : nat) (state : value) : value :=
  Nat.iter n handleGenerateShelterPlan state.

End SmartShelterAllocator.

(* ================================================================= *)
(** * Vocabulary of the properties

    Definitions that the statements below use to talk about the program:
    sample runtimes, a name for every method call, and readings of the
    prompts and of the matcher. *)

Module Reading.
Import GeminiService.

(** The default parameter value: an omitted (undefined) fallback is null. *)
Definition defaulted (fallbackData : value) : value :=
  match fallbackData with VUndefined => VNull | v => v end.

(** The records generateContent builds when it is given no fallback. *)
Definition raw_text_record (text : jsstring) : value :=
  obj ["success" :- VBool true; "data" :- VStr text].
Definition unavailable_record : value :=
  obj ["success" :- VBool false; "error" :- str "AI service temporarily unavailable"].

(** *** Runs of one character class *)

Section ClassRuns.
Variable R : Type.
Variable p : N -> bool.
Variable k : continuation R.

(** A greedy star of one class: the longest run first. *)
Fixpoint greedy_run (s : jsstring) (pos : nat) (caps : captures) : option R :=
  match s with
  | c :: r =>
      if p c then
        match greedy_run r (S pos) caps with
        | Some res => Some res
        | None => k s pos caps
        end
      else k s pos caps
  | [] => k [] pos caps
  end.

(** A lazy star of one class: the shortest run first. *)
Fixpoint lazy_run (s : jsstring) (pos : nat) (caps : captures) : option R :=
  match k s pos caps with
  | Some res => Some res
  | None =>
      match s with
      | c :: r => if p c then lazy_run r (S pos) caps else None
      | [] => None
      end
  end.
End ClassRuns.

(** The end of a match: its length and captures. *)
Definition accept : continuation (nat * captures) :=
  fun _ pos caps => Some (pos, caps).

(** What is left of the JSON pattern after its star: a closing brace. *)
Definition closing : continuation (nat * captures) :=
  fun s pos caps => m false (Char 125) s pos caps accept.

(** What follows the digits in an item pattern. *)
Definition after_digits (unit_words item_words : RegExp.regex)
  : continuation (nat * captures) :=
  fun s pos caps =>
    m true (Seq (Star true (Class white_space)) unit_words) s pos
      ((1, (0, pos)) :: caps)%nat
      (fun s1 pos1 caps1 =>
         m true (Seq (Star false (Class dot)) item_words) s1 pos1 caps1 accept).

(** *** The food items *)

Definition nothing_extracted : extraction :=
  {| items := []; totalQuantity := Int 0; totalValue := Int 0 |}.

(** What one pattern contributes: the quantity of its leftmost match. *)
Definition contribution (report : jsstring) (p : food_pattern) : option jsint :=
  match String_match report (regex p) with
  | Some mtch => Some (parseInt (group mtch 1))
  | None => None
  end.

Definition entry (p : food_pattern) (quantity : jsint) : jsstring :=
  name p ++ #": " ++ int_to_string quantity ++ unit p.

(** *** The methods of the service object *)

Inductive gateway_call : Type :=
| GetHospitals
| GetDoctors
| GetPatients
| FindHospitalIntelligent (patientData : value)
| FindNearbyHospitals (locationData : value)
| GetDashboardStats
| GetOccupancyTrends
| GetSpecialtyDistribution
| AllocateShelter (applicantData : value)
| GetShelterStats
| GenerateWastePlan (planData : value)
| GetWasteOptimizerStats
| GetInventoryFlow
| GetNetworkStatus
| GetWasteReduction
| GetInventory
| GetDemand
| GetLogistics
| GetStorage
| GetFarmers.

Definition invoke (rt : runtime) (c : gateway_call) : M value :=
  match c with
  | GetHospitals => getHospitals rt
  | GetDoctors => getDoctors rt
  | GetPatients => getPatients rt
  | FindHospitalIntelligent patientData => findHospitalIntelligent rt patientData
  | FindNearbyHospitals locationData => findNearbyHospitals rt locationData
  | GetDashboardStats => getDashboardStats rt
  | GetOccupancyTrends => getOccupancyTrends rt
  | GetSpecialtyDistribution => getSpecialtyDistribution rt
  | AllocateShelter applicantData => allocateShelter rt applicantData
  | GetShelterStats => getShelterStats rt
  | GenerateWastePlan planData => generateWastePlan rt planData
  | GetWasteOptimizerStats => getWasteOptimizerStats rt
  | GetInventoryFlow => getInventoryFlow
  | GetNetworkStatus => getNetworkStatus
  | GetWasteReduction => getWasteReduction
  | GetInventory => getInventory
  | GetDemand => getDemand
  | GetLogistics => getLogistics
  | GetStorage => getStorage
  | GetFarmers => getFarmers
  end.

(** planData.raw_report is a string *)
Definition has_report (planData : value) : bool :=
  match planData with
  | VObj props =>
      match assoc #"raw_report" props with
      | Some (VStr _) => true
      | _ => false
      end
  | _ => false
  end.

(** A value that a template literal can convert to a string. *)
Definition printable (v : value) : bool :=
  match to_string v with
  | Some _ => true
  | None => false
  end.

(** The text of a printable value (empty for the others, which have none). *)
Definition text_of (v : value) : jsstring :=
  match to_string v with
  | Some s => s
  | None => []
  end.

(** What generateWastePlan needs of planData to get as far as
    generateContent: a string raw_report and a printable priority_focus. *)
Definition plan_ready (planData : value) : bool :=
  has_report planData && printable (opt_get planData "priority_focus").

(** The location that the reverse-geocoding step of findNearbyHospitals
    leaves in userLocation, by the reply to its request. *)
Definition geocoded (reply : outcome) : value :=
  match reply with
  | Rejects _ => unknown_location
  | Responds text =>
      match String_match text json_object_regexp with
      | Some jsonMatch =>
          match JSON.parse (matched jsonMatch) with
          | Some userLocation => userLocation
          | None => unknown_location
          end
      | None => VUndefined
      end
  end.

(** The severity after the default of the destructuring pattern. *)
Definition severity_of (locationData : value) : value :=
  let given := opt_get locationData "severity" in
  match given with
  | VUndefined => int 1
  | _ => given
  end.

(** The request for the reverse geocoding, for printable coordinates. *)
Abbreviation geocoding_request locationData :=
  (reverseGeocodingPrompt (text_of (opt_get locationData "latitude"))
     (text_of (opt_get locationData "longitude"))).

(** What findNearbyHospitals needs to get as far as its own request: location
    data that is neither null nor undefined, with printable coordinates. *)
Definition request_ready (locationData : value) : bool :=
  match locationData with
  | VUndefined | VNull => false
  | _ =>
      printable (opt_get locationData "latitude")
      && printable (opt_get locationData "longitude")
  end.

(** What it needs after that to get as far as generateContent: a printable
    severity and, in the location the geocoding left, a printable area
    name, district and postal code. *)
Definition prompt_ready (locationData userLocation : value) : bool :=
  printable (severity_of locationData)
  && printable (opt_get userLocation "area_name")
  && printable (opt_get userLocation "district")
  && printable (opt_get userLocation "postal_code").

(** Whether a call, made in the state that the trace [t] records, gets
    through to the end. *)
Definition ready (rt : runtime) (t : trace) (c : gateway_call) : bool :=
  match c with
  | GenerateWastePlan planData => plan_ready planData
  | FindNearbyHospitals locationData =>
      request_ready locationData
      && prompt_ready locationData
           (geocoded (completion_service rt (service_calls t)
                        (geocoding_request locationData)))
  | _ => true
  end.

(** How often a method that completes has used the completion service. *)
Definition calls_made (c : gateway_call) : nat :=
  match c with
  | FindNearbyHospitals _ => 2
  | GetHospitals | GetDoctors | GetPatients | FindHospitalIntelligent _
  | GetDashboardStats | GetOccupancyTrends | GetSpecialtyDistribution
  | AllocateShelter _ | GetShelterStats | GenerateWastePlan _ => 1
  | GetWasteOptimizerStats | GetInventoryFlow | GetNetworkStatus | GetWasteReduction
  | GetInventory | GetDemand | GetLogistics | GetStorage | GetFarmers => 0
  end.

(** How often a call that throws has used it before: generateWastePlan
    throws before any use, findNearbyHospitals before its own request where
    the request cannot be made and after it otherwise, and no other method
    throws. *)
Definition calls_before_throw (c : gateway_call) : nat :=
  match c with
  | FindNearbyHospitals locationData => if request_ready locationData then 1 else 0
  | _ => 0
  end.

(** Every quantity found in the report is at most a million million: up to
    there every number of the fallback plan (the largest is four such
    quantities times 1000) stays below 2^53, where the program computes
    exactly. *)
Definition quantities_in_range (report : jsstring) : Prop :=
  forall p q,
    In p patterns -> contribution report p = Some (Int q) -> (q <= 10 ^ 12)%Z.

(** A reply of the completion service that generateContent cannot use:
    the call throws, the text has no match, or the match does not parse. *)
Definition unusable (reply : outcome) : Prop :=
  match reply with
  | Rejects _ => True
  | Responds text =>
      match String_match text json_object_regexp with
      | None => True
      | Some mtch => JSON.parse (matched mtch) = None
      end
  end.

(** *** JSON objects in a text *)

(** The well-formed JSON objects a text holds: start, length and value of
    every substring that begins with an opening brace, ends with a closing
    brace and is accepted by JSON.parse as an object. *)
Definition json_objects_in (text : jsstring) : list (nat * nat * value) :=
  flat_map
    (fun i =>
       flat_map
         (fun n =>
            let candidate := substring text i (i + n) in
            match candidate, rev candidate with
            | 123%N :: _, 125%N :: _ =>
                match JSON.parse candidate with
                | Some (VObj props) => [(i, n, VObj props)]
                | _ => []
                end
            | _, _ => []
            end)
         (seq 1 (List.length text - i)))
    (seq 0 (List.length text)).

(** *** The keys a prompt asks for *)

(** The text after the first occurrence of a marker. *)
Fixpoint after_marker (marker s : jsstring) : option jsstring :=
  match JSON.strip_prefix marker s with
  | Some r => Some r
  | None =>
      match s with
      | [] => None
      | _ :: s' => after_marker marker s'
      end
  end.

(** Split at the commas that are outside parentheses. *)
Fixpoint split_entries (depth : nat) (current s : jsstring) : list jsstring :=
  match s with
  | [] => [current]
  | c :: r =>
      if (c =? 40)%N then split_entries (S depth) (current ++ [c]) r
      else if (c =? 41)%N then split_entries (Nat.pred depth) (current ++ [c]) r
      else if ((c =? 44)%N && Nat.eqb depth 0) then current :: split_entries 0 [] r
      else split_entries depth (current ++ [c]) r
  end.

Definition key_char (c : N) : bool :=
  (is_digit c || ((65 <=? c) && (c <=? 90)) || ((97 <=? c) && (c <=? 122)) || (c =? 95))%N.

Fixpoint take_key (s : jsstring) : jsstring :=
  match s with
  | c :: r => if key_char c then c :: take_key r else []
  | [] => []
  end.

(** The entries of the list that follows "Return JSON with: " in a system
    prompt, each up to the end of its name. *)
Definition announced_keys (prompt : jsstring) : list jsstring :=
  match after_marker #"Return JSON with: " prompt with
  | Some r => map (fun e => take_key (skip_white_space e)) (split_entries 0 [] r)
  | None => []
  end.

Definition mem (k : jsstring) (l : list jsstring) : bool :=
  existsb (JsString.eqb k) l.

Definition same_key_set (a b : list jsstring) : bool :=
  forallb (fun k => mem k b) a && forallb (fun k => mem k a) b.

(** *** Sample runtimes and inputs *)

Definition clock_iso : nat -> jsstring := fun _ => #"2024-01-16T09:30:00.000Z".
Definition clock_locale : nat -> jsstring := fun _ => #"1/16/2024, 9:30:00 AM".

(** A service that answers every prompt with the same text. *)
Definition replying (text : jsstring) : runtime :=
  {| completion_service := fun _ _ => Responds text;
     toISOString := clock_iso;
     toLocaleString := clock_locale |}.

(** A service that is down. *)
Definition unreachable : runtime :=
  {| completion_service := fun _ _ => Rejects (str "fetch failed");
     toISOString := clock_iso;
     toLocaleString := clock_locale |}.

Definition chennai : value :=
  obj ["latitude" :- num 13.0827%Q; "longitude" :- num 80.2707%Q; "severity" :- int 4].

(** Values of the kind JSON.parse and an object literal can produce, with a
    property named toString. *)
Definition unprintable : value := obj ["toString" :- VNull].

Definition draft_text : jsstring := #"Plan {draft}: {`beds`: 40}".

(** *** The page with the plan on it *)

Definition plan_view : SmartShelterAllocator.node :=
  let Text := SmartShelterAllocator.Text in
  let Element := SmartShelterAllocator.Element in
  Element "div"%string
    [Element "Button"%string [Text #"Generate Shelter Plan"];
     Element "div"%string
       [Element "h3"%string [Text #"Generated Shelter Plan"];
        Element "p"%string [Text #"Shelter beds allocated: 50 to Center A, 30 to Center B."];
        Element "p"%string [Text #"Shelter allocation completed."];
        Element "div"%string
          [Element "h4"%string [Text #"Estimated Impact"];
           Element "p"%string [Text #"People Served: "; Text #"80"];
           Element "p"%string [Text #"Beds Allocated: "; Text #"80"];
           Element "p"%string [Text #"Economic Value (Rupees): "; Text #"12000"];
           Element "p"%string [Text #"Emissions Saved (kg): "; Text #"20"]]]].

End Reading.
Import Reading.

(** Further vocabulary: what the statements on the matcher, on the console
    and on letter case are about. *)

Module Notions.
Import GeminiService.

(** A pattern without capturing groups. *)
Fixpoint no_group (r : RegExp.regex) : bool :=
  match r with
  | Empty | Char _ | Class _ => true
  | Seq r1 r2 | Alt r1 r2 => no_group r1 && no_group r2
  | Star _ r1 => no_group r1
  | Group _ _ => false
  end.

(** The console output recorded in a trace. *)
Definition console_output (t : trace) : list (console_level * list value) :=
  flat_map (fun e => match e with Console level args => [(level, args)] | _ => [] end) t.

(** Two code units that differ at most in the case of an ASCII letter. *)
Definition same_letter (a b : N) : Prop := canonicalize a = canonicalize b.

(** A class that does not tell the cases of a letter apart. *)
Definition case_blind (p : N -> bool) : Prop :=
  forall a b, same_letter a b -> p a = p b.

Fixpoint case_blind_classes (r : RegExp.regex) : Prop :=
  match r with
  | Empty | Char _ => True
  | Class p => case_blind p
  | Seq r1 r2 | Alt r1 r2 => case_blind_classes r1 /\ case_blind_classes r2
  | Star _ r1 | Group _ r1 => case_blind_classes r1
  end.

(** Two continuations that cannot tell such texts apart. *)
Definition agree (R : Type) (k k' : continuation R) : Prop :=
  forall t t' pos caps, Forall2 same_letter t t' -> k' t' pos caps = k t pos caps.

End Notions.
Import Notions.

(* ================================================================= *)
(** * Properties *)

(** ** JSON.parse always has fuel enough *)

Module JSONFacts.
Import JSON.

Lemma skip_ws_length (s : jsstring) : (List.length (skip_ws s) <= List.length s)%nat.
Proof.
  induction s as [|c s IH]; simpl; [lia|].
  destruct (is_ws c); simpl; lia.
Qed.

Lemma cons_fst_some (c : N) (o : option (jsstring * jsstring)) (a r : jsstring) :
  cons_fst c o = Some (a, r) -> exists a', o = Some (a', r).
Proof.
  destruct o as [[a' r']|]; simpl; [|discriminate].
  intros H. injection H as _ <-. now exists a'.
Qed.

Lemma parse_string_body_shrinks_upto (n : nat) :
  forall s k r,
    (List.length s <= n)%nat ->
    parse_string_body s = Some (k, r) -> (List.length r < List.length s)%nat.
Proof.
  induction n as [|n IH]; intros s k r Hn H.
  - destruct s; [discriminate|simpl in Hn; lia].
  - destruct s as [|c s1]; [discriminate|]. simpl in H, Hn.
    destruct (c =? 34)%N.
    { injection H as _ <-. simpl. lia. }
    destruct (c =? 92)%N.
    { destruct s1 as [|e s2]; [discriminate|].
      destruct (e =? 117)%N.
      - destruct s2 as [|h1 [|h2 [|h3 [|h4 s3]]]]; try discriminate.
        destruct (hex4 h1 h2 h3 h4); [|discriminate].
        apply cons_fst_some in H as (a' & H).
        apply IH in H; simpl in *; lia.
      - destruct (escape e); [|discriminate].
        apply cons_fst_some in H as (a' & H).
        apply IH in H; simpl in *; lia. }
    destruct (c <? 32)%N; [discriminate|].
    apply cons_fst_some in H as (a' & H). apply IH in H; simpl in *; lia.
Qed.

Lemma parse_string_body_shrinks (s k r : jsstring) :
  parse_string_body s = Some (k, r) -> (List.length r < List.length s)%nat.
Proof. apply (@parse_string_body_shrinks_upto (List.length s)). lia. Qed.

Lemma take_digits_length (s : jsstring) :
  forall ds r, take_digits s = (ds, r) ->
               List.length s = (List.length ds + List.length r)%nat.
Proof.
  induction s as [|c s IH]; intros ds r H; simpl in H.
  - injection H as <- <-. reflexivity.
  - destruct (is_digit c).
    + destruct (take_digits s) as [ds' r'] eqn:E. injection H as <- <-.
      simpl. rewrite (IH _ _ eq_refl). reflexivity.
    + injection H as <- <-. reflexivity.
Qed.

Lemma strip_prefix_length (p s r : jsstring) :
  strip_prefix p s = Some r -> List.length s = (List.length p + List.length r)%nat.
Proof.
  revert s. induction p as [|a p IH]; intros s H; simpl in H.
  - injection H as <-. reflexivity.
  - destruct s as [|b s]; [discriminate|]. destruct (a =? b)%N; [|discriminate].
    simpl. now rewrite (IH _ H).
Qed.

Lemma take_sign_length (s : jsstring) (b : bool) (r : jsstring) :
  take_sign s = (b, r) -> (List.length r <= List.length s)%nat.
Proof.
  unfold take_sign. destruct s as [|c s]; [intros H; injection H as _ <-; lia|].
  destruct (c =? 45)%N; intros H; injection H as _ <-; simpl; lia.
Qed.

Lemma take_fraction_length (s : jsstring) (fd : list N) (r : jsstring) :
  take_fraction s = Some (fd, r) -> (List.length r <= List.length s)%nat.
Proof.
  unfold take_fraction. destruct s as [|c s]; [intros H; injection H as _ <-; lia|].
  destruct (c =? 46)%N.
  - destruct (take_digits s) as [[|d ds] r'] eqn:E; [discriminate|].
    intros H. injection H as _ <-. apply take_digits_length in E. simpl in *. lia.
  - intros H. injection H as _ <-. lia.
Qed.

Lemma take_exponent_sign_length (s : jsstring) (b : bool) (r : jsstring) :
  take_exponent_sign s = (b, r) -> (List.length r <= List.length s)%nat.
Proof.
  unfold take_exponent_sign. destruct s as [|sg s]; [intros H; injection H as _ <-; lia|].
  destruct (sg =? 45)%N; [intros H; injection H as _ <-; simpl; lia|].
  destruct (sg =? 43)%N; intros H; injection H as _ <-; simpl; lia.
Qed.

Lemma take_exponent_length (s : jsstring) (e : Z) (r : jsstring) :
  take_exponent s = Some (e, r) -> (List.length r <= List.length s)%nat.
Proof.
  unfold take_exponent. destruct s as [|c s]; [intros H; injection H as _ <-; lia|].
  destruct ((c =? 101) || (c =? 69))%N; [|intros H; injection H as _ <-; lia].
  destruct (take_exponent_sign s) as [eneg r1] eqn:E1.
  apply take_exponent_sign_length in E1.
  destruct (take_digits r1) as [[|d ds] r2] eqn:E2; [discriminate|].
  intros H. injection H as _ <-. apply take_digits_length in E2. simpl in *. lia.
Qed.

Lemma parse_number_shrinks (s : jsstring) (v : value) (r : jsstring) :
  parse_number s = Some (v, r) -> (List.length r < List.length s)%nat.
Proof.
  unfold parse_number.
  destruct (take_sign s) as [neg s1] eqn:E1. apply take_sign_length in E1.
  destruct (take_digits s1) as [[|d0 ip] s2] eqn:E2; [discriminate|].
  apply take_digits_length in E2.
  destruct ((d0 =? 48)%N && _); [discriminate|].
  destruct (take_fraction s2) as [[fd s3]|] eqn:E3; [|discriminate].
  apply take_fraction_length in E3.
  destruct (take_exponent s3) as [[e s4]|] eqn:E4; [|discriminate].
  apply take_exponent_length in E4.
  intros H. injection H as _ <-. simpl in *. lia.
Qed.

Lemma skip_ws_cons (s : jsstring) (c : N) (r : jsstring) :
  skip_ws s = c :: r -> (List.length r < List.length s)%nat.
Proof. intros H. pose proof (skip_ws_length s) as L. rewrite H in L. simpl in L. lia. Qed.

(** Every parser consumes input. *)
Lemma parse_shrinks (fuel : nat) :
  (forall s v r, parse_value fuel s = Some (v, r) -> List.length r < List.length s)%nat
  /\ (forall s acc v r,
         parse_members fuel s acc = Some (v, r) -> List.length r < List.length s)%nat
  /\ (forall s acc v r,
         parse_elements fuel s acc = Some (v, r) -> List.length r < List.length s)%nat.
Proof.
  induction fuel as [|f (IHv & IHm & IHe)]; [repeat split; discriminate|].
  repeat split.
  - intros s v r H. cbn [parse_value parse_members parse_elements] in H.
    destruct (skip_ws s) as [|c s1] eqn:E0; [discriminate|]. apply skip_ws_cons in E0.
    destruct (c =? 123)%N.
    { destruct (skip_ws s1) as [|c' s2] eqn:E1; [discriminate|].
      apply skip_ws_cons in E1.
      destruct (c' =? 125)%N; [injection H as _ <-; lia|].
      apply IHm in H. lia. }
    destruct (c =? 91)%N.
    { destruct (skip_ws s1) as [|c' s2] eqn:E1; [discriminate|].
      apply skip_ws_cons in E1.
      destruct (c' =? 93)%N; [injection H as _ <-; lia|].
      apply IHe in H. lia. }
    destruct (c =? 34)%N.
    { destruct (parse_string_body s1) as [[k r']|] eqn:E1; [|discriminate].
      apply parse_string_body_shrinks in E1. injection H as _ <-. lia. }
    destruct (strip_prefix #"true" (c :: s1)) as [r'|] eqn:E1.
    { apply strip_prefix_length in E1. injection H as _ <-.
      change (List.length #"true") with 4%nat in E1. simpl in E1. lia. }
    destruct (strip_prefix #"false" (c :: s1)) as [r'|] eqn:E2.
    { apply strip_prefix_length in E2. injection H as _ <-.
      change (List.length #"false") with 5%nat in E2. simpl in E2. lia. }
    destruct (strip_prefix #"null" (c :: s1)) as [r'|] eqn:E3.
    { apply strip_prefix_length in E3. injection H as _ <-.
      change (List.length #"null") with 4%nat in E3. simpl in E3. lia. }
    apply parse_number_shrinks in H. simpl in H. lia.
  - intros s acc v r H. cbn [parse_value parse_members parse_elements] in H.
    destruct (skip_ws s) as [|c s1] eqn:E0; [discriminate|]. apply skip_ws_cons in E0.
    destruct (c =? 34)%N; [|discriminate].
    destruct (parse_string_body s1) as [[key r1]|] eqn:E1; [|discriminate].
    apply parse_string_body_shrinks in E1.
    destruct (skip_ws r1) as [|c1 r2] eqn:E2; [discriminate|]. apply skip_ws_cons in E2.
    destruct (c1 =? 58)%N; [|discriminate].
    destruct (parse_value f r2) as [[x r3]|] eqn:E3; [|discriminate]. apply IHv in E3.
    destruct (skip_ws r3) as [|c3 r4] eqn:E4; [discriminate|]. apply skip_ws_cons in E4.
    destruct (c3 =? 44)%N; [apply IHm in H; lia|].
    destruct (c3 =? 125)%N; [|discriminate]. injection H as _ <-. lia.
  - intros s acc v r H. cbn [parse_value parse_members parse_elements] in H.
    destruct (parse_value f s) as [[x r1]|] eqn:E1; [|discriminate]. apply IHv in E1.
    destruct (skip_ws r1) as [|c r2] eqn:E2; [discriminate|]. apply skip_ws_cons in E2.
    destruct (c =? 44)%N; [apply IHe in H; lia|].
    destruct (c =? 93)%N; [|discriminate]. injection H as _ <-. lia.
Qed.

(** The fuel of [JSON.parse] is never exhausted: from twice the length
    of the input on, more fuel changes nothing. *)
Lemma parse_fuel (f1 : nat) :
  (forall s f2,
      (2 * List.length s < f1)%nat -> (f1 <= f2)%nat ->
      parse_value f2 s = parse_value f1 s)
  /\ (forall s acc f2,
         (2 * List.length s + 1 < f1)%nat -> (f1 <= f2)%nat ->
         parse_members f2 s acc = parse_members f1 s acc)
  /\ (forall s acc f2,
         (2 * List.length s + 1 < f1)%nat -> (f1 <= f2)%nat ->
         parse_elements f2 s acc = parse_elements f1 s acc).
Proof.
  induction f1 as [|f (IHv & IHm & IHe)]; [repeat split; intros; lia|].
  destruct (parse_shrinks f) as (Sv & _).
  repeat split.
  - intros s [|f'] Hs Hf; [lia|]. cbn [parse_value parse_members parse_elements].
    destruct (skip_ws s) as [|c s1] eqn:E0; [reflexivity|]. apply skip_ws_cons in E0.
    destruct (c =? 123)%N.
    { destruct (skip_ws s1) as [|c' s2]; [reflexivity|].
      destruct (c' =? 125)%N; [reflexivity|]. apply IHm; lia. }
    destruct (c =? 91)%N; [|reflexivity].
    destruct (skip_ws s1) as [|c' s2]; [reflexivity|].
    destruct (c' =? 93)%N; [reflexivity|]. apply IHe; lia.
  - intros s acc [|f'] Hs Hf; [lia|]. cbn [parse_value parse_members parse_elements].
    destruct (skip_ws s) as [|c s1] eqn:E0; [reflexivity|]. apply skip_ws_cons in E0.
    destruct (c =? 34)%N; [|reflexivity].
    destruct (parse_string_body s1) as [[key r1]|] eqn:E1; [|reflexivity].
    apply parse_string_body_shrinks in E1.
    destruct (skip_ws r1) as [|c1 r2] eqn:E2; [reflexivity|]. apply skip_ws_cons in E2.
    destruct (c1 =? 58)%N; [|reflexivity].
    rewrite (IHv r2 f') by lia.
    destruct (parse_value f r2) as [[x r3]|] eqn:E3; [|reflexivity]. apply Sv in E3.
    destruct (skip_ws r3) as [|c3 r4] eqn:E4; [reflexivity|]. apply skip_ws_cons in E4.
    destruct (c3 =? 44)%N; [|reflexivity]. apply IHm; lia.
  - intros s acc [|f'] Hs Hf; [lia|]. cbn [parse_value parse_members parse_elements].
    rewrite (IHv s f') by lia.
    destruct (parse_value f s) as [[x r1]|] eqn:E1; [|reflexivity]. apply Sv in E1.
    destruct (skip_ws r1) as [|c r2] eqn:E2; [reflexivity|]. apply skip_ws_cons in E2.
    destruct (c =? 44)%N; [|reflexivity]. apply IHe; lia.
Qed.

Lemma parse_fuel_enough (s : jsstring) (fuel : nat) :
  (2 * List.length s < fuel)%nat ->
  parse_value fuel s = parse_value (S (2 * List.length s)) s.
Proof.
  intros H. apply (proj1 (parse_fuel (S (2 * List.length s)))); lia.
Qed.

End JSONFacts.

(* ================================================================= *)
(** ** generateContent: one call, then parse or fall back *)

Module GenerateContentFacts.
Import GeminiService.

Section Run.
Variable rt : runtime.
Variables systemPrompt userInput : jsstring.
Variable fallbackData : value.
Variable t : trace.

Let prompt := prompt_of systemPrompt userInput.
Let reply := completion_service rt (service_calls t) prompt.

(** The service throws. *)
Lemma run_rejected (e : value) :
  reply = Rejects e ->
  generateContent rt systemPrompt userInput fallbackData t =
    (Normal (or_else (defaulted fallbackData) unavailable_record),
     t ++ [ServiceCall prompt] ++ [Console Error [str "Gemini API error:"; e]]).
Proof.
  intros H. unfold generateContent, try_catch, bind, model_generateContent.
  fold prompt. fold reply. rewrite H. unfold console, emit, ret.
  now rewrite <- app_assoc.
Qed.

(** The text has no match for the pattern. *)
Lemma run_no_match (text : jsstring) :
  reply = Responds text ->
  String_match text json_object_regexp = None ->
  generateContent rt systemPrompt userInput fallbackData t =
    (Normal (or_else (defaulted fallbackData) (raw_text_record text)),
     t ++ [ServiceCall prompt]).
Proof.
  intros H Hm. unfold generateContent, try_catch, bind, model_generateContent.
  fold prompt. fold reply. rewrite H, Hm. reflexivity.
Qed.

(** The matched text does not parse. *)
Lemma run_parse_error (text : jsstring) (mtch : match_result) :
  reply = Responds text ->
  String_match text json_object_regexp = Some mtch ->
  JSON.parse (matched mtch) = None ->
  generateContent rt systemPrompt userInput fallbackData t =
    (Normal (or_else (defaulted fallbackData) (raw_text_record text)),
     t ++ [ServiceCall prompt] ++ [ParseAttempt (matched mtch)]
       ++ [Console Warn [str "Failed to parse JSON response, using fallback:";
                         SyntaxError]]).
Proof.
  intros H Hm Hp. unfold generateContent, try_catch, bind, model_generateContent.
  fold prompt. fold reply. rewrite H, Hm. unfold JSON_parse. rewrite Hp.
  unfold console, emit, ret. now rewrite <- !app_assoc.
Qed.

(** The matched text parses. *)
Lemma run_parsed (text : jsstring) (mtch : match_result) (v : value) :
  reply = Responds text ->
  String_match text json_object_regexp = Some mtch ->
  JSON.parse (matched mtch) = Some v ->
  generateContent rt systemPrompt userInput fallbackData t =
    (Normal v, t ++ [ServiceCall prompt] ++ [ParseAttempt (matched mtch)]).
Proof.
  intros H Hm Hp. unfold generateContent, try_catch, bind, model_generateContent.
  fold prompt. fold reply. rewrite H, Hm. unfold JSON_parse. rewrite Hp.
  now rewrite <- !app_assoc.
Qed.

(** Whatever the service does, generateContent completes normally and
    has used the service once. *)
Lemma run_total :
  exists v t',
    generateContent rt systemPrompt userInput fallbackData t = (Normal v, t')
    /\ service_calls t' = S (service_calls t).
Proof.
  assert (Hc : forall l, service_calls l = 0 ->
                         service_calls (t ++ [ServiceCall prompt] ++ l)
                         = S (service_calls t)).
  { intros l Hl. unfold service_calls in *.
    rewrite !filter_app, !length_app, Hl. simpl. lia. }
  destruct reply as [text|e] eqn:Hr.
  - destruct (String_match text json_object_regexp) as [mtch|] eqn:Hm.
    + destruct (JSON.parse (matched mtch)) as [v|] eqn:Hp.
      * eexists _, _. split; [eapply run_parsed; eassumption|].
        now apply Hc.
      * eexists _, _. split; [eapply run_parse_error; eassumption|].
        now apply Hc.
    + eexists _, _. split; [eapply run_no_match; eassumption|].
      rewrite <- (app_nil_r [ServiceCall prompt]). now apply Hc.
  - eexists _, _. split; [eapply run_rejected; eassumption|].
    now apply Hc.
Qed.
End Run.

Lemma or_else_object (props : list (jsstring * value)) (d : value) :
  or_else (defaulted (VObj props)) d = VObj props.
Proof. reflexivity. Qed.

(** Given a fallback object, an unusable reply yields that object. *)
Lemma unusable_reply_returns_fallback
    (rt : runtime) (systemPrompt userInput : jsstring)
    (props : list (jsstring * value)) (t : trace) :
  unusable (completion_service rt (service_calls t) (prompt_of systemPrompt userInput)) ->
  exists t',
    generateContent rt systemPrompt userInput (VObj props) t = (Normal (VObj props), t').
Proof.
  unfold unusable.
  destruct (completion_service rt (service_calls t) (prompt_of systemPrompt userInput))
    as [text|e] eqn:Hr.
  - destruct (String_match text json_object_regexp) as [mtch|] eqn:Hm.
    + intros Hp. eexists.
      rewrite (@run_parse_error rt systemPrompt userInput _ t text mtch Hr Hm Hp).
      now rewrite or_else_object.
    + intros _. eexists.
      rewrite (@run_no_match rt systemPrompt userInput _ t text Hr Hm).
      now rewrite or_else_object.
  - intros _. eexists.
    rewrite (@run_rejected rt systemPrompt userInput _ t e Hr).
    now rewrite or_else_object.
Qed.

End GenerateContentFacts.
Import GenerateContentFacts.

(* ================================================================= *)
(** ** The matcher on the patterns of the program *)

Module RegExpFacts.

Section ClassStar.
Variable ic : bool.
Variable R : Type.
Variable p : N -> bool.
Variable k : continuation R.

Lemma star_loop_greedy (s : jsstring) :
  forall fuel pos caps,
    (List.length s < fuel)%nat ->
    star_loop (m ic (R:=R) (Class p)) true k fuel s pos caps = greedy_run p k s pos caps.
Proof.
  induction s as [|c r IH]; intros fuel pos caps Hf.
  - destruct fuel; [inversion Hf|]. reflexivity.
  - destruct fuel; [inversion Hf|]. simpl in Hf. simpl.
    destruct (p c); [|reflexivity].
    rewrite (proj2 (Nat.ltb_lt pos (S pos))) by lia.
    rewrite IH by lia. reflexivity.
Qed.

Lemma star_loop_lazy (s : jsstring) :
  forall fuel pos caps,
    (List.length s < fuel)%nat ->
    star_loop (m ic (R:=R) (Class p)) false k fuel s pos caps = lazy_run p k s pos caps.
Proof.
  induction s as [|c r IH]; intros fuel pos caps Hf.
  - destruct fuel; [inversion Hf|]. simpl. destruct (k [] pos caps); reflexivity.
  - destruct fuel; [inversion Hf|]. simpl in Hf. simpl.
    destruct (k (c :: r) pos caps); [reflexivity|].
    destruct (p c); [|reflexivity].
    rewrite (proj2 (Nat.ltb_lt pos (S pos))) by lia.
    now rewrite IH by lia.
Qed.

Lemma m_star_greedy (s : jsstring) (pos : nat) (caps : captures) :
  m ic (Star true (Class p)) s pos caps k = greedy_run p k s pos caps.
Proof.
  change (star_loop (m ic (R:=R) (Class p)) true k (S (List.length s)) s pos caps
          = greedy_run p k s pos caps).
  apply star_loop_greedy. lia.
Qed.

Lemma m_star_lazy (s : jsstring) (pos : nat) (caps : captures) :
  m ic (Star false (Class p)) s pos caps k = lazy_run p k s pos caps.
Proof.
  change (star_loop (m ic (R:=R) (Class p)) false k (S (List.length s)) s pos caps
          = lazy_run p k s pos caps).
  apply star_loop_lazy. lia.
Qed.

(** A run of class members followed by something else: the greedy star
    takes the whole run if the rest of the pattern then matches. *)
Lemma greedy_run_all (run rest : jsstring) (pos : nat) (caps : captures) (res : R) :
  Forall (fun c => p c = true) run ->
  match rest with c :: _ => p c = false | [] => True end ->
  k rest (pos + List.length run)%nat caps = Some res ->
  greedy_run p k (run ++ rest) pos caps = Some res.
Proof.
  intros Hrun Hrest. revert pos.
  induction Hrun as [|c run Hc Hrun IH]; intros pos Hk.
  - simpl in *. rewrite Nat.add_0_r in Hk.
    destruct rest as [|c r]; simpl; [exact Hk|]. now rewrite Hrest.
  - simpl. rewrite Hc. rewrite IH; [reflexivity|].
    simpl in Hk. now rewrite Nat.add_succ_r in Hk.
Qed.
End ClassStar.

(** *** The pattern of generateContent: from the first opening brace to the
    last closing brace *)

Section JsonObjectPattern.
Import GeminiService.

Lemma match_at_json (s : jsstring) :
  match_at false (pattern json_object_regexp) s =
    match s with
    | c :: r => if (123 =? c)%N then Reading.greedy_run any_char closing r 1 [] else None
    | [] => None
    end.
Proof.
  unfold match_at. cbn [pattern json_object_regexp m char_matches].
  destruct s as [|c r]; [reflexivity|].
  destruct (123 =? c)%N; [|reflexivity].
  apply (@m_star_greedy false _ any_char closing r 1 []).
Qed.

Lemma greedy_closing_none (r : jsstring) (pos : nat) :
  ~ In 125%N r -> Reading.greedy_run any_char closing r pos [] = None.
Proof.
  revert pos. induction r as [|c r IH]; intros pos Hn; [reflexivity|].
  cbn [greedy_run any_char]. rewrite IH by (intros H; apply Hn; now right).
  unfold closing. cbn [m char_matches].
  destruct (N.eqb_spec 125 c) as [E|Hc]; [|reflexivity].
  exfalso. apply Hn. now left.
Qed.

Lemma greedy_closing_last (mid post : jsstring) (pos : nat) :
  ~ In 125%N post ->
  Reading.greedy_run any_char closing (mid ++ 125%N :: post) pos []
  = Some (pos + List.length mid + 1, [])%nat.
Proof.
  intros Hn. revert pos. induction mid as [|c mid IH]; intros pos.
  - cbn [app greedy_run any_char]. rewrite greedy_closing_none by assumption.
    unfold closing, accept. cbn [m char_matches]. rewrite N.eqb_refl.
    f_equal. f_equal. simpl. lia.
  - cbn [app greedy_run any_char]. rewrite IH. f_equal. f_equal. simpl. lia.
Qed.

Lemma exec_json_found (pre mid post : jsstring) :
  ~ In 123%N pre -> ~ In 125%N post ->
  forall start,
  exists mtch,
    exec_from json_object_regexp (pre ++ 123%N :: mid ++ 125%N :: post) start = Some mtch
    /\ index mtch = (start + List.length pre)%nat
    /\ matched mtch = 123%N :: mid ++ [125%N].
Proof.
  intros Hpre Hpost. induction pre as [|c pre IH]; intros start.
  - simpl app. unfold exec_from at 1.
    destruct (123%N :: mid ++ 125%N :: post) as [|x l] eqn:E; [discriminate|].
    rewrite <- E. cbn [flag_i json_object_regexp]. rewrite match_at_json.
    rewrite N.eqb_refl, greedy_closing_last by assumption.
    eexists. split; [reflexivity|]. cbn [index matched]. split; [simpl; lia|].
    replace (1 + List.length mid + 1)%nat with (S (List.length mid + 1)) by lia.
    cbn [firstn]. f_equal.
    change (125%N :: post) with ([125%N] ++ post). rewrite app_assoc.
    rewrite firstn_app.
    replace (List.length mid + 1 - List.length (mid ++ [125%N]))%nat with 0%nat
      by (rewrite length_app; simpl; lia).
    rewrite firstn_all2 by (rewrite length_app; simpl; lia).
    simpl. now rewrite app_nil_r.
  - simpl app. cbn [exec_from flag_i json_object_regexp]. rewrite match_at_json.
    destruct (N.eqb_spec 123 c) as [E|Hc]; [exfalso; apply Hpre; now left|].
    destruct (IH (fun H => Hpre (or_intror H)) (S start)) as (mtch & H1 & H2 & H3).
    exists mtch. split; [exact H1|]. split; [simpl; lia|exact H3].
Qed.

Lemma exec_json_none (text : jsstring) :
  (forall pre mid post, text <> pre ++ 123%N :: mid ++ 125%N :: post) ->
  forall start, exec_from json_object_regexp text start = None.
Proof.
  induction text as [|c text IH]; intros Hno start.
  - reflexivity.
  - cbn [exec_from flag_i json_object_regexp]. rewrite match_at_json.
    assert (Htail : forall pre mid post, text <> pre ++ 123%N :: mid ++ 125%N :: post).
    { intros pre mid post E. apply (Hno (c :: pre) mid post). simpl. now rewrite E. }
    destruct (N.eqb_spec 123 c) as [E|Hc]; [subst c|now apply IH].
    rewrite greedy_closing_none; [now apply IH|].
    intros Hin. apply in_split in Hin as (mid & post & E).
    apply (Hno [] mid post). simpl. now rewrite E.
Qed.
End JsonObjectPattern.

End RegExpFacts.
Import RegExpFacts.

Module FoodPatternFacts.
Import GeminiService.

(** The unfolding equations of the matcher that the proofs step through. *)
Lemma m_seq ic R (r1 r2 : RegExp.regex) s pos caps (k : continuation R) :
  m ic (Seq r1 r2) s pos caps k
  = m ic r1 s pos caps (fun s1 pos1 caps1 => m ic r2 s1 pos1 caps1 k).
Proof. reflexivity. Qed.

Lemma m_group ic R n (r : RegExp.regex) s pos caps (k : continuation R) :
  m ic (Group n r) s pos caps k
  = m ic r s pos caps (fun s1 pos1 caps1 => k s1 pos1 ((n, (pos, pos1)) :: caps1)).
Proof. reflexivity. Qed.

Lemma m_class_cons ic R p c s pos caps (k : continuation R) :
  m ic (Class p) (c :: s) pos caps k = if p c then k s (S pos) caps else None.
Proof. reflexivity. Qed.

Section ItemPattern.
Variables unit_words item_words : RegExp.regex.
Let re := item_regexp unit_words item_words.

(** An item pattern can only start at a digit. *)
Lemma match_at_non_digit (c : N) (s : jsstring) :
  digit c = false -> match_at true (pattern re) (c :: s) = None.
Proof.
  intros Hc. unfold match_at, re, item_regexp, quantity_in, Plus. cbn [pattern].
  rewrite !m_seq, m_group, m_seq, m_class_cons, Hc. reflexivity.
Qed.

Lemma exec_skips_non_digits (pre s : jsstring) :
  Forall (fun c => digit c = false) pre ->
  forall start,
    exec_from re (pre ++ s) start = exec_from re s (start + List.length pre).
Proof.
  induction 1 as [|c pre Hc Hpre IH]; intros start.
  - simpl. now rewrite Nat.add_0_r.
  - simpl app. cbn [exec_from]. change (flag_i re) with true.
    rewrite (@match_at_non_digit c _ Hc), IH. f_equal. simpl. lia.
Qed.

(** At a run of digits followed by a non-digit, the group takes the
    whole run, provided the rest of the pattern matches after it. *)
Lemma match_at_digits (ds rest : jsstring) (res : nat * captures) :
  ds <> [] ->
  Forall (fun c => digit c = true) ds ->
  match rest with c :: _ => digit c = false | [] => True end ->
  after_digits unit_words item_words rest (List.length ds) [] = Some res ->
  match_at true (pattern re) (ds ++ rest) = Some res.
Proof.
  intros Hne Hds Hrest Hk. destruct ds as [|d ds]; [congruence|].
  inversion Hds as [|? ? Hd Hds']; subst.
  unfold match_at, re, item_regexp, quantity_in, Plus. cbn [pattern].
  simpl app. rewrite !m_seq, m_group, m_seq, m_class_cons, Hd.
  rewrite m_star_greedy.
  apply greedy_run_all; [exact Hds'|exact Hrest|exact Hk].
Qed.

Lemma String_match_digits (pre ds rest : jsstring) (len : nat) (caps : captures) :
  Forall (fun c => digit c = false) pre ->
  ds <> [] ->
  Forall (fun c => digit c = true) ds ->
  match rest with c :: _ => digit c = false | [] => True end ->
  after_digits unit_words item_words rest (List.length ds) []
    = Some (len, (1, (0, List.length ds)) :: caps)%nat ->
  exists mtch,
    String_match (pre ++ ds ++ rest) re = Some mtch
    /\ index mtch = List.length pre
    /\ group mtch 1 = Some ds.
Proof.
  intros Hpre Hne Hds Hrest Hk. unfold String_match.
  rewrite exec_skips_non_digits by assumption.
  destruct (ds ++ rest) as [|x l] eqn:E;
    [destruct ds; [congruence|discriminate]|].
  cbn [exec_from]. rewrite <- E. change (flag_i re) with true.
  rewrite (@match_at_digits _ _ _ Hne Hds Hrest Hk).
  eexists. split; [reflexivity|]. cbn [index group lookup_capture Nat.eqb].
  split; [reflexivity|]. unfold substring. rewrite Nat.sub_0_r. cbn [skipn].
  rewrite firstn_app, Nat.sub_diag, firstn_all. simpl. now rewrite app_nil_r.
Qed.
End ItemPattern.

(** The matcher examines the input from left to right: the match that
    [exec] reports is the leftmost one. *)
Lemma exec_from_leftmost (re : regexp) (s : jsstring) :
  forall start mtch,
    exec_from re s start = Some mtch ->
    exists i,
      index mtch = (start + i)%nat
      /\ (forall j, (j < i)%nat -> match_at (flag_i re) (pattern re) (skipn j s) = None)
      /\ match_at (flag_i re) (pattern re) (skipn i s) <> None.
Proof.
  induction s as [|c s IH]; intros start mtch H; cbn [exec_from] in H.
  - destruct (match_at (flag_i re) (pattern re) []) as [[len caps]|] eqn:E; [|discriminate].
    injection H as <-. exists 0%nat. cbn [index]. split; [lia|]. split; [lia|].
    simpl. congruence.
  - destruct (match_at (flag_i re) (pattern re) (c :: s)) as [[len caps]|] eqn:E.
    + injection H as <-. exists 0%nat. cbn [index]. split; [lia|]. split; [lia|].
      simpl. congruence.
    + apply IH in H as (i & H1 & H2 & H3). exists (S i). split; [lia|]. split.
      * intros [|j] Hj; [exact E|]. apply H2. lia.
      * exact H3.
Qed.

End FoodPatternFacts.
Import FoodPatternFacts.

Module ExtractionFacts.
Import GeminiService.

(** The text after the digits that each pattern is tried on below:
    unit, blank, item. *)
Lemma after_digits_tomatoes (post : jsstring) (n : nat) :
  after_digits kg_words (Alt (Lit "tomato") (Lit "tomatoes")) (#"kg tomatoes" ++ post) n []
  = Some (n + 9, [(1, (0, n))])%nat.
Proof.
  cbv -[Nat.leb Nat.add]. rewrite Nat.leb_refl. cbv -[Nat.leb Nat.add].
  f_equal. f_equal. lia.
Qed.

Lemma after_digits_milk (post : jsstring) (n : nat) :
  after_digits liter_words (Lit "milk") (#"l milk" ++ post) n []
  = Some (n + 6, [(1, (0, n))])%nat.
Proof.
  cbv -[Nat.leb Nat.add]. rewrite Nat.leb_refl. cbv -[Nat.leb Nat.add].
  f_equal. f_equal. lia.
Qed.

Lemma after_digits_potatoes (post : jsstring) (n : nat) :
  after_digits kg_words (Alt (Lit "potato") (Lit "potatoes")) (#"kg potatoes" ++ post) n []
  = Some (n + 9, [(1, (0, n))])%nat.
Proof.
  cbv -[Nat.leb Nat.add]. rewrite Nat.leb_refl. cbv -[Nat.leb Nat.add].
  f_equal. f_equal. lia.
Qed.

Lemma after_digits_rice (post : jsstring) (n : nat) :
  after_digits kg_words (Lit "rice") (#"kg rice" ++ post) n []
  = Some (n + 7, [(1, (0, n))])%nat.
Proof.
  cbv -[Nat.leb Nat.add]. rewrite Nat.leb_refl. cbv -[Nat.leb Nat.add].
  f_equal. f_equal. lia.
Qed.

Lemma accumulate_contribution (report : jsstring) (acc : extraction) (p : food_pattern) :
  accumulate report acc p =
    match contribution report p with
    | Some q =>
        {| items := items acc ++ [entry p q];
           totalQuantity := int_add (totalQuantity acc) q;
           totalValue := int_add (totalValue acc) (int_mul q (Int (price p))) |}
    | None => acc
    end.
Proof.
  unfold accumulate, contribution.
  destruct (String_match report (regex p)); reflexivity.
Qed.

Lemma int_add_0_r (a : jsint) : int_add a (Int 0) = a.
Proof. destruct a; simpl; [reflexivity|]. now rewrite Z.add_0_r. Qed.

(** A first mention of an item, with nothing but non-digits before it,
    decides the quantity of that item, whatever follows. *)
Lemma first_mention (p : food_pattern) (words : jsstring) :
  In (p, words)
     [(tomatoes, #"kg tomatoes"); (milk, #"l milk");
      (potatoes, #"kg potatoes"); (rice, #"kg rice")] ->
  forall pre ds post,
    Forall (fun c => digit c = false) pre ->
    ds <> [] ->
    Forall (fun c => digit c = true) ds ->
    exists mtch,
      String_match (pre ++ ds ++ words ++ post) (regex p) = Some mtch
      /\ index mtch = List.length pre
      /\ group mtch 1 = Some ds.
Proof.
  intros Hin pre ds post Hpre Hne Hds.
  destruct Hin as [E|[E|[E|[E|[]]]]]; injection E as <- <-.
  - eapply String_match_digits; try eassumption; [reflexivity|].
    apply after_digits_tomatoes.
  - eapply String_match_digits; try eassumption; [reflexivity|].
    apply after_digits_milk.
  - eapply String_match_digits; try eassumption; [reflexivity|].
    apply after_digits_potatoes.
  - eapply String_match_digits; try eassumption; [reflexivity|].
    apply after_digits_rice.
Qed.

End ExtractionFacts.
Import ExtractionFacts.

(* ================================================================= *)
(** ** The gateway methods, one by one *)

Module GatewayFacts.
Import GeminiService GenerateContentFacts.

Lemma service_calls_app (a b : trace) :
  service_calls (a ++ b) = (service_calls a + service_calls b)%nat.
Proof. unfold service_calls. now rewrite filter_app, length_app. Qed.

Lemma service_calls_cons (e : event) (t : trace) :
  service_calls (e :: t)
  = ((if is_service_call e then 1 else 0) + service_calls t)%nat.
Proof. unfold service_calls. simpl. now destruct (is_service_call e). Qed.

Ltac count_calls :=
  rewrite ?service_calls_app; repeat rewrite service_calls_cons;
  change (service_calls []) with 0%nat; cbn [is_service_call]; lia.

Lemma parse_attempts_app (a b : trace) :
  parse_attempts (a ++ b) = parse_attempts a ++ parse_attempts b.
Proof. unfold parse_attempts. apply flat_map_app. Qed.

Ltac count_generateContent :=
  match goal with
  | |- context [generateContent ?rt ?a ?b ?c ?t] =>
      let v := fresh "v" in
      let t' := fresh "t'" in
      let E := fresh "E" in
      let Hc := fresh "Hc" in
      destruct (run_total rt a b c t) as (v & t' & E & Hc);
      rewrite E; cbn [snd]; rewrite Hc
  end.

Lemma clock_reads_snoc (t : trace) (e : event) :
  clock_reads (t ++ [e]) = (clock_reads t + if is_clock_read e then 1 else 0)%nat.
Proof.
  unfold clock_reads. rewrite filter_app, length_app. simpl.
  now destruct (is_clock_read e).
Qed.

Ltac read_clock :=
  rewrite ?clock_reads_snoc; cbn [is_clock_read]; rewrite ?Nat.add_0_r, ?Nat.add_1_r.

(** *** Conversions to string *)

Lemma to_string_printable (v : value) :
  to_string v = if printable v then Some (text_of v) else None.
Proof. unfold printable, text_of. now destruct (to_string v). Qed.

(** A falsy value has a string, so a default does not change whether the
    conversion succeeds. *)
Lemma printable_or_else (v : value) (d : jsstring) :
  printable (or_else v (VStr d)) = printable v.
Proof.
  unfold or_else. destruct (truthy v) eqn:E; [reflexivity|].
  destruct v as [| |[]| |q|[|c s]| |]; try discriminate E; reflexivity.
Qed.

Lemma ToString_printable (v : value) (t : trace) :
  printable v = true -> ToString v t = (Normal (text_of v), t).
Proof. intros H. unfold ToString. now rewrite to_string_printable, H. Qed.

Lemma ToString_unprintable (v : value) (t : trace) :
  printable v = false -> ToString v t = (Throw TypeError, t).
Proof. intros H. unfold ToString. now rewrite to_string_printable, H. Qed.

Lemma ToString_default (v : value) (d : jsstring) (t : trace) :
  printable v = true ->
  ToString (or_else v (VStr d)) t = (Normal (text_of (or_else v (VStr d))), t).
Proof. intros H. apply ToString_printable. now rewrite printable_or_else. Qed.

Lemma ToString_default_unprintable (v : value) (d : jsstring) (t : trace) :
  printable v = false -> ToString (or_else v (VStr d)) t = (Throw TypeError, t).
Proof. intros H. apply ToString_unprintable. now rewrite printable_or_else. Qed.

(** The comparisons on the severity throw exactly when its conversion to a
    string does. *)
Lemma at_least_printable (v : value) (n : Z) :
  printable v = true -> exists b, at_least v n = Some b.
Proof.
  unfold printable, at_least, to_number. intros H.
  destruct v as [| | | | |s|l|props]; try (eexists; reflexivity).
  - destruct (string_to_number s) as [|negative|q]; eexists; reflexivity.
  - destruct (to_string (VArr l)) as [s|]; [|discriminate H]. cbn [option_map].
    destruct (string_to_number s) as [|negative|q]; eexists; reflexivity.
  - destruct (to_string (VObj props)) as [s|]; [|discriminate H]. cbn [option_map].
    destruct (string_to_number s) as [|negative|q]; eexists; reflexivity.
Qed.

Lemma EmergencyLevel_printable (severity : value) (t : trace) :
  printable severity = true ->
  exists level, EmergencyLevel severity t = (Normal level, t).
Proof.
  intros H. unfold EmergencyLevel, emergency_level.
  destruct (@at_least_printable severity 4%Z H) as (b4 & ->).
  destruct (@at_least_printable severity 3%Z H) as (b3 & ->).
  destruct b4; [|destruct b3]; eexists; reflexivity.
Qed.

(** *** generateWastePlan *)

(** The report of planData when it has one. *)
Lemma has_report_object (planData : value) :
  has_report planData = true ->
  exists props report,
    planData = VObj props /\ assoc #"raw_report" props = Some (VStr report).
Proof.
  unfold has_report. destruct planData as [| | | | | | |props]; try discriminate.
  destruct (assoc #"raw_report" props) as [[| | | | |report| |]|] eqn:E; try discriminate.
  intros _. now exists props, report.
Qed.

Lemma generateWastePlan_run (rt : runtime) (props : list (jsstring * value))
    (report : jsstring) (t : trace) :
  assoc #"raw_report" props = Some (VStr report) ->
  let priority_focus := opt_get (VObj props) "priority_focus" in
  printable priority_focus = true ->
  generateWastePlan rt (VObj props) t
  = generateContent rt generateWastePlan_systemPrompt (stringify_text (VObj props))
      (generateWastePlan_fallbackData priority_focus
         (text_of (or_else priority_focus (str "Balanced Approach")))
         (toLocaleString rt (clock_reads t))
         (text_of (or_else priority_focus (str "balanced approach")))
         (extractFoodItems report))
      (t ++ [ClockRead]).
Proof.
  intros Hreport priority_focus Hfocus.
  unfold generateWastePlan, bind, get, ret, Date_toLocaleString.
  change (js "raw_report") with #"raw_report". rewrite Hreport.
  fold (opt_get (VObj props) "priority_focus"). fold priority_focus.
  unfold str. rewrite !ToString_default by exact Hfocus. reflexivity.
Qed.

Lemma generateWastePlan_unready (rt : runtime) (planData : value) (t : trace) :
  plan_ready planData = false ->
  generateWastePlan rt planData t = (Throw TypeError, t).
Proof.
  unfold plan_ready. intros H.
  unfold generateWastePlan, bind, get, ret, throw, Date_toLocaleString.
  destruct planData as [| | | | | | |props]; try reflexivity.
  unfold has_report in H. change (js "raw_report") with #"raw_report".
  destruct (assoc #"raw_report" props) as [[| | | | |report| |]|]; try reflexivity.
  cbn [andb] in H.
  fold (opt_get (VObj props) "priority_focus").
  unfold str. now rewrite ToString_default_unprintable.
Qed.

Lemma generateWastePlan_ready (rt : runtime) (planData : value) (t : trace) :
  plan_ready planData = true ->
  exists systemPrompt userInput fallbackData,
    generateWastePlan rt planData t
    = generateContent rt systemPrompt userInput fallbackData (t ++ [ClockRead]).
Proof.
  unfold plan_ready. intros H. apply andb_true_iff in H as [Hr Hf].
  destruct (has_report_object _ Hr) as (props & report & -> & Hreport).
  eexists _, _, _. exact (@generateWastePlan_run rt props report t Hreport Hf).
Qed.

(** *** findNearbyHospitals *)

Lemma get_defined (v : value) (k : string) (t : trace) :
  match v with VUndefined | VNull => false | _ => true end = true ->
  get v k t = (Normal (opt_get v k), t).
Proof. destruct v; try discriminate; reflexivity. Qed.

Lemma findNearbyHospitals_unready (rt : runtime) (locationData : value) (t : trace) :
  request_ready locationData = false ->
  findNearbyHospitals rt locationData t = (Throw TypeError, t).
Proof.
  unfold request_ready. intros H.
  destruct locationData as [| |b| |q|s|l|props];
    try discriminate H; [reflexivity|reflexivity|].
  unfold findNearbyHospitals.
  unfold bind at 1. rewrite get_defined by reflexivity. cbv beta iota.
  unfold bind at 1. rewrite get_defined by reflexivity. cbv beta iota.
  unfold bind at 1. rewrite get_defined by reflexivity. cbv beta iota.
  apply andb_false_iff in H as [H|H].
  - unfold bind at 1. now rewrite ToString_unprintable by exact H.
  - unfold bind at 1. destruct (printable (opt_get (VObj props) "latitude")) eqn:Hlat.
    + rewrite ToString_printable by exact Hlat. unfold bind at 1.
      now rewrite ToString_unprintable by exact H.
    + now rewrite ToString_unprintable by exact Hlat.
Qed.

Lemma EmergencyLevel_total (severity : value) :
  printable severity = true ->
  exists level, forall t, EmergencyLevel severity t = (Normal level, t).
Proof.
  intros H. destruct (@EmergencyLevel_printable severity [] H) as (level & E).
  exists level. intros t. unfold EmergencyLevel in *.
  destruct (emergency_level severity); [|discriminate E].
  injection E as ->. reflexivity.
Qed.

(** The reverse-geocoding step never throws: it leaves a location, having
    used the completion service once. *)
Lemma geocoding_step (rt : runtime) (prompt : jsstring) (t : trace) :
  exists t1,
    try_catch
      (text <- model_generateContent rt prompt ;;
       match String_match text json_object_regexp with
       | Some jsonMatch =>
           userLocation <- JSON_parse (matched jsonMatch) ;;
           console Log [str "🌍 Reverse geocoded location:"; userLocation] ;;;
           ret userLocation
       | None => ret VUndefined
       end)
      (fun error =>
         console Error [str "Error during reverse geocoding:"; error] ;;;
         ret unknown_location) t
    = (Normal (geocoded (completion_service rt (service_calls t) prompt)), t1)
    /\ service_calls t1 = S (service_calls t).
Proof.
  unfold try_catch, bind, model_generateContent, JSON_parse, console, emit, ret, geocoded.
  destruct (completion_service rt (service_calls t) prompt) as [text|e].
  - destruct (String_match text json_object_regexp) as [mtch|].
    + destruct (JSON.parse (matched mtch)) as [v|];
        (eexists; split; [reflexivity|count_calls]).
    + eexists; split; [reflexivity|count_calls].
  - eexists; split; [reflexivity|count_calls].
Qed.

Ltac convert :=
  first [ rewrite ToString_printable by assumption
        | rewrite ToString_default by assumption
        | rewrite ToString_unprintable by assumption
        | rewrite ToString_default_unprintable by assumption ];
  cbv beta iota.

(** The call up to the end of the geocoding step. *)
Ltac after_geocoding locationData Hdef Hgeo :=
  unfold findNearbyHospitals;
  do 3 (unfold bind at 1; rewrite get_defined by exact Hdef; cbv beta iota);
  let severity := eval cbv beta zeta delta [severity_of] in (severity_of locationData) in
  change severity with (severity_of locationData);
  do 2 (unfold bind at 1; convert);
  unfold bind at 1; rewrite Hgeo; cbv beta iota; unfold str.

(** After the geocoding, the call throws where a substitution of the system
    prompt has no string, before it reads the clock, and reaches
    generateContent otherwise. *)
Lemma findNearbyHospitals_run (rt : runtime) (locationData : value) (t : trace) :
  request_ready locationData = true ->
  let userLocation :=
    geocoded (completion_service rt (service_calls t) (geocoding_request locationData)) in
  exists t1,
    service_calls t1 = S (service_calls t)
    /\ (prompt_ready locationData userLocation = false ->
        findNearbyHospitals rt locationData t = (Throw TypeError, t1))
    /\ (prompt_ready locationData userLocation = true ->
        exists systemPrompt userInput fallbackData,
          findNearbyHospitals rt locationData t
          = generateContent rt systemPrompt userInput fallbackData
              (t1 ++ [ClockRead] ++ [ClockRead])).
Proof.
  intros Hready userLocation.
  assert (Hdef : match locationData with VUndefined | VNull => false | _ => true end = true)
    by (destruct locationData; try reflexivity; discriminate Hready).
  assert (Hcoord : printable (opt_get locationData "latitude") = true
                   /\ printable (opt_get locationData "longitude") = true).
  { unfold request_ready in Hready.
    destruct locationData; try discriminate Hdef; now apply andb_true_iff in Hready. }
  destruct Hcoord as [Hlat Hlon].
  destruct (geocoding_step rt (geocoding_request locationData) t) as (t1 & Hgeo & Hcalls).
  exists t1. split; [exact Hcalls|].
  change (geocoded _) with userLocation in Hgeo.
  split; intros Hp; unfold prompt_ready in Hp.
  - destruct (printable (severity_of locationData)) eqn:Hsev;
      destruct (printable (opt_get userLocation "area_name")) eqn:Harea;
      destruct (printable (opt_get userLocation "district")) eqn:Hdistrict;
      destruct (printable (opt_get userLocation "postal_code")) eqn:Hpostal;
      try discriminate Hp;
      after_geocoding locationData Hdef Hgeo;
      repeat (unfold bind at 1; convert); reflexivity.
  - apply andb_true_iff in Hp as [Hp Hpostal].
    apply andb_true_iff in Hp as [Hp Hdistrict].
    apply andb_true_iff in Hp as [Hsev Harea].
    destruct (@EmergencyLevel_total (severity_of locationData) Hsev) as (level & Hlevel).
    eexists _, _, _.
    after_geocoding locationData Hdef Hgeo.
    repeat (unfold bind at 1; convert).
    unfold bind at 1. rewrite Hlevel. cbv beta iota.
    unfold bind at 1, Date_toISOString at 1. cbv beta iota.
    unfold bind at 1; convert.
    unfold bind at 1. rewrite Hlevel. cbv beta iota.
    unfold bind at 1, Date_toISOString at 1. cbv beta iota.
    repeat (unfold bind at 1; convert).
    rewrite <- app_assoc. reflexivity.
Qed.

End GatewayFacts.
Import GatewayFacts.

(* ================================================================= *)
(** ** The failure paths of generateContent *)

Module FallbackClaims.
Import GeminiService GenerateContentFacts GatewayFacts.

(** C1.  In each of the three failure modes (the completion call throws;
    the response text has no match for the JSON pattern; the matched text
    is rejected by JSON.parse) generateContent, given a fallback object,
    completes normally and returns exactly that object, whatever the
    prompts: no exception reaches the caller. *)
Theorem generateContent_failure_returns_fallback
    (rt : runtime) (systemPrompt userInput : jsstring)
    (props : list (jsstring * value)) (t : trace) :
  let reply :=
    completion_service rt (service_calls t) (prompt_of systemPrompt userInput) in
  (exists e, reply = Rejects e)
  \/ (exists text,
        reply = Responds text /\ String_match text json_object_regexp = None)
  \/ (exists text mtch,
        reply = Responds text
        /\ String_match text json_object_regexp = Some mtch
        /\ JSON.parse (matched mtch) = None) ->
  exists t',
    generateContent rt systemPrompt userInput (VObj props) t
    = (Normal (VObj props), t').
Proof.
  intros reply H.
  apply unusable_reply_returns_fallback. fold reply. unfold unusable.
  destruct H as [(e & ->) | [(text & -> & ->) | (text & mtch & -> & -> & Hp)]];
    [exact I | exact I | exact Hp].
Qed.

Lemma generateContent_failure_returns_fallback_witness :
  (exists t', getShelterStats unreachable [] = (Normal getShelterStats_fallbackData, t'))
  /\ (exists t', getShelterStats (replying #"I cannot help with that.") []
                 = (Normal getShelterStats_fallbackData, t'))
  /\ (exists t', getShelterStats (replying #"{total_shelters: fifteen}") []
                 = (Normal getShelterStats_fallbackData, t')).
Proof.
  split; [|split].
  - apply (@generateContent_failure_returns_fallback unreachable
             getShelterStats_systemPrompt #"Generate shelter statistics" _ []).
    left. eexists. reflexivity.
  - apply (@generateContent_failure_returns_fallback
             (replying #"I cannot help with that.")
             getShelterStats_systemPrompt #"Generate shelter statistics" _ []).
    right. left. eexists. split; [reflexivity|]. vm_compute. reflexivity.
  - apply (@generateContent_failure_returns_fallback
             (replying #"{total_shelters: fifteen}")
             getShelterStats_systemPrompt #"Generate shelter statistics" _ []).
    right. right. eexists _, _. split; [reflexivity|].
    split; [vm_compute; reflexivity|]. vm_compute. reflexivity.
Defined.

(** C9.  Without a fallback record (null, or omitted) generateContent builds
    its answer on the spot: the raw response text under [data] with
    [success: true] when no JSON is found or the JSON does not parse, and
    [success: false] with a fixed message when the completion call
    throws. *)
Theorem generateContent_without_fallback
    (rt : runtime) (systemPrompt userInput : jsstring) (fallbackData : value) (t : trace) :
  fallbackData = VNull \/ fallbackData = VUndefined ->
  let reply := completion_service rt (service_calls t) (prompt_of systemPrompt userInput) in
  let result := fst (generateContent rt systemPrompt userInput fallbackData t) in
  (forall e,
      reply = Rejects e ->
      result = Normal (obj ["success" :- VBool false;
                            "error" :- str "AI service temporarily unavailable"]))
  /\ (forall text,
        reply = Responds text ->
        String_match text json_object_regexp = None
        \/ (exists mtch, String_match text json_object_regexp = Some mtch
                         /\ JSON.parse (matched mtch) = None) ->
        result = Normal (obj ["success" :- VBool true; "data" :- VStr text])).
Proof.
  intros Hfb reply result. subst result. split.
  - intros e He. rewrite (@run_rejected rt systemPrompt userInput _ t e He). now destruct Hfb; subst.
  - intros text Hr [Hm | (mtch & Hm & Hp)].
    + rewrite (@run_no_match rt systemPrompt userInput _ t text Hr Hm). now destruct Hfb; subst.
    + rewrite (@run_parse_error rt systemPrompt userInput _ t text mtch Hr Hm Hp). now destruct Hfb; subst.
Qed.

Lemma generateContent_without_fallback_witness :
  (VNull = VNull \/ VNull = VUndefined)
  /\ fst (generateContent unreachable #"You are a helper." #"hello" VNull [])
     = Normal (obj ["success" :- VBool false;
                    "error" :- str "AI service temporarily unavailable"])
  /\ fst (generateContent (replying #"no braces here") #"You are a helper." #"hello" VNull [])
     = Normal (obj ["success" :- VBool true; "data" :- str "no braces here"]).
Proof.
  split; [now left|]. split.
  - apply (proj1 (generateContent_without_fallback unreachable #"You are a helper."
                      #"hello" [] (or_introl eq_refl)) (str "fetch failed")).
    reflexivity.
  - apply (proj2 (generateContent_without_fallback (replying #"no braces here")
                      #"You are a helper." #"hello" [] (or_introl eq_refl))).
    + reflexivity.
    + left. vm_compute. reflexivity.
Defined.

End FallbackClaims.

(* ================================================================= *)
(** ** The live path of generateContent *)

Module ExtractionClaims.
Import GeminiService GenerateContentFacts GatewayFacts.

(** C2, as stated, fails: a response text that holds exactly one
    well-formed JSON object, after some prose that happens to contain a
    brace, does not yield that object; the match starts at the brace in
    the prose, the parse fails and the fallback is returned. *)
Lemma stray_brace_hides_object :
  json_objects_in draft_text = [(14%nat, 12%nat, obj ["beds" :- int 40])]
  /\ fst (getShelterStats (replying draft_text) []) = Normal getShelterStats_fallbackData
  /\ getShelterStats_fallbackData <> obj ["beds" :- int 40].
Proof.
  split; [vm_compute; reflexivity|]. split; [vm_compute; reflexivity|].
  vm_compute. discriminate.
Qed.

(** C2, amended.  When the response text is an object text [{ ... }] that
    JSON.parse accepts, with no opening brace anywhere before it and no
    closing brace anywhere after it, generateContent returns the value
    JSON.parse gives for exactly that object text.  In particular an object
    serialized into brace-free prose comes back as parsed. *)
Theorem generateContent_returns_embedded_object
    (rt : runtime) (systemPrompt userInput : jsstring) (fallbackData : value) (t : trace)
    (pre body post : jsstring) (v : value) :
  completion_service rt (service_calls t) (prompt_of systemPrompt userInput)
  = Responds (pre ++ (123%N :: body ++ [125%N]) ++ post) ->
  ~ In 123%N pre ->
  ~ In 125%N post ->
  JSON.parse (123%N :: body ++ [125%N]) = Some v ->
  fst (generateContent rt systemPrompt userInput fallbackData t) = Normal v.
Proof.
  intros Hr Hpre Hpost Hp.
  destruct (@exec_json_found pre body post Hpre Hpost 0) as (mtch & Hm & _ & Hmatched).
  assert (E : pre ++ (123%N :: body ++ [125%N]) ++ post
              = pre ++ 123%N :: body ++ 125%N :: post).
  { simpl. now rewrite <- app_assoc. }
  rewrite E in Hr. rewrite <- Hmatched in Hp.
  now rewrite (@run_parsed rt systemPrompt userInput fallbackData t _ mtch v Hr Hm Hp).
Qed.

Lemma generateContent_returns_embedded_object_witness :
  (completion_service (replying #"Here is the plan: {`beds`: 40} Regards.") 0
     (prompt_of getShelterStats_systemPrompt #"Generate shelter statistics")
   = Responds (#"Here is the plan: " ++ (123%N :: #"`beds`: 40" ++ [125%N]) ++ #" Regards."))
  /\ ~ In 123%N #"Here is the plan: "
  /\ ~ In 125%N #" Regards."
  /\ JSON.parse (123%N :: #"`beds`: 40" ++ [125%N]) = Some (obj ["beds" :- int 40])
  /\ fst (getShelterStats (replying #"Here is the plan: {`beds`: 40} Regards.") [])
     = Normal (obj ["beds" :- int 40]).
Proof.
  assert (H1 : ~ In 123%N #"Here is the plan: ").
  { vm_compute. intros H. repeat (destruct H as [H|H]; [discriminate H|]). exact H. }
  assert (H2 : ~ In 125%N #" Regards.").
  { vm_compute. intros H. repeat (destruct H as [H|H]; [discriminate H|]). exact H. }
  split; [reflexivity|]. split; [exact H1|]. split; [exact H2|].
  split; [vm_compute; reflexivity|].
  apply (@generateContent_returns_embedded_object
           (replying #"Here is the plan: {`beds`: 40} Regards.")
           getShelterStats_systemPrompt #"Generate shelter statistics"
           getShelterStats_fallbackData []
           #"Here is the plan: " #"`beds`: 40" #" Regards." (obj ["beds" :- int 40])).
  - reflexivity.
  - exact H1.
  - exact H2.
  - vm_compute. reflexivity.
Defined.

(** C5.  The extraction step takes the part of the response text from its
    first opening brace to its last closing brace and hands exactly that
    part to JSON.parse; when the text has no opening brace followed by a
    closing brace, nothing is matched and JSON.parse is not called. *)
Theorem extraction_spans_first_open_to_last_close
    (rt : runtime) (systemPrompt userInput : jsstring) (fallbackData : value) (t : trace)
    (text : jsstring) :
  completion_service rt (service_calls t) (prompt_of systemPrompt userInput)
  = Responds text ->
  let t' := snd (generateContent rt systemPrompt userInput fallbackData t) in
  (forall pre body post,
      text = pre ++ 123%N :: body ++ 125%N :: post ->
      ~ In 123%N pre ->
      ~ In 125%N post ->
      (exists mtch,
          String_match text json_object_regexp = Some mtch
          /\ index mtch = List.length pre
          /\ matched mtch = 123%N :: body ++ [125%N])
      /\ parse_attempts t' = parse_attempts t ++ [123%N :: body ++ [125%N]])
  /\ ((forall pre body post, text <> pre ++ 123%N :: body ++ 125%N :: post) ->
      String_match text json_object_regexp = None
      /\ parse_attempts t' = parse_attempts t).
Proof.
  intros Hr t'. subst t'. split.
  - intros pre body post -> Hpre Hpost.
    destruct (@exec_json_found pre body post Hpre Hpost 0) as (mtch & Hm & Hi & Hmatched).
    split; [exists mtch; now repeat split|].
    destruct (JSON.parse (matched mtch)) as [v|] eqn:Hp.
    + rewrite (@run_parsed rt systemPrompt userInput fallbackData t _ mtch v Hr Hm Hp).
      cbn [snd]. rewrite !parse_attempts_app, Hmatched. reflexivity.
    + rewrite (@run_parse_error rt systemPrompt userInput fallbackData t _ mtch Hr Hm Hp).
      cbn [snd]. rewrite !parse_attempts_app, Hmatched. reflexivity.
  - intros Hno. pose proof (@exec_json_none text Hno 0) as Hm. split; [exact Hm|].
    rewrite (@run_no_match rt systemPrompt userInput fallbackData t text Hr Hm).
    cbn [snd]. rewrite parse_attempts_app. simpl. now rewrite app_nil_r.
Qed.

Lemma extraction_spans_first_open_to_last_close_witness :
  completion_service (replying #"a {b} c {d} e") 0 (prompt_of #"p" #"q")
  = Responds #"a {b} c {d} e"
  /\ parse_attempts (snd (generateContent (replying #"a {b} c {d} e") #"p" #"q" VNull []))
     = [#"{b} c {d}"].
Proof.
  split; [reflexivity|].
  refine (proj2 (proj1 (@extraction_spans_first_open_to_last_close
                          (replying #"a {b} c {d} e") #"p" #"q" VNull []
                          #"a {b} c {d} e" eq_refl)
                       #"a " #"b} c {d" #" e" eq_refl _ _)).
  - vm_compute. intros H. repeat (destruct H as [H|H]; [discriminate H|]). exact H.
  - vm_compute. intros H. repeat (destruct H as [H|H]; [discriminate H|]). exact H.
Defined.

End ExtractionClaims.

(* ================================================================= *)
(** ** Use of the completion service *)

Module ServiceUseClaims.
Import GeminiService GenerateContentFacts GatewayFacts.

(** C3, as stated, fails: findNearbyHospitals uses the completion service
    twice in one call, first for the reverse geocoding and then, through
    generateContent, for the hospital list. *)
Lemma findNearbyHospitals_calls_twice :
  service_calls (snd (invoke (replying #"{`area_name`: `Adyar`}")
                        (FindNearbyHospitals chennai) []))
  = 2%nat
  /\ service_calls (snd (invoke (replying #"{`area_name`: `Adyar`}")
                           (FindNearbyHospitals chennai) []))
     <> 1%nat.
Proof. split; vm_compute; [reflexivity|discriminate]. Qed.

(** C3, amended.  generateContent uses the completion service exactly
    once per call, with no retry.  A gateway call that completes has
    therefore used it once where the method delegates to generateContent,
    twice for findNearbyHospitals (its own reverse-geocoding request, then
    generateContent) and not at all for the methods that return fixed data.
    A call that throws never reached generateContent: generateWastePlan
    throws before any use of the service, findNearbyHospitals before its
    own request (no use) or right after it (one use), and no other method
    throws. *)
Theorem service_calls_of_each_method (rt : runtime) (t : trace) :
  (forall systemPrompt userInput fallbackData,
      service_calls (snd (generateContent rt systemPrompt userInput fallbackData t))
      = S (service_calls t))
  /\ (forall c : gateway_call,
        let calls := service_calls (snd (invoke rt c t)) in
        match fst (invoke rt c t) with
        | Normal _ => calls = (service_calls t + calls_made c)%nat
        | Throw _ => calls = (service_calls t + calls_before_throw c)%nat
        end).
Proof.
  assert (G : forall systemPrompt userInput fallbackData t0,
             exists v,
               fst (generateContent rt systemPrompt userInput fallbackData t0) = Normal v
               /\ service_calls (snd (generateContent rt systemPrompt userInput
                                        fallbackData t0))
                  = S (service_calls t0)).
  { intros sp ui fb t0. destruct (run_total rt sp ui fb t0) as (v & t' & E & Hc).
    exists v. now rewrite E. }
  split; [intros sp ui fb; now destruct (G sp ui fb t) as (v & _ & H)|].
  intros c calls. subst calls.
  destruct c; cbn [invoke calls_made calls_before_throw];
    try (unfold getHospitals, getDoctors, getPatients, findHospitalIntelligent,
           getDashboardStats, getOccupancyTrends, getSpecialtyDistribution,
           allocateShelter, getShelterStats;
         match goal with
         | |- context [generateContent rt ?sp ?ui ?fb t] =>
             destruct (G sp ui fb t) as (v & -> & ->); lia
         end);
    try (unfold getInventoryFlow, getNetworkStatus, getWasteReduction, getInventory,
           getDemand, getLogistics, getStorage, getFarmers, ret; cbn [fst snd]; lia).
  - (* findNearbyHospitals *)
    destruct (request_ready locationData) eqn:Hrequest.
    + destruct (@findNearbyHospitals_run rt locationData t Hrequest)
        as (t1 & Hcalls & Hthrow & Hrun).
      destruct (prompt_ready locationData
                  (geocoded (completion_service rt (service_calls t)
                               (geocoding_request locationData)))) eqn:Hprompt.
      * destruct (Hrun eq_refl) as (sp & ui & fb & ->).
        destruct (G sp ui fb (t1 ++ [ClockRead] ++ [ClockRead])) as (v & -> & ->).
        rewrite !service_calls_app, !service_calls_cons. cbn. lia.
      * rewrite (Hthrow eq_refl). cbn [fst snd]. lia.
    + rewrite findNearbyHospitals_unready by exact Hrequest. cbn [fst snd]. lia.
  - (* generateWastePlan *)
    destruct (plan_ready planData) eqn:Hplan.
    + destruct (@generateWastePlan_ready rt planData t Hplan) as (sp & ui & fb & ->).
      destruct (G sp ui fb (t ++ [ClockRead])) as (v & -> & ->).
      rewrite service_calls_app, service_calls_cons. cbn. lia.
    + rewrite generateWastePlan_unready by exact Hplan. cbn [fst snd]. lia.
  - unfold getWasteOptimizerStats, bind, Date_toISOString, ret. cbn [fst snd].
    rewrite service_calls_app. cbn. lia.
Qed.

End ServiceUseClaims.

(* ================================================================= *)
(** ** Fallback records and the prompts *)

Module ShapeClaims.
Import GeminiService.

(** C4 fails for findHospitalIntelligent: its prompt asks for
    [estimated_time] and [cost_estimate] next to the recommendation, while
    its fallback record has no [estimated_time] of its own and carries an
    [emergency_contact] that the prompt mentions nowhere.  The fallback of
    getOccupancyTrends likewise has an [emergency_admissions] its prompt
    does not mention.  The sibling methods allocateShelter and
    getShelterStats do keep the two in step. *)
Theorem findHospitalIntelligent_fallback_shape_differs :
  announced_keys findHospitalIntelligent_systemPrompt
  = map js ["recommended_hospital"; "reasoning"; "alternatives"; "estimated_time";
            "cost_estimate"]%string
  /\ keys findHospitalIntelligent_fallbackData
     = map js ["recommended_hospital"; "reasoning"; "alternatives"; "cost_estimate";
               "emergency_contact"]%string
  /\ same_key_set (announced_keys findHospitalIntelligent_systemPrompt)
       (keys findHospitalIntelligent_fallbackData) = false
  /\ after_marker #"emergency_contact" findHospitalIntelligent_systemPrompt = None
  /\ mem #"emergency_admissions" (keys getOccupancyTrends_fallbackData) = true
  /\ after_marker #"emergency_admissions" getOccupancyTrends_systemPrompt = None
  /\ same_key_set (announced_keys allocateShelter_systemPrompt)
       (keys allocateShelter_fallbackData) = true
  /\ same_key_set (announced_keys getShelterStats_systemPrompt)
       (keys getShelterStats_fallbackData) = true.
Proof.
  assert (Hprompt : announced_keys findHospitalIntelligent_systemPrompt
                    = map js ["recommended_hospital"; "reasoning"; "alternatives";
                              "estimated_time"; "cost_estimate"]%string)
    by (vm_compute; reflexivity).
  assert (Hfallback : keys findHospitalIntelligent_fallbackData
                      = map js ["recommended_hospital"; "reasoning"; "alternatives";
                                "cost_estimate"; "emergency_contact"]%string)
    by (vm_compute; reflexivity).
  split; [exact Hprompt|]. split; [exact Hfallback|].
  split; [rewrite Hprompt, Hfallback; vm_compute; reflexivity|].
  repeat split; vm_compute; reflexivity.
Qed.

End ShapeClaims.

(* ================================================================= *)
(** ** The waste plan *)

Module WastePlanClaims.
Import GeminiService GenerateContentFacts ExtractionFacts.

(** C6 fails on the program.  The report "100kg rice and 50kg tomatoes"
    contains "50kg tomatoes", and the extraction credits tomatoes with the
    100 of the rice: the tomato pattern lets any text stand between the
    unit and the item word, so it matches from the first quantity with a
    unit that has the word tomato after it on the line.  The tomato entry
    is "Tomatoes: 100kg" and tomatoes add 100 * 15 = 1500 to totalValue,
    not 750. *)
Theorem earlier_quantity_is_taken_for_tomatoes :
  #"100kg rice and 50kg tomatoes" = #"100kg rice and " ++ #"50kg tomatoes" ++ []
  /\ contribution #"100kg rice and 50kg tomatoes" tomatoes = Some (Int 100)
  /\ accumulate #"100kg rice and 50kg tomatoes" nothing_extracted tomatoes
     = {| items := [#"Tomatoes: 100kg"];
          totalQuantity := Int 100;
          totalValue := Int 1500 |}
  /\ extractFoodItems #"100kg rice and 50kg tomatoes"
     = {| items := [#"Tomatoes: 100kg"; #"Rice: 100kg"];
          totalQuantity := Int 200;
          totalValue := Int 4000 |}.
Proof. repeat split; vm_compute; reflexivity. Qed.

(** Where no digit stands before "50kg tomatoes" the extraction does what
    the sentence on tomatoes says: the tomato pattern captures the quantity
    50, the entry is "Tomatoes: 50kg", and tomatoes add 50 to totalQuantity
    and 50 * 15 = 750 to totalValue, whatever follows in the report. *)
Lemma tomatoes_50kg_extracted (pre post : jsstring) :
  Forall (fun c => digit c = false) pre ->
  let report := pre ++ #"50kg tomatoes" ++ post in
  (exists mtch,
      String_match report (regex tomatoes) = Some mtch
      /\ group mtch 1 = Some #"50"
      /\ parseInt (group mtch 1) = Int 50)
  /\ accumulate report nothing_extracted tomatoes
     = {| items := [#"Tomatoes: 50kg"];
          totalQuantity := Int 50;
          totalValue := Int (50 * 15) |}
  /\ extractFoodItems report
     = fold_left (accumulate report) [milk; potatoes; rice]
         {| items := [#"Tomatoes: 50kg"];
            totalQuantity := Int 50;
            totalValue := Int 750 |}.
Proof.
  intros Hpre report.
  assert (Hds : Forall (fun c => digit c = true) #"50")
    by (repeat constructor).
  assert (Hne : #"50" <> []) by discriminate.
  destruct (@first_mention tomatoes #"kg tomatoes" (or_introl eq_refl)
              pre #"50" post Hpre Hne Hds) as (mtch & Hm & _ & Hg).
  change (pre ++ #"50" ++ #"kg tomatoes" ++ post) with report in Hm.
  assert (Hacc : accumulate report nothing_extracted tomatoes
                 = {| items := [#"Tomatoes: 50kg"];
                      totalQuantity := Int 50;
                      totalValue := Int 750 |}).
  { unfold accumulate. rewrite Hm, Hg. reflexivity. }
  split; [|split].
  - exists mtch. split; [exact Hm|]. split; [exact Hg|]. now rewrite Hg.
  - exact Hacc.
  - unfold extractFoodItems, patterns. cbn [fold_left].
    fold nothing_extracted. now rewrite Hacc.
Qed.

Lemma tomatoes_50kg_extracted_witness :
  Forall (fun c => digit c = false) #"Surplus today: "
  /\ accumulate (#"Surplus today: " ++ #"50kg tomatoes" ++ #", 20kg tomatoes tomorrow")
       nothing_extracted tomatoes
     = {| items := [#"Tomatoes: 50kg"];
          totalQuantity := Int 50;
          totalValue := Int (50 * 15) |}.
Proof.
  assert (H : Forall (fun c => digit c = false) #"Surplus today: ")
    by (apply Forall_forall; intros c Hc; vm_compute in Hc;
        repeat (destruct Hc as [<-|Hc]; [reflexivity|]); destruct Hc).
  split; [exact H|].
  exact (proj1 (proj2 (@tomatoes_50kg_extracted #"Surplus today: "
                         #", 20kg tomatoes tomorrow" H))).
Defined.

(** C7.  When none of the four patterns matches the report (the empty
    report included), the fallback plan that generateWastePlan builds and
    hands to generateContent has people_served 50 and food_saved_kg 200.
    The plan is built when planData carries the report as a string and a
    priority_focus that the plan text can print. *)
Theorem item_less_report_defaults
    (rt : runtime) (props : list (jsstring * value)) (report : jsstring) (t : trace) :
  assoc #"raw_report" props = Some (VStr report) ->
  (forall p, In p patterns -> String_match report (regex p) = None) ->
  let priority_focus := opt_get (VObj props) "priority_focus" in
  printable priority_focus = true ->
  let now := toLocaleString rt (clock_reads t) in
  let plan :=
    generateWastePlan_fallbackData priority_focus
      (text_of (or_else priority_focus (str "Balanced Approach"))) now
      (text_of (or_else priority_focus (str "balanced approach")))
      (extractFoodItems report) in
  generateWastePlan rt (VObj props) t
  = generateContent rt generateWastePlan_systemPrompt (stringify_text (VObj props)) plan
      (t ++ [ClockRead])
  /\ opt_get (opt_get plan "estimated_impact") "people_served" = int 50
  /\ opt_get (opt_get plan "estimated_impact") "food_saved_kg" = int 200.
Proof.
  intros Hreport Hnone priority_focus Hfocus now plan. subst plan.
  assert (E : extractFoodItems report = nothing_extracted).
  { unfold extractFoodItems, patterns. cbn [fold_left]. unfold accumulate.
    rewrite !Hnone by (simpl; auto). reflexivity. }
  split; [|rewrite E; split; reflexivity].
  exact (@generateWastePlan_run rt props report t Hreport Hfocus).
Qed.

Lemma item_less_report_defaults_witness :
  assoc #"raw_report" ["raw_report" :- str ""] = Some (VStr [])
  /\ (forall p, In p patterns -> String_match [] (regex p) = None)
  /\ printable (opt_get (VObj ["raw_report" :- str ""]) "priority_focus") = true
  /\ (let priority_focus := opt_get (VObj ["raw_report" :- str ""]) "priority_focus" in
      let now := toLocaleString unreachable (clock_reads []) in
      let plan :=
        generateWastePlan_fallbackData priority_focus
          (text_of (or_else priority_focus (str "Balanced Approach"))) now
          (text_of (or_else priority_focus (str "balanced approach")))
          (extractFoodItems []) in
      opt_get (opt_get plan "estimated_impact") "people_served" = int 50
      /\ opt_get (opt_get plan "estimated_impact") "food_saved_kg" = int 200).
Proof.
  assert (H1 : assoc #"raw_report" ["raw_report" :- str ""] = Some (VStr []))
    by reflexivity.
  assert (H2 : forall p, In p patterns -> String_match [] (regex p) = None).
  { intros p [<-|[<-|[<-|[<-|[]]]]]; vm_compute; reflexivity. }
  assert (H3 : printable (opt_get (VObj ["raw_report" :- str ""]) "priority_focus") = true)
    by reflexivity.
  split; [exact H1|]. split; [exact H2|]. split; [exact H3|].
  exact (proj2 (@item_less_report_defaults unreachable ["raw_report" :- str ""] [] []
                  H1 H2 H3)).
Defined.

(** C10.  extractFoodItems takes at most one quantity per category: each
    pattern contributes the quantity of its leftmost match or nothing, to
    items, totalQuantity and totalValue alike.  A first mention preceded by
    no digit decides the quantity of its category whatever follows, so a
    second mention of the same item is ignored. *)
Theorem one_quantity_per_category :
  (forall report,
      let e := extractFoodItems report in
      items e
      = flat_map (fun p => match contribution report p with
                           | Some q => [entry p q]
                           | None => []
                           end) patterns
      /\ totalQuantity e
         = fold_left int_add
             (map (fun p => match contribution report p with
                            | Some q => q
                            | None => Int 0
                            end) patterns) (Int 0)
      /\ totalValue e
         = fold_left int_add
             (map (fun p => match contribution report p with
                            | Some q => int_mul q (Int (price p))
                            | None => Int 0
                            end) patterns) (Int 0)
      /\ (List.length (items e) <= 4)%nat
      /\ (forall p mtch,
             In p patterns ->
             String_match report (regex p) = Some mtch ->
             forall j, (j < index mtch)%nat ->
                       match_at true (pattern (regex p)) (skipn j report) = None))
  /\ (forall p words,
         In (p, words)
            [(tomatoes, #"kg tomatoes"); (milk, #"l milk");
             (potatoes, #"kg potatoes"); (rice, #"kg rice")] ->
         forall pre ds post,
           Forall (fun c => digit c = false) pre ->
           ds <> [] ->
           Forall (fun c => digit c = true) ds ->
           contribution (pre ++ ds ++ words ++ post) p = Some (parseInt (Some ds)))
  /\ extractFoodItems #"10kg tomatoes and 20kg tomatoes"
     = {| items := [#"Tomatoes: 10kg"]; totalQuantity := Int 10; totalValue := Int 150 |}.
Proof.
  split; [|split].
  - intros report e. subst e.
    unfold extractFoodItems, patterns. cbn [fold_left flat_map map].
    rewrite !accumulate_contribution.
    repeat split.
    + destruct (contribution report tomatoes), (contribution report milk),
        (contribution report potatoes), (contribution report rice); reflexivity.
    + destruct (contribution report tomatoes), (contribution report milk),
        (contribution report potatoes), (contribution report rice);
        cbn [totalQuantity]; change (int_add (Int 0) (Int 0)) with (Int 0);
        rewrite ?int_add_0_r; reflexivity.
    + destruct (contribution report tomatoes), (contribution report milk),
        (contribution report potatoes), (contribution report rice);
        cbn [totalValue]; change (int_add (Int 0) (Int 0)) with (Int 0);
        rewrite ?int_add_0_r; reflexivity.
    + destruct (contribution report tomatoes), (contribution report milk),
        (contribution report potatoes), (contribution report rice);
        cbn [items app List.length]; lia.
    + intros p mtch Hp Hm j Hj.
      destruct (exec_from_leftmost _ _ _ Hm) as (i & Hi & Hbefore & _).
      assert (Hflag : flag_i (regex p) = true)
        by (destruct Hp as [<-|[<-|[<-|[<-|[]]]]]; reflexivity).
      rewrite <- Hflag. apply Hbefore. lia.
  - intros p words Hin pre ds post Hpre Hne Hds.
    destruct (first_mention Hin post Hpre Hne Hds) as (mtch & Hm & _ & Hg).
    unfold contribution. now rewrite Hm, Hg.
  - vm_compute. reflexivity.
Qed.

Lemma one_quantity_per_category_witness :
  Forall (fun c => digit c = false) #"We have "
  /\ #"10" <> []
  /\ Forall (fun c => digit c = true) #"10"
  /\ contribution (#"We have " ++ #"10" ++ #"kg tomatoes" ++ #" and 20kg tomatoes") tomatoes
     = Some (Int 10).
Proof.
  assert (H1 : Forall (fun c => digit c = false) #"We have ") by (repeat constructor).
  assert (H2 : #"10" <> []) by discriminate.
  assert (H3 : Forall (fun c => digit c = true) #"10") by (repeat constructor).
  split; [exact H1|]. split; [exact H2|]. split; [exact H3|].
  exact (proj1 (proj2 one_quantity_per_category) tomatoes #"kg tomatoes"
           (or_introl eq_refl) #"We have " #"10" #" and 20kg tomatoes" H1 H2 H3).
Defined.

End WastePlanClaims.

(* ================================================================= *)
(** ** The page *)

Module PageClaims.
Import SmartShelterAllocator.

(** C8.  A click on Generate Shelter Plan sets the state to the static
    plan literal, from any state; any number of clicks leaves the same
    state, and so the same page, as one click. *)
Theorem shelter_plan_click_idempotent (state : value) (n : nat) :
  handleGenerateShelterPlan state = staticShelterPlan
  /\ clicks (S n) state = clicks 1 state
  /\ render (clicks (S n) state) = render (clicks 1 state)
  /\ render (clicks 1 state) = Normal plan_view.
Proof.
  assert (H : clicks (S n) state = staticShelterPlan) by reflexivity.
  split; [reflexivity|]. split; [exact H|]. split; [now rewrite H|].
  vm_compute. reflexivity.
Qed.

End PageClaims.

(* ================================================================= *)
(** * Further properties of the gateway and of the page

    Facts about the matcher on group-free patterns, about the digits an
    item pattern captures and about letter case, then what they give for
    generateContent, for the methods as a whole, for the extraction of
    generateWastePlan and for the page. *)

Import JSONFacts.

Module MatcherFacts.
Import GeminiService.

(** A pattern without groups hands the captures it was given to the rest
    of the pattern, at a position further on in the input. *)
Lemma star_loop_reaches (ic : bool) (R : Type) (r : RegExp.regex) (greedy : bool)
    (k : continuation R) :
  (forall s pos caps (k' : continuation R) res,
      m ic r s pos caps k' = Some res ->
      exists used s', s = used ++ s'
                      /\ k' s' (pos + List.length used)%nat caps = Some res) ->
  forall fuel s pos caps res,
    star_loop (m ic r) greedy k fuel s pos caps = Some res ->
    exists used s', s = used ++ s' /\ k s' (pos + List.length used)%nat caps = Some res.
Proof.
  intros Hr. induction fuel as [|fuel IH]; intros s pos caps res H; [discriminate|].
  cbn [star_loop] in H.
  assert (Hhere : k s pos caps = Some res ->
                  exists used s', s = used ++ s'
                                  /\ k s' (pos + List.length used)%nat caps = Some res).
  { intros Hk. exists [], s. split; [reflexivity|]. simpl. now rewrite Nat.add_0_r. }
  assert (Hagain : m ic r s pos caps
                     (fun s1 pos1 caps1 =>
                        if (pos <? pos1)%nat
                        then star_loop (m ic r) greedy k fuel s1 pos1 caps1
                        else None) = Some res ->
                   exists used s', s = used ++ s'
                                   /\ k s' (pos + List.length used)%nat caps = Some res).
  { intros Hm. apply Hr in Hm as (u1 & s1 & -> & Hm).
    destruct (pos <? pos + List.length u1)%nat; [|discriminate].
    apply IH in Hm as (u2 & s2 & -> & Hm).
    exists (u1 ++ u2), s2. split; [now rewrite app_assoc|].
    rewrite length_app, Nat.add_assoc. exact Hm. }
  destruct greedy.
  - destruct (m ic r s pos caps _) as [res'|] eqn:E.
    + injection H as <-. now apply Hagain.
    + now apply Hhere.
  - destruct (k s pos caps) as [res'|] eqn:E.
    + injection H as <-. now apply Hhere.
    + now apply Hagain.
Qed.

Lemma m_reaches (ic : bool) (R : Type) (r : RegExp.regex) :
  no_group r = true ->
  forall s pos caps (k : continuation R) res,
    m ic r s pos caps k = Some res ->
    exists used s', s = used ++ s' /\ k s' (pos + List.length used)%nat caps = Some res.
Proof.
  induction r as [|p|p|r1 IH1 r2 IH2|r1 IH1 r2 IH2|greedy r1 IH1|n r1 IH1];
    intros Hg s pos caps k res H; cbn [no_group] in Hg.
  - exists [], s. split; [reflexivity|]. simpl. now rewrite Nat.add_0_r.
  - cbn [m] in H. destruct s as [|c s']; [discriminate|].
    destruct (char_matches ic p c); [|discriminate].
    exists [c], s'. split; [reflexivity|]. simpl. now rewrite Nat.add_1_r.
  - cbn [m] in H. destruct s as [|c s']; [discriminate|].
    destruct (p c); [|discriminate].
    exists [c], s'. split; [reflexivity|]. simpl. now rewrite Nat.add_1_r.
  - apply andb_true_iff in Hg as [Hg1 Hg2]. cbn [m] in H.
    apply (IH1 Hg1) in H as (u1 & s1 & -> & H).
    apply (IH2 Hg2) in H as (u2 & s2 & -> & H).
    exists (u1 ++ u2), s2. split; [now rewrite app_assoc|].
    rewrite length_app, Nat.add_assoc. exact H.
  - apply andb_true_iff in Hg as [Hg1 Hg2]. cbn [m] in H.
    destruct (m ic r1 s pos caps k) as [res'|] eqn:E.
    + injection H as <-. now apply (IH1 Hg1) in E.
    + now apply (IH2 Hg2) in H.
  - cbn [m] in H. eapply star_loop_reaches; [|exact H].
    intros s0 pos0 caps0 k' res0. now apply IH1.
  - discriminate.
Qed.

(** A greedy run that succeeds has consumed class members only. *)
Lemma greedy_run_split (R : Type) (p : N -> bool) (k : continuation R) (s : jsstring) :
  forall pos caps res,
    greedy_run p k s pos caps = Some res ->
    exists run rest,
      s = run ++ rest /\ Forall (fun c => p c = true) run
      /\ k rest (pos + List.length run)%nat caps = Some res.
Proof.
  induction s as [|c s IH]; intros pos caps res H; cbn [greedy_run] in H.
  - exists [], []. repeat split; [constructor|]. simpl. now rewrite Nat.add_0_r.
  - assert (Hhere : k (c :: s) pos caps = Some res ->
                    exists run rest,
                      c :: s = run ++ rest /\ Forall (fun c => p c = true) run
                      /\ k rest (pos + List.length run)%nat caps = Some res).
    { intros Hk. exists [], (c :: s). repeat split; [constructor|].
      simpl. now rewrite Nat.add_0_r. }
    destruct (p c) eqn:Hc; [|now apply Hhere].
    destruct (greedy_run p k s (S pos) caps) as [res'|] eqn:E; [|now apply Hhere].
    injection H as <-. apply IH in E as (run & rest & -> & Hrun & Hk).
    exists (c :: run), rest. repeat split; [now constructor|].
    simpl. now rewrite Nat.add_succ_r.
Qed.

End MatcherFacts.
Import MatcherFacts.

Module QuantityFacts.
Import GeminiService.

Lemma digit_range (c : N) :
  digit c = true ->
  (c = 48 \/ c = 49 \/ c = 50 \/ c = 51 \/ c = 52 \/ c = 53 \/ c = 54 \/ c = 55
   \/ c = 56 \/ c = 57)%N.
Proof.
  unfold digit, is_digit. intros H. apply andb_true_iff in H as [H1 H2].
  apply N.leb_le in H1, H2. lia.
Qed.

(** What [exec] reports is what the matcher found at the reported index. *)
Lemma exec_from_found (re : regexp) (s : jsstring) :
  forall start mtch,
    exec_from re s start = Some mtch ->
    exists i len caps,
      match_at (flag_i re) (pattern re) (skipn i s) = Some (len, caps)
      /\ index mtch = (start + i)%nat
      /\ matched mtch = firstn len (skipn i s)
      /\ forall n, group mtch n
                   = match lookup_capture n caps with
                     | Some (b, e) => Some (substring (skipn i s) b e)
                     | None => None
                     end.
Proof.
  assert (Hhere : forall s start mtch len caps,
             match_at (flag_i re) (pattern re) s = Some (len, caps) ->
             exec_from re s start = Some mtch ->
             exists i len caps,
               match_at (flag_i re) (pattern re) (skipn i s) = Some (len, caps)
               /\ index mtch = (start + i)%nat
               /\ matched mtch = firstn len (skipn i s)
               /\ forall n, group mtch n
                            = match lookup_capture n caps with
                              | Some (b, e) => Some (substring (skipn i s) b e)
                              | None => None
                              end).
  { intros s0 start mtch len caps E H.
    destruct s0 as [|c s0]; cbn [exec_from] in H; rewrite E in H; injection H as <-;
      exists 0%nat, len, caps; cbn [index matched group skipn];
      (split; [exact E|]); (split; [lia|]); split; reflexivity. }
  induction s as [|c s IH]; intros start mtch H.
  - destruct (match_at (flag_i re) (pattern re) []) as [[len caps]|] eqn:E.
    + eapply Hhere; eassumption.
    + cbn [exec_from] in H. rewrite E in H. discriminate.
  - destruct (match_at (flag_i re) (pattern re) (c :: s)) as [[len caps]|] eqn:E.
    + eapply Hhere; eassumption.
    + cbn [exec_from] in H. rewrite E in H.
      apply IH in H as (i & len & caps & H1 & H2 & H3 & H4).
      exists (S i), len, caps. cbn [skipn]. repeat split; try assumption. lia.
Qed.

Section ItemCapture.
Variables unit_words item_words : RegExp.regex.
Hypothesis unit_plain : no_group unit_words = true.
Hypothesis item_plain : no_group item_words = true.

(** Where an item pattern matches, its group is a non-empty run of digits
    at the start of the match. *)
Lemma match_at_item_capture (s : jsstring) (len : nat) (caps : captures) :
  match_at true (pattern (item_regexp unit_words item_words)) s = Some (len, caps) ->
  exists ds rest,
    s = ds ++ rest /\ ds <> [] /\ Forall (fun c => digit c = true) ds
    /\ caps = [(1, (0, List.length ds))]%nat.
Proof.
  unfold match_at, item_regexp, quantity_in, Plus. cbn [pattern].
  rewrite !m_seq, m_group, m_seq. intros H.
  destruct s as [|d s]; [discriminate|]. rewrite m_class_cons in H.
  destruct (digit d) eqn:Hd; [|discriminate].
  rewrite m_star_greedy in H.
  apply greedy_run_split in H as (run & rest & -> & Hrun & H).
  change (m true
            (Seq (Seq (Star true (Class white_space)) unit_words)
               (Seq (Star false (Class dot)) item_words))
            rest (1 + List.length run)%nat [(1, (0, 1 + List.length run))]%nat
            (fun _ pos caps => Some (pos, caps)) = Some (len, caps)) in H.
  apply m_reaches in H as (used & s' & _ & H).
  - injection H as _ <-. exists (d :: run), rest.
    repeat split; [discriminate|now constructor].
  - cbn [no_group]. now rewrite unit_plain, item_plain.
Qed.

Lemma String_match_item_capture (report : jsstring) (mtch : match_result) :
  String_match report (item_regexp unit_words item_words) = Some mtch ->
  exists ds, ds <> [] /\ Forall (fun c => digit c = true) ds /\ group mtch 1 = Some ds.
Proof.
  intros H. apply exec_from_found in H as (i & len & caps & Hm & _ & _ & Hg).
  apply match_at_item_capture in Hm as (ds & rest & Hs & Hne & Hds & ->).
  exists ds. repeat split; try assumption.
  rewrite Hg. cbn [lookup_capture Nat.eqb]. rewrite Hs.
  unfold substring. rewrite Nat.sub_0_r. cbn [skipn].
  rewrite firstn_app, Nat.sub_diag, firstn_all. simpl. now rewrite app_nil_r.
Qed.
End ItemCapture.

(** parseInt of a non-empty run of digits is its decimal value. *)
Lemma take_digits_all (ds : jsstring) :
  Forall (fun c => digit c = true) ds -> JSON.take_digits ds = (ds, []).
Proof.
  induction 1 as [|c ds Hc Hds IH]; [reflexivity|].
  simpl. unfold digit in Hc. now rewrite Hc, IH.
Qed.

Lemma digits_value_nonneg (ds : list N) : forall acc, (0 <= acc)%Z ->
  (0 <= fold_left (fun a d => a * 10 + Z.of_N d) ds acc)%Z.
Proof.
  induction ds as [|d ds IH]; intros acc Hacc; simpl; [exact Hacc|].
  apply IH. lia.
Qed.

Lemma parseInt_digits (ds : jsstring) :
  ds <> [] -> Forall (fun c => digit c = true) ds ->
  parseInt (Some ds) = Int (digits_value 10 (map (fun c => (c - 48)%N) ds))
  /\ (0 <= digits_value 10 (map (fun c => (c - 48)%N) ds))%Z.
Proof.
  intros Hne Hds. split; [|apply digits_value_nonneg; lia].
  destruct ds as [|d ds]; [congruence|].
  inversion Hds as [|? ? Hd Hds']; subst.
  unfold parseInt.
  assert (Hw : white_space d = false)
    by (destruct (digit_range _ Hd) as [->|[->|[->|[->|[->|[->|[->|[->|[->| ->]]]]]]]]];
        reflexivity).
  cbn [skip_white_space]. rewrite Hw.
  assert (H45 : (d =? 45)%N = false)
    by (destruct (digit_range _ Hd) as [->|[->|[->|[->|[->|[->|[->|[->|[->| ->]]]]]]]]];
        reflexivity).
  assert (H43 : (d =? 43)%N = false)
    by (destruct (digit_range _ Hd) as [->|[->|[->|[->|[->|[->|[->|[->|[->| ->]]]]]]]]];
        reflexivity).
  rewrite H45, H43. rewrite (take_digits_all Hds). cbn [fst].
  destruct ds as [|x ds]; [reflexivity|].
  inversion Hds' as [|? ? Hx _]; subst.
  assert (Hx' : ((x =? 120) || (x =? 88))%N = false)
    by (destruct (digit_range _ Hx) as [->|[->|[->|[->|[->|[->|[->|[->|[->| ->]]]]]]]]];
        reflexivity).
  rewrite Hx', andb_false_r. reflexivity.
Qed.

End QuantityFacts.
Import QuantityFacts.

Module CaseFacts.
Import GeminiService.

(** Two code units with the same canonical form are equal or both ASCII
    letters. *)
Lemma same_letter_cases (a b : N) :
  same_letter a b -> a = b \/ ((65 <= a <= 122)%N /\ (65 <= b <= 122)%N).
Proof.
  unfold same_letter, canonicalize. intros H.
  destruct ((97 <=? a) && (a <=? 122))%N eqn:Ha;
    destruct ((97 <=? b) && (b <=? 122))%N eqn:Hb;
    try (apply andb_true_iff in Ha as [Ha1 Ha2]; apply N.leb_le in Ha1, Ha2);
    try (apply andb_true_iff in Hb as [Hb1 Hb2]; apply N.leb_le in Hb1, Hb2);
    try (left; lia); right; lia.
Qed.

Lemma digit_case_blind : case_blind digit.
Proof.
  intros a b H. destruct (same_letter_cases H) as [->|[Ha Hb]]; [reflexivity|].
  unfold digit, is_digit.
  rewrite (proj2 (N.leb_gt a 57)), (proj2 (N.leb_gt b 57)) by lia.
  now rewrite !andb_false_r.
Qed.

Lemma line_terminator_case_blind : case_blind line_terminator.
Proof.
  intros a b H. destruct (same_letter_cases H) as [->|[Ha Hb]]; [reflexivity|].
  unfold line_terminator.
  now rewrite !(proj2 (N.eqb_neq a _)), !(proj2 (N.eqb_neq b _)) by lia.
Qed.

Lemma dot_case_blind : case_blind dot.
Proof. intros a b H. unfold dot. now rewrite (line_terminator_case_blind H). Qed.

Lemma white_space_case_blind : case_blind white_space.
Proof.
  intros a b H. destruct (same_letter_cases H) as [->|[Ha Hb]]; [reflexivity|].
  unfold white_space.
  rewrite !(proj2 (N.eqb_neq a _)), !(proj2 (N.eqb_neq b _)) by lia.
  rewrite (proj2 (N.leb_gt 8192 a)), (proj2 (N.leb_gt 8192 b)) by lia.
  reflexivity.
Qed.

Section CaseBlindMatcher.
Variable R : Type.

Lemma star_loop_case_blind (step step' : jsstring -> nat -> captures -> continuation R
                                           -> option R)
    (greedy : bool) (k k' : continuation R) :
  (forall s s' pos caps k0 k0',
      Forall2 same_letter s s' -> agree k0 k0' ->
      step' s' pos caps k0' = step s pos caps k0) ->
  agree k k' ->
  forall fuel s s' pos caps,
    Forall2 same_letter s s' ->
    star_loop step' greedy k' fuel s' pos caps = star_loop step greedy k fuel s pos caps.
Proof.
  intros Hstep Hk. induction fuel as [|fuel IH]; intros s s' pos caps Hs; [reflexivity|].
  cbn [star_loop].
  assert (Hagain : step' s' pos caps
                     (fun s1 pos1 caps1 =>
                        if (pos <? pos1)%nat
                        then star_loop step' greedy k' fuel s1 pos1 caps1 else None)
                   = step s pos caps
                       (fun s1 pos1 caps1 =>
                          if (pos <? pos1)%nat
                          then star_loop step greedy k fuel s1 pos1 caps1 else None)).
  { apply Hstep; [exact Hs|]. intros t t' pos1 caps1 Ht.
    destruct (pos <? pos1)%nat; [now apply IH|reflexivity]. }
  now rewrite Hagain, (Hk _ _ pos caps Hs).
Qed.

Lemma m_case_blind (r : RegExp.regex) :
  case_blind_classes r ->
  forall s s' pos caps (k k' : continuation R),
    Forall2 same_letter s s' -> agree k k' ->
    m true r s' pos caps k' = m true r s pos caps k.
Proof.
  induction r as [|p|p|r1 IH1 r2 IH2|r1 IH1 r2 IH2|greedy r1 IH1|n r1 IH1];
    intros Hr s s' pos caps k k' Hs Hk; cbn [case_blind_classes] in Hr; cbn [m].
  - now apply Hk.
  - destruct Hs as [|c c' t t' Hc Ht]; [reflexivity|].
    unfold char_matches. rewrite <- Hc.
    destruct (canonicalize p =? canonicalize c)%N; [now apply Hk|reflexivity].
  - destruct Hs as [|c c' t t' Hc Ht]; [reflexivity|].
    rewrite <- (Hr _ _ Hc). destruct (p c); [now apply Hk|reflexivity].
  - destruct Hr as [Hr1 Hr2]. apply IH1; [exact Hr1|exact Hs|].
    intros t t' pos1 caps1 Ht. now apply IH2.
  - destruct Hr as [Hr1 Hr2].
    rewrite (IH1 Hr1 s s' pos caps k k' Hs Hk), (IH2 Hr2 s s' pos caps k k' Hs Hk).
    reflexivity.
  - rewrite <- (Forall2_length Hs).
    apply star_loop_case_blind; [|exact Hk|exact Hs].
    intros s0 s0' pos0 caps0 k0 k0' Hs0 Hk0. now apply IH1.
  - apply IH1; [exact Hr|exact Hs|].
    intros t t' pos1 caps1 Ht. now apply Hk.
Qed.
End CaseBlindMatcher.

End CaseFacts.
Import CaseFacts.

Module GenerateContentExtras.
Import GeminiService.

Lemma console_output_app (a b : trace) :
  console_output (a ++ b) = console_output a ++ console_output b.
Proof. unfold console_output. apply flat_map_app. Qed.

(** X1.  generateContent never throws: whatever the completion service
    does and whatever fallback it is given, the call completes normally,
    having used the service once and only added to the trace. *)
Theorem generateContent_always_completes
    (rt : runtime) (systemPrompt userInput : jsstring) (fallbackData : value) (t : trace) :
  exists v added,
    generateContent rt systemPrompt userInput fallbackData t = (Normal v, t ++ added)
    /\ service_calls added = 1%nat.
Proof.
  destruct (completion_service rt (service_calls t) (prompt_of systemPrompt userInput))
    as [text|e] eqn:Hr.
  - destruct (String_match text json_object_regexp) as [mtch|] eqn:Hm.
    + destruct (JSON.parse (matched mtch)) as [v|] eqn:Hp.
      * eexists _, _. split; [apply (run_parsed _ _ _ _ _ Hr Hm Hp)|reflexivity].
      * eexists _, _. split; [apply (run_parse_error _ _ _ _ _ Hr Hm Hp)|reflexivity].
    + eexists _, _. split; [apply (run_no_match _ _ _ _ _ Hr Hm)|reflexivity].
  - eexists _, _. split; [apply (run_rejected _ _ _ _ _ Hr)|reflexivity].
Qed.

(** X2.  A falsy fallback (undefined, null, false, NaN, 0, the empty
    string) counts as no fallback: the call behaves exactly as with null. *)
Theorem falsy_fallback_is_no_fallback
    (rt : runtime) (systemPrompt userInput : jsstring) (fallbackData : value) (t : trace) :
  truthy fallbackData = false ->
  generateContent rt systemPrompt userInput fallbackData t
  = generateContent rt systemPrompt userInput VNull t.
Proof.
  intros Hf.
  assert (Hor : forall d, or_else (defaulted fallbackData) d = or_else (defaulted VNull) d).
  { intros d. unfold or_else. destruct fallbackData; try discriminate Hf; try reflexivity;
      cbn [defaulted]; now rewrite Hf. }
  destruct (completion_service rt (service_calls t) (prompt_of systemPrompt userInput))
    as [text|e] eqn:Hr.
  - destruct (String_match text json_object_regexp) as [mtch|] eqn:Hm.
    + destruct (JSON.parse (matched mtch)) as [v|] eqn:Hp.
      * now rewrite !(run_parsed _ _ _ _ _ Hr Hm Hp).
      * now rewrite !(run_parse_error _ _ _ _ _ Hr Hm Hp), Hor.
    + now rewrite !(run_no_match _ _ _ _ _ Hr Hm), Hor.
  - now rewrite !(run_rejected _ _ _ _ _ Hr), Hor.
Qed.

Lemma falsy_fallback_is_no_fallback_witness :
  truthy (int 0) = false
  /\ generateContent unreachable #"You are a helper." #"hello" (int 0) []
     = generateContent unreachable #"You are a helper." #"hello" VNull [].
Proof.
  split; [reflexivity|].
  apply (@falsy_fallback_is_no_fallback unreachable #"You are a helper." #"hello"
           (int 0) []).
  reflexivity.
Defined.

(** The members of an object parse to an object. *)
Lemma parse_members_object (fuel : nat) :
  forall s acc v r, JSON.parse_members fuel s acc = Some (v, r) -> is_object v = true.
Proof.
  induction fuel as [|f IH]; intros s acc v r H; [discriminate|].
  cbn [JSON.parse_value JSON.parse_members JSON.parse_elements] in H.
  destruct (JSON.skip_ws s) as [|c s1]; [discriminate|].
  destruct (c =? 34)%N; [|discriminate].
  destruct (JSON.parse_string_body s1) as [[key r1]|]; [|discriminate].
  destruct (JSON.skip_ws r1) as [|c1 r2]; [discriminate|].
  destruct (c1 =? 58)%N; [|discriminate].
  destruct (JSON.parse_value f r2) as [[x r3]|]; [|discriminate].
  destruct (JSON.skip_ws r3) as [|c3 r4]; [discriminate|].
  destruct (c3 =? 44)%N; [now apply IH in H|].
  destruct (c3 =? 125)%N; [|discriminate]. now injection H as <- _.
Qed.

(** A text that begins with an opening brace parses to an object or not
    at all. *)
Lemma parse_brace_object (body : jsstring) (v : value) :
  JSON.parse (123%N :: body) = Some v -> is_object v = true.
Proof.
  unfold JSON.parse.
  destruct (JSON.parse_value _ (123%N :: body)) as [[x r]|] eqn:E; [|discriminate].
  intros H. destruct (JSON.skip_ws r); [|discriminate]. injection H as <-.
  cbn [JSON.parse_value JSON.parse_members JSON.parse_elements JSON.skip_ws] in E.
  change (JSON.is_ws 123) with false in E. cbv iota in E.
  change (123 =? 123)%N with true in E. cbv iota in E.
  destruct (JSON.skip_ws body) as [|c' r']; [discriminate|].
  destruct (c' =? 125)%N; [now injection E as <- _|].
  now apply parse_members_object in E.
Qed.

(** What the pattern matches begins with an opening brace. *)
Lemma json_match_begins_with_brace (text : jsstring) (mtch : match_result) :
  String_match text json_object_regexp = Some mtch ->
  exists body, matched mtch = 123%N :: body.
Proof.
  intros H. apply exec_from_found in H as (i & len & caps & Hm & _ & -> & _).
  cbn [flag_i json_object_regexp] in Hm. rewrite match_at_json in Hm.
  destruct (skipn i text) as [|c r]; [discriminate|].
  destruct (N.eqb_spec 123 c) as [<-|]; [|discriminate].
  apply greedy_run_split in Hm as (run & rest & _ & _ & Hk).
  unfold closing in Hk. cbn [m] in Hk. destruct rest as [|c' rest']; [discriminate|].
  destruct (char_matches false 125 c'); [|discriminate].
  injection Hk as <- _. cbn [firstn]. eexists. reflexivity.
Qed.

(** X3.  A caller who passes an object as fallback, or none, always gets
    an object back: the live path can only return what JSON.parse makes of
    a text in braces, and that is an object. *)
Theorem generateContent_returns_an_object
    (rt : runtime) (systemPrompt userInput : jsstring) (fallbackData : value) (t : trace) :
  is_object fallbackData = true \/ truthy fallbackData = false ->
  exists v t',
    generateContent rt systemPrompt userInput fallbackData t = (Normal v, t')
    /\ is_object v = true.
Proof.
  intros Hfb.
  assert (Hor : forall d, is_object d = true ->
                          is_object (or_else (defaulted fallbackData) d) = true).
  { intros d Hd. unfold or_else. destruct Hfb as [Ho|Hf].
    - destruct fallbackData; try discriminate Ho. exact Ho.
    - destruct fallbackData; try discriminate Hf; try exact Hd;
        cbn [defaulted]; now rewrite Hf. }
  destruct (completion_service rt (service_calls t) (prompt_of systemPrompt userInput))
    as [text|e] eqn:Hr.
  - destruct (String_match text json_object_regexp) as [mtch|] eqn:Hm.
    + destruct (JSON.parse (matched mtch)) as [v|] eqn:Hp.
      * eexists _, _. split; [apply (run_parsed _ _ _ _ _ Hr Hm Hp)|].
        destruct (json_match_begins_with_brace _ Hm) as (body & Hb).
        rewrite Hb in Hp. now apply parse_brace_object in Hp.
      * eexists _, _. split; [apply (run_parse_error _ _ _ _ _ Hr Hm Hp)|].
        now apply Hor.
    + eexists _, _. split; [apply (run_no_match _ _ _ _ _ Hr Hm)|]. now apply Hor.
  - eexists _, _. split; [apply (run_rejected _ _ _ _ _ Hr)|]. now apply Hor.
Qed.

Lemma generateContent_returns_an_object_witness :
  (is_object getShelterStats_fallbackData = true
   \/ truthy getShelterStats_fallbackData = false)
  /\ exists v t',
       getShelterStats (replying #"[1, 2, {`beds`: 40}]") [] = (Normal v, t')
       /\ is_object v = true.
Proof.
  split; [left; reflexivity|].
  apply (@generateContent_returns_an_object (replying #"[1, 2, {`beds`: 40}]")
           getShelterStats_systemPrompt #"Generate shelter statistics"
           getShelterStats_fallbackData []).
  left. reflexivity.
Defined.

(** X4.  generateContent writes to the console only when it fails: one
    error when the completion call throws, one warning when the matched
    text does not parse, and nothing when the text has no match at all
    (the fallback is then returned silently) or when the parse succeeds. *)
Theorem generateContent_console_output
    (rt : runtime) (systemPrompt userInput : jsstring) (fallbackData : value) (t : trace) :
  let reply := completion_service rt (service_calls t) (prompt_of systemPrompt userInput) in
  let t' := snd (generateContent rt systemPrompt userInput fallbackData t) in
  (forall e,
      reply = Rejects e ->
      console_output t' = console_output t ++ [(Error, [str "Gemini API error:"; e])])
  /\ (forall text,
        reply = Responds text ->
        String_match text json_object_regexp = None ->
        console_output t' = console_output t)
  /\ (forall text mtch,
        reply = Responds text ->
        String_match text json_object_regexp = Some mtch ->
        console_output t'
        = console_output t
            ++ match JSON.parse (matched mtch) with
               | Some _ => []
               | None => [(Warn, [str "Failed to parse JSON response, using fallback:";
                                  SyntaxError])]
               end).
Proof.
  intros reply t'. subst t'. repeat split.
  - intros e Hr. rewrite (run_rejected _ _ _ _ _ Hr). cbn [snd].
    now rewrite !console_output_app.
  - intros text Hr Hm. rewrite (run_no_match _ _ _ _ _ Hr Hm). cbn [snd].
    rewrite console_output_app. apply app_nil_r.
  - intros text mtch Hr Hm. destruct (JSON.parse (matched mtch)) as [v|] eqn:Hp.
    + rewrite (run_parsed _ _ _ _ _ Hr Hm Hp). cbn [snd].
      now rewrite !console_output_app.
    + rewrite (run_parse_error _ _ _ _ _ Hr Hm Hp). cbn [snd].
      now rewrite !console_output_app.
Qed.

Lemma generateContent_console_output_witness :
  completion_service (replying #"I cannot help with that.") 0 (prompt_of #"p" #"q")
  = Responds #"I cannot help with that."
  /\ String_match #"I cannot help with that." json_object_regexp = None
  /\ console_output
       (snd (generateContent (replying #"I cannot help with that.") #"p" #"q"
               getShelterStats_fallbackData []))
     = console_output [].
Proof.
  assert (H : String_match #"I cannot help with that." json_object_regexp = None)
    by (vm_compute; reflexivity).
  split; [reflexivity|]. split; [exact H|].
  exact (proj1 (proj2 (@generateContent_console_output
                         (replying #"I cannot help with that.") #"p" #"q"
                         getShelterStats_fallbackData []))
           #"I cannot help with that." eq_refl H).
Defined.

End GenerateContentExtras.

Module GatewayExtras.
Import GeminiService.

Ltac complete_generateContent :=
  match goal with
  | |- context [generateContent ?rt ?a ?b ?c ?t] =>
      let v := fresh "v" in
      let t' := fresh "t'" in
      let E := fresh "E" in
      destruct (run_total rt a b c t) as (v & t' & E & _);
      rewrite E; eexists _, _; reflexivity
  end.

(** X5.  generateWastePlan needs a report and a focus it can print.  When
    planData is null or undefined, or its raw_report is not a string, or its
    priority_focus has no string (an object with a property named
    toString), the call throws a TypeError before anything else happens: no
    clock reading, no use of the completion service, no console output.
    Otherwise it completes normally, whatever the service does. *)
Theorem generateWastePlan_needs_a_report (rt : runtime) (planData : value) (t : trace) :
  (plan_ready planData = false ->
   generateWastePlan rt planData t = (Throw TypeError, t))
  /\ (plan_ready planData = true ->
      exists v t', generateWastePlan rt planData t = (Normal v, t')).
Proof.
  split; intros H.
  - now apply generateWastePlan_unready.
  - destruct (@generateWastePlan_ready rt planData t H) as (sp & ui & fb & ->).
    complete_generateContent.
Qed.

Lemma generateWastePlan_needs_a_report_witness :
  plan_ready (obj ["raw_report" :- str "50kg tomatoes"; "priority_focus" :- unprintable])
  = false
  /\ generateWastePlan unreachable
       (obj ["raw_report" :- str "50kg tomatoes"; "priority_focus" :- unprintable]) []
     = (Throw TypeError, []).
Proof.
  split; [reflexivity|].
  apply (proj1 (generateWastePlan_needs_a_report unreachable
                  (obj ["raw_report" :- str "50kg tomatoes";
                        "priority_focus" :- unprintable]) [])).
  reflexivity.
Defined.

(** X6.  Which gateway calls complete.  Every method completes normally,
    whatever the completion service does, with two exceptions that throw a
    TypeError: generateWastePlan on planData without a string raw_report or
    with a priority_focus that has no string, and findNearbyHospitals on
    location data that is null or undefined, or whose coordinates or
    severity have no string, or for which the reverse geocoding returned an
    area name, district or postal code that has none. *)
Theorem gateway_calls_complete (rt : runtime) (c : gateway_call) (t : trace) :
  (ready rt t c = true -> exists v t', invoke rt c t = (Normal v, t'))
  /\ (ready rt t c = false -> exists t', invoke rt c t = (Throw TypeError, t')).
Proof.
  destruct c; cbn [invoke ready];
    try (split; [intros _|intros H; discriminate H];
         first [ unfold getHospitals, getDoctors, getPatients, findHospitalIntelligent,
                   getDashboardStats, getOccupancyTrends, getSpecialtyDistribution,
                   allocateShelter, getShelterStats; complete_generateContent
               | eexists _, _; reflexivity ]).
  - (* findNearbyHospitals *)
    destruct (request_ready locationData) eqn:Hrequest; cbn [andb].
    + destruct (@findNearbyHospitals_run rt locationData t Hrequest)
        as (t1 & _ & Hthrow & Hrun).
      split; intros H.
      * destruct (Hrun H) as (sp & ui & fb & ->). complete_generateContent.
      * exists t1. exact (Hthrow H).
    + split; intros H; [discriminate H|].
      exists t. now apply findNearbyHospitals_unready.
  - (* generateWastePlan *)
    split; intros H.
    + destruct (@generateWastePlan_ready rt planData t H) as (sp & ui & fb & ->).
      complete_generateContent.
    + exists t. now apply generateWastePlan_unready.
Qed.

Lemma gateway_calls_complete_witness :
  ready (replying #"{`area_name`: {`toString`: null}}") [] (FindNearbyHospitals chennai)
  = false
  /\ (exists t', invoke (replying #"{`area_name`: {`toString`: null}}")
                   (FindNearbyHospitals chennai) []
                 = (Throw TypeError, t'))
  /\ ready (replying #"{`area_name`: `Adyar`}") [] (FindNearbyHospitals chennai) = true
  /\ (exists v t', invoke (replying #"{`area_name`: `Adyar`}")
                     (FindNearbyHospitals chennai) []
                   = (Normal v, t')).
Proof.
  assert (H1 : ready (replying #"{`area_name`: {`toString`: null}}") []
                 (FindNearbyHospitals chennai) = false) by (vm_compute; reflexivity).
  assert (H2 : ready (replying #"{`area_name`: `Adyar`}") []
                 (FindNearbyHospitals chennai) = true) by (vm_compute; reflexivity).
  split; [exact H1|]. split; [|split; [exact H2|]].
  - exact (proj2 (gateway_calls_complete (replying #"{`area_name`: {`toString`: null}}")
                    (FindNearbyHospitals chennai) []) H1).
  - exact (proj1 (gateway_calls_complete (replying #"{`area_name`: `Adyar`}")
                    (FindNearbyHospitals chennai) []) H2).
Defined.

End GatewayExtras.

Module WastePlanExtras.
Import GeminiService.

(** Every pattern is an item pattern over group-free words, with a price
    between 15 and 40. *)
Lemma pattern_shape (p : food_pattern) :
  In p patterns ->
  exists unit_words item_words,
    regex p = item_regexp unit_words item_words
    /\ no_group unit_words = true /\ no_group item_words = true
    /\ (15 <= price p <= 40)%Z.
Proof.
  intros [<-|[<-|[<-|[<-|[]]]]]; eexists _, _; (split; [reflexivity|]);
    (split; [vm_compute; reflexivity|]); (split; [vm_compute; reflexivity|]);
    cbn [price tomatoes milk potatoes rice]; lia.
Qed.

(** A pattern that matches contributes a non-negative integer. *)
Lemma contribution_is_a_quantity (report : jsstring) (p : food_pattern) :
  In p patterns ->
  match String_match report (regex p) with
  | Some mtch => exists z, (0 <= z)%Z /\ parseInt (group mtch 1) = Int z
  | None => True
  end.
Proof.
  intros Hp. destruct (@pattern_shape p Hp) as (u & i & Hre & Hu & Hi & _).
  destruct (String_match report (regex p)) as [mtch|] eqn:Hm; [|exact I].
  rewrite Hre in Hm.
  destruct (@String_match_item_capture u i Hu Hi report mtch Hm) as (ds & Hne & Hds & Hg).
  destruct (parseInt_digits Hne Hds) as [Hv Hpos].
  eexists. split; [exact Hpos|]. now rewrite Hg.
Qed.

(** One step of the loop keeps the totals integral and within the price
    range, and adds an item exactly when its pattern matches. *)
Lemma accumulate_keeps_totals (report : jsstring) (acc : extraction) (p : food_pattern)
    (q v : Z) :
  In p patterns ->
  totalQuantity acc = Int q -> totalValue acc = Int v ->
  (0 <= q)%Z -> (15 * q <= v <= 40 * q)%Z ->
  exists q' v',
    totalQuantity (accumulate report acc p) = Int q'
    /\ totalValue (accumulate report acc p) = Int v'
    /\ (0 <= q')%Z /\ (15 * q' <= v' <= 40 * q')%Z
    /\ (items (accumulate report acc p) = []
        <-> items acc = [] /\ String_match report (regex p) = None).
Proof.
  intros Hp Hq Hv Hq0 Hqv.
  pose proof (@contribution_is_a_quantity report p Hp) as Hc.
  destruct (@pattern_shape p Hp) as (_ & _ & _ & _ & _ & Hprice).
  unfold accumulate.
  destruct (String_match report (regex p)) as [mtch|].
  - destruct Hc as (z & Hz & ->). cbn [totalQuantity totalValue items].
    rewrite Hq, Hv. cbn [int_add int_mul].
    exists (q + z)%Z, (v + z * price p)%Z.
    split; [reflexivity|]. split; [reflexivity|]. split; [lia|]. split; [nia|].
    split.
    + intros Hnil. now destruct (items acc).
    + intros [_ Hnone]. discriminate Hnone.
  - exists q, v.
    split; [exact Hq|]. split; [exact Hv|]. split; [exact Hq0|]. split; [exact Hqv|].
    tauto.
Qed.

Lemma extraction_totals (report : jsstring) :
  exists q v,
    totalQuantity (extractFoodItems report) = Int q
    /\ totalValue (extractFoodItems report) = Int v
    /\ (0 <= q)%Z /\ (15 * q <= v <= 40 * q)%Z
    /\ (items (extractFoodItems report) = []
        <-> forall p, In p patterns -> String_match report (regex p) = None).
Proof.
  unfold extractFoodItems, patterns. cbn [fold_left].
  fold nothing_extracted.
  destruct (@accumulate_keeps_totals report nothing_extracted tomatoes 0 0)
    as (q1 & v1 & Hq1 & Hv1 & H1 & B1 & I1);
    [simpl; tauto|reflexivity|reflexivity|lia|lia|].
  destruct (@accumulate_keeps_totals report _ milk q1 v1 (or_intror (or_introl eq_refl))
              Hq1 Hv1 H1 B1) as (q2 & v2 & Hq2 & Hv2 & H2 & B2 & I2).
  destruct (@accumulate_keeps_totals report _ potatoes q2 v2
              (or_intror (or_intror (or_introl eq_refl))) Hq2 Hv2 H2 B2)
    as (q3 & v3 & Hq3 & Hv3 & H3 & B3 & I3).
  destruct (@accumulate_keeps_totals report _ rice q3 v3
              (or_intror (or_intror (or_intror (or_introl eq_refl)))) Hq3 Hv3 H3 B3)
    as (q4 & v4 & Hq4 & Hv4 & H4 & B4 & I4).
  exists q4, v4. repeat split; try assumption; try lia.
  - intros H p [<-|[<-|[<-|[<-|[]]]]]; tauto.
  - intros H. apply I4. split; [|apply H; simpl; tauto].
    apply I3. split; [|apply H; simpl; tauto].
    apply I2. split; [|apply H; simpl; tauto].
    apply I1. split; [reflexivity|apply H; simpl; tauto].
Qed.

(** One step of the loop adds at most the bound on a quantity. *)
Lemma accumulate_within_range (report : jsstring) (acc : extraction) (p : food_pattern)
    (q : Z) :
  quantities_in_range report -> In p patterns ->
  totalQuantity acc = Int q ->
  exists q', totalQuantity (accumulate report acc p) = Int q' /\ (q' <= q + 10 ^ 12)%Z.
Proof.
  intros Hrange Hp Hq.
  pose proof (@contribution_is_a_quantity report p Hp) as Hc.
  pose proof (Hrange p) as Hbound. unfold contribution in Hbound.
  unfold accumulate.
  destruct (String_match report (regex p)) as [mtch|].
  - destruct Hc as (z & _ & Hz). cbn [totalQuantity]. rewrite Hq, Hz. cbn [int_add].
    exists (q + z)%Z. split; [reflexivity|].
    assert (z <= 10 ^ 12)%Z by (apply Hbound; [exact Hp|now rewrite Hz]). lia.
  - exists q. split; [exact Hq|]. lia.
Qed.

Lemma extraction_within_range (report : jsstring) :
  quantities_in_range report ->
  exists q, totalQuantity (extractFoodItems report) = Int q /\ (q <= 4 * 10 ^ 12)%Z.
Proof.
  intros Hrange. unfold extractFoodItems, patterns. cbn [fold_left].
  fold nothing_extracted.
  destruct (@accumulate_within_range report nothing_extracted tomatoes 0 Hrange)
    as (q1 & Hq1 & B1); [simpl; tauto|reflexivity|].
  destruct (@accumulate_within_range report _ milk q1 Hrange
              (or_intror (or_introl eq_refl)) Hq1) as (q2 & Hq2 & B2).
  destruct (@accumulate_within_range report _ potatoes q2 Hrange
              (or_intror (or_intror (or_introl eq_refl))) Hq2) as (q3 & Hq3 & B3).
  destruct (@accumulate_within_range report _ rice q3 Hrange
              (or_intror (or_intror (or_intror (or_introl eq_refl)))) Hq3)
    as (q4 & Hq4 & B4).
  exists q4. split; [exact Hq4|]. lia.
Qed.

(** X7.  For a report whose quantities are at most a million million each,
    the totals of extractFoodItems are non-negative integers (never NaN)
    below 2^53, the value lies between 15 and 40 times the quantity (the
    lowest and the highest price), and the item list is empty exactly when
    no pattern matches. *)
Theorem extraction_totals_are_consistent (report : jsstring) :
  quantities_in_range report ->
  exists q v,
    totalQuantity (extractFoodItems report) = Int q
    /\ totalValue (extractFoodItems report) = Int v
    /\ (0 <= q <= 4 * 10 ^ 12)%Z /\ (15 * q <= v <= 40 * q)%Z /\ (v < 2 ^ 53)%Z
    /\ (items (extractFoodItems report) = []
        <-> forall p, In p patterns -> String_match report (regex p) = None).
Proof.
  intros Hrange.
  destruct (extraction_totals report) as (q & v & Hq & Hv & Hq0 & Hqv & Hitems).
  destruct (extraction_within_range Hrange) as (q' & Hq' & Hbound).
  rewrite Hq in Hq'. injection Hq' as <-.
  exists q, v. split; [exact Hq|]. split; [exact Hv|]. split; [lia|].
  split; [exact Hqv|]. split; [|exact Hitems].
  change (2 ^ 53)%Z with 9007199254740992%Z.
  change (10 ^ 12)%Z with 1000000000000%Z in Hbound. lia.
Qed.

Lemma extraction_totals_are_consistent_witness :
  quantities_in_range #"50kg tomatoes, 2 liters of milk"
  /\ exists q v,
       totalQuantity (extractFoodItems #"50kg tomatoes, 2 liters of milk") = Int q
       /\ totalValue (extractFoodItems #"50kg tomatoes, 2 liters of milk") = Int v
       /\ (0 <= q <= 4 * 10 ^ 12)%Z /\ (15 * q <= v <= 40 * q)%Z /\ (v < 2 ^ 53)%Z
       /\ (items (extractFoodItems #"50kg tomatoes, 2 liters of milk") = []
           <-> forall p, In p patterns ->
                         String_match #"50kg tomatoes, 2 liters of milk" (regex p) = None).
Proof.
  assert (H : quantities_in_range #"50kg tomatoes, 2 liters of milk").
  { intros p q [<-|[<-|[<-|[<-|[]]]]] Hc; vm_compute in Hc;
      try discriminate Hc; injection Hc as <-; apply Z.leb_le; vm_compute; reflexivity. }
  split; [exact H|].
  exact (@extraction_totals_are_consistent #"50kg tomatoes, 2 liters of milk" H).
Defined.

(** X8.  For a report whose quantities are at most a million million each,
    the figures of the fallback plan are never zero and never NaN:
    people_served is the quantity divided by three, rounded down, and 50
    when that is zero (a quantity below 3); food_saved_kg is the quantity,
    and 200 when it is zero; economic_value_rupees is the value, and 5000
    when it is zero. *)
Theorem fallback_plan_figures (priority_focus : value) (focus now focus' report : jsstring) :
  quantities_in_range report ->
  let plan :=
    generateWastePlan_fallbackData priority_focus focus now focus'
      (extractFoodItems report) in
  let impact := opt_get plan "estimated_impact" in
  exists q v,
    totalQuantity (extractFoodItems report) = Int q
    /\ totalValue (extractFoodItems report) = Int v
    /\ (q <= 4 * 10 ^ 12)%Z
    /\ opt_get impact "people_served" = int (if (q <? 3)%Z then 50 else q / 3)
    /\ opt_get impact "food_saved_kg" = int (if (q =? 0)%Z then 200 else q)
    /\ opt_get impact "economic_value_rupees" = int (if (v =? 0)%Z then 5000 else v)
    /\ (1 <= (if (q <? 3)%Z then 50 else q / 3))%Z
    /\ (1 <= (if (q =? 0)%Z then 200 else q))%Z
    /\ (1 <= (if (v =? 0)%Z then 5000 else v))%Z.
Proof.
  intros Hrange plan impact. subst impact plan.
  destruct (extraction_totals report) as (q & v & Hq & Hv & Hq0 & Hqv & _).
  destruct (extraction_within_range Hrange) as (q' & Hq' & Hbound).
  rewrite Hq in Hq'. injection Hq' as <-.
  exists q, v. split; [exact Hq|]. split; [exact Hv|]. split; [exact Hbound|].
  assert (Hor : forall z d, (0 <= z)%Z ->
                            int_or (Int z) (Int d) = Int (if (z =? 0)%Z then d else z)).
  { intros z d _. destruct z; reflexivity. }
  assert (Hpeople : estimatedPeople_of (Int q) = Int (if (q <? 3)%Z then 50 else q / 3)).
  { unfold estimatedPeople_of. cbn [int_floor_div]. rewrite Hor by (apply Z.div_pos; lia).
    f_equal. destruct (Z.ltb_spec q 3) as [Hlt|Hge].
    - rewrite Z.div_small by lia. reflexivity.
    - destruct (Z.eqb_spec (q / 3) 0) as [E|]; [|reflexivity].
      assert (1 <= q / 3)%Z by (apply Z.div_le_lower_bound; lia). lia. }
  unfold generateWastePlan_fallbackData. rewrite Hq, Hv, Hpeople, !Hor by lia.
  repeat split.
  - destruct (Z.ltb_spec q 3); [lia|]. apply Z.div_le_lower_bound; lia.
  - destruct (Z.eqb_spec q 0); lia.
  - destruct (Z.eqb_spec v 0); lia.
Qed.

Lemma fallback_plan_figures_witness :
  quantities_in_range #"50kg tomatoes, 2 liters of milk"
  /\ (let plan :=
        generateWastePlan_fallbackData VUndefined #"Balanced Approach"
          #"1/16/2024, 9:30:00 AM" #"balanced approach"
          (extractFoodItems #"50kg tomatoes, 2 liters of milk") in
      let impact := opt_get plan "estimated_impact" in
      exists q v,
        totalQuantity (extractFoodItems #"50kg tomatoes, 2 liters of milk") = Int q
        /\ totalValue (extractFoodItems #"50kg tomatoes, 2 liters of milk") = Int v
        /\ (q <= 4 * 10 ^ 12)%Z
        /\ opt_get impact "people_served" = int (if (q <? 3)%Z then 50 else q / 3)
        /\ opt_get impact "food_saved_kg" = int (if (q =? 0)%Z then 200 else q)
        /\ opt_get impact "economic_value_rupees" = int (if (v =? 0)%Z then 5000 else v)
        /\ (1 <= (if (q <? 3)%Z then 50 else q / 3))%Z
        /\ (1 <= (if (q =? 0)%Z then 200 else q))%Z
        /\ (1 <= (if (v =? 0)%Z then 5000 else v))%Z).
Proof.
  assert (H : quantities_in_range #"50kg tomatoes, 2 liters of milk").
  { intros p q [<-|[<-|[<-|[<-|[]]]]] Hc; vm_compute in Hc;
      try discriminate Hc; injection Hc as <-; apply Z.leb_le; vm_compute; reflexivity. }
  split; [exact H|].
  exact (@fallback_plan_figures VUndefined #"Balanced Approach" #"1/16/2024, 9:30:00 AM"
           #"balanced approach" #"50kg tomatoes, 2 liters of milk" H).
Defined.

End WastePlanExtras.

Module AttributionExtras.
Import GeminiService.

(** A lazy run over characters that the class accepts gets at least as far
    as a place where the rest of the pattern matches. *)
Lemma lazy_run_reaches (p : N -> bool) (k : continuation (nat * captures))
    (mid rest : jsstring) (caps : captures) :
  (forall s pos res, k s pos caps = Some res -> snd res = caps) ->
  Forall (fun c => p c = true) mid ->
  forall pos r0,
    k rest (pos + List.length mid)%nat caps = Some r0 ->
    exists len, lazy_run p k (mid ++ rest) pos caps = Some (len, caps).
Proof.
  intros Hk Hmid. induction Hmid as [|c mid Hc Hmid IH]; intros pos r0 H.
  - simpl in H. rewrite Nat.add_0_r in H. simpl app.
    destruct rest as [|x rest]; cbn [lazy_run]; rewrite H;
      exists (fst r0); rewrite <- (Hk _ _ _ H); now destruct r0.
  - simpl app. cbn [lazy_run].
    destruct (k (c :: mid ++ rest) pos caps) as [[len caps']|] eqn:E.
    + exists len. apply Hk in E. simpl in E. now subst.
    + rewrite Hc. apply (IH (S pos) r0). simpl in H. now rewrite Nat.add_succ_r in H.
Qed.

(** The item words at the head of the input: the rest of an item pattern
    after its lazy run. *)
Lemma item_words_keep_captures (item_words : RegExp.regex) (caps : captures) :
  no_group item_words = true ->
  forall s pos res,
    m true item_words s pos caps accept = Some res -> snd res = caps.
Proof.
  intros Hg s pos res H. apply (@m_reaches true _ item_words Hg) in H as (used & s' & _ & H).
  unfold accept in H. now injection H as <-.
Qed.

(** After the unit, a line without the item word in front of it. *)
Lemma lazy_dot_reaches_item (item_words : RegExp.regex) (item_text mid post : jsstring)
    (caps : captures) (pos : nat) :
  no_group item_words = true ->
  (forall pos', exists r0,
      m true item_words (item_text ++ post) pos' caps accept = Some r0) ->
  Forall (fun c => dot c = true) mid ->
  exists len,
    m true (Seq (Star false (Class dot)) item_words) (mid ++ item_text ++ post) pos caps
      accept = Some (len, caps).
Proof.
  intros Hg Hitem Hmid. rewrite m_seq, m_star_lazy.
  destruct (Hitem (pos + List.length mid)%nat) as (r0 & Hr0).
  eapply lazy_run_reaches; [|exact Hmid|exact Hr0].
  intros s pos0 res. apply item_words_keep_captures. exact Hg.
Qed.

Ltac item_at_head := intros pos'; eexists; cbv -[Nat.add]; reflexivity.

Lemma same_line_tomatoes (mid post : jsstring) (n : nat) :
  Forall (fun c => dot c = true) mid ->
  exists len,
    after_digits kg_words (Alt (Lit "tomato") (Lit "tomatoes"))
      (#"kg" ++ mid ++ #"tomato" ++ post) n [] = Some (len, [(1, (0, n))])%nat.
Proof.
  intros Hmid.
  destruct (@lazy_dot_reaches_item (Alt (Lit "tomato") (Lit "tomatoes")) #"tomato"
              mid post [(1, (0, n))]%nat (2 + n)%nat) as (len & Hlen);
    [vm_compute; reflexivity|item_at_head|exact Hmid|].
  exists len. unfold after_digits.
  set (K1 := fun s1 pos1 caps1 =>
               m true (Seq (Star false (Class dot)) (Alt (Lit "tomato") (Lit "tomatoes")))
                 s1 pos1 caps1 accept) in *.
  change (K1 (mid ++ #"tomato" ++ post) (2 + n)%nat [(1, (0, n))]%nat
          = Some (len, [(1, (0, n))]%nat)) in Hlen.
  rewrite m_seq, m_star_greedy.
  change (#"kg") with [107; 103]%N. cbn [app greedy_run].
  change (white_space 107) with false. cbv iota beta.
  unfold kg_words. change (Lit "kg") with (Seq (Char 107) (Char 103)).
  cbn [m].
  change (char_matches true 107 107) with true.
  change (char_matches true 103 103) with true.
  cbv iota. cbn [Nat.add] in Hlen. now rewrite Hlen.
Qed.

Lemma same_line_milk (mid post : jsstring) (n : nat) :
  Forall (fun c => dot c = true) mid ->
  exists len,
    after_digits liter_words (Lit "milk")
      (#"l" ++ mid ++ #"milk" ++ post) n [] = Some (len, [(1, (0, n))])%nat.
Proof.
  intros Hmid.
  destruct (@lazy_dot_reaches_item (Lit "milk") #"milk"
              mid post [(1, (0, n))]%nat (1 + n)%nat) as (len & Hlen);
    [vm_compute; reflexivity|item_at_head|exact Hmid|].
  exists len. unfold after_digits.
  set (K1 := fun s1 pos1 caps1 =>
               m true (Seq (Star false (Class dot)) (Lit "milk"))
                 s1 pos1 caps1 accept) in *.
  change (K1 (mid ++ #"milk" ++ post) (1 + n)%nat [(1, (0, n))]%nat
          = Some (len, [(1, (0, n))]%nat)) in Hlen.
  rewrite m_seq, m_star_greedy.
  change (#"l") with [108]%N. cbn [app greedy_run].
  change (white_space 108) with false. cbv iota beta.
  unfold liter_words. change (Lit "l") with (Char 108).
  cbn [m].
  change (char_matches true 108 108) with true.
  cbv iota. cbn [Nat.add] in Hlen. now rewrite Hlen.
Qed.

Lemma same_line_potatoes (mid post : jsstring) (n : nat) :
  Forall (fun c => dot c = true) mid ->
  exists len,
    after_digits kg_words (Alt (Lit "potato") (Lit "potatoes"))
      (#"kg" ++ mid ++ #"potato" ++ post) n [] = Some (len, [(1, (0, n))])%nat.
Proof.
  intros Hmid.
  destruct (@lazy_dot_reaches_item (Alt (Lit "potato") (Lit "potatoes")) #"potato"
              mid post [(1, (0, n))]%nat (2 + n)%nat) as (len & Hlen);
    [vm_compute; reflexivity|item_at_head|exact Hmid|].
  exists len. unfold after_digits.
  set (K1 := fun s1 pos1 caps1 =>
               m true (Seq (Star false (Class dot)) (Alt (Lit "potato") (Lit "potatoes")))
                 s1 pos1 caps1 accept) in *.
  change (K1 (mid ++ #"potato" ++ post) (2 + n)%nat [(1, (0, n))]%nat
          = Some (len, [(1, (0, n))]%nat)) in Hlen.
  rewrite m_seq, m_star_greedy.
  change (#"kg") with [107; 103]%N. cbn [app greedy_run].
  change (white_space 107) with false. cbv iota beta.
  unfold kg_words. change (Lit "kg") with (Seq (Char 107) (Char 103)).
  cbn [m].
  change (char_matches true 107 107) with true.
  change (char_matches true 103 103) with true.
  cbv iota. cbn [Nat.add] in Hlen. now rewrite Hlen.
Qed.

Lemma same_line_rice (mid post : jsstring) (n : nat) :
  Forall (fun c => dot c = true) mid ->
  exists len,
    after_digits kg_words (Lit "rice")
      (#"kg" ++ mid ++ #"rice" ++ post) n [] = Some (len, [(1, (0, n))])%nat.
Proof.
  intros Hmid.
  destruct (@lazy_dot_reaches_item (Lit "rice") #"rice"
              mid post [(1, (0, n))]%nat (2 + n)%nat) as (len & Hlen);
    [vm_compute; reflexivity|item_at_head|exact Hmid|].
  exists len. unfold after_digits.
  set (K1 := fun s1 pos1 caps1 =>
               m true (Seq (Star false (Class dot)) (Lit "rice"))
                 s1 pos1 caps1 accept) in *.
  change (K1 (mid ++ #"rice" ++ post) (2 + n)%nat [(1, (0, n))]%nat
          = Some (len, [(1, (0, n))]%nat)) in Hlen.
  rewrite m_seq, m_star_greedy.
  change (#"kg") with [107; 103]%N. cbn [app greedy_run].
  change (white_space 107) with false. cbv iota beta.
  unfold kg_words. change (Lit "kg") with (Seq (Char 107) (Char 103)).
  cbn [m].
  change (char_matches true 107 107) with true.
  change (char_matches true 103 103) with true.
  cbv iota. cbn [Nat.add] in Hlen. now rewrite Hlen.
Qed.

(** X9.  The quantity of an item is the first number with the right unit
    that stands before the item word on the same line, even when that
    number belongs to another item: in a report where the first digits
    are followed by the unit and, later on the line, by the item word, the
    item is given those first digits, whatever stands in between. *)
Theorem quantity_is_first_on_the_line (p : food_pattern) (unit_text item_text : jsstring) :
  In (p, unit_text, item_text)
     [(tomatoes, #"kg", #"tomato"); (milk, #"l", #"milk");
      (potatoes, #"kg", #"potato"); (rice, #"kg", #"rice")] ->
  forall pre ds mid post,
    Forall (fun c => digit c = false) pre ->
    ds <> [] ->
    Forall (fun c => digit c = true) ds ->
    Forall (fun c => line_terminator c = false) mid ->
    contribution (pre ++ ds ++ unit_text ++ mid ++ item_text ++ post) p
    = Some (parseInt (Some ds)).
Proof.
  intros Hin pre ds mid post Hpre Hne Hds Hmid.
  assert (Hdot : Forall (fun c => dot c = true) mid).
  { eapply Forall_impl; [|exact Hmid]. intros c Hc. unfold dot. now rewrite Hc. }
  assert (H : exists mtch,
             String_match (pre ++ ds ++ unit_text ++ mid ++ item_text ++ post) (regex p)
             = Some mtch /\ index mtch = List.length pre /\ group mtch 1 = Some ds).
  { destruct Hin as [E|[E|[E|[E|[]]]]]; injection E as <- <- <-.
    - destruct (same_line_tomatoes post (List.length ds) Hdot) as (len & Hlen).
      eapply String_match_digits; try eassumption. reflexivity.
    - destruct (same_line_milk post (List.length ds) Hdot) as (len & Hlen).
      eapply String_match_digits; try eassumption. reflexivity.
    - destruct (same_line_potatoes post (List.length ds) Hdot) as (len & Hlen).
      eapply String_match_digits; try eassumption. reflexivity.
    - destruct (same_line_rice post (List.length ds) Hdot) as (len & Hlen).
      eapply String_match_digits; try eassumption. reflexivity. }
  destruct H as (mtch & Hm & _ & Hg). unfold contribution. now rewrite Hm, Hg.
Qed.

Lemma quantity_is_first_on_the_line_witness :
  Forall (fun c => digit c = false) []
  /\ #"10" <> []
  /\ Forall (fun c => digit c = true) #"10"
  /\ Forall (fun c => line_terminator c = false) #" tomatoes, 20kg "
  /\ contribution ([] ++ #"10" ++ #"kg" ++ #" tomatoes, 20kg " ++ #"rice" ++ []) rice
     = Some (parseInt (Some #"10"))
  /\ parseInt (Some #"10") = Int 10.
Proof.
  assert (H1 : Forall (fun c => digit c = false) []) by constructor.
  assert (H2 : #"10" <> []) by discriminate.
  assert (H3 : Forall (fun c => digit c = true) #"10") by (repeat constructor).
  assert (H4 : Forall (fun c => line_terminator c = false) #" tomatoes, 20kg ")
    by (apply Forall_forall; intros c Hc; vm_compute in Hc;
        repeat (destruct Hc as [<-|Hc]; [reflexivity|]); destruct Hc).
  split; [exact H1|]. split; [exact H2|]. split; [exact H3|]. split; [exact H4|].
  split; [|reflexivity].
  exact (@quantity_is_first_on_the_line rice #"kg" #"rice"
           (or_intror (or_intror (or_intror (or_introl eq_refl))))
           [] #"10" #" tomatoes, 20kg " [] H1 H2 H3 H4).
Defined.

End AttributionExtras.

Module CaseExtras.
Import GeminiService.

Lemma same_letter_skipn (i : nat) :
  forall s s', Forall2 same_letter s s' -> Forall2 same_letter (skipn i s) (skipn i s').
Proof.
  induction i as [|i IH]; intros s s' H; [exact H|].
  destruct H as [|c c' t t' Hc Ht]; [constructor|]. cbn [skipn]. now apply IH.
Qed.

(** Digits have one case: text that differs from a run of digits at most in
    letter case is that run. *)
Lemma same_letter_digits (ds : jsstring) :
  Forall (fun c => digit c = true) ds ->
  forall rest s', Forall2 same_letter (ds ++ rest) s' ->
                  exists rest', s' = ds ++ rest'.
Proof.
  induction 1 as [|d ds Hd Hds IH]; intros rest s' H.
  - now exists s'.
  - cbn [app] in H. inversion H as [|c c' t t' Hc Ht]; subst.
    destruct (IH _ _ Ht) as (rest' & ->). exists rest'. cbn [app]. f_equal.
    destruct (same_letter_cases Hc) as [E|[Hr _]]; [now symmetry|].
    apply digit_range in Hd. lia.
Qed.

Lemma match_at_case_blind (r : RegExp.regex) (s s' : jsstring) :
  case_blind_classes r -> Forall2 same_letter s s' ->
  match_at true r s' = match_at true r s.
Proof.
  intros Hr Hs. unfold match_at. apply m_case_blind; [exact Hr|exact Hs|].
  intros t t' pos caps _. reflexivity.
Qed.

(** The words of the four patterns use no class that tells cases apart. *)
Lemma item_pattern_case_blind (unit_words item_words : RegExp.regex) :
  case_blind_classes unit_words -> case_blind_classes item_words ->
  case_blind_classes (pattern (item_regexp unit_words item_words)).
Proof.
  intros Hu Hi. cbn. repeat split; try assumption;
    first [exact digit_case_blind|exact white_space_case_blind|exact dot_case_blind].
Qed.

Lemma pattern_words_case_blind (p : food_pattern) :
  In p patterns ->
  exists unit_words item_words,
    regex p = item_regexp unit_words item_words
    /\ no_group unit_words = true /\ no_group item_words = true
    /\ case_blind_classes unit_words /\ case_blind_classes item_words.
Proof.
  intros [<-|[<-|[<-|[<-|[]]]]]; eexists _, _; (split; [reflexivity|]);
    (split; [vm_compute; reflexivity|]); (split; [vm_compute; reflexivity|]);
    split; cbn; tauto.
Qed.

Section ItemCase.
Variables unit_words item_words : RegExp.regex.
Hypothesis unit_plain : no_group unit_words = true.
Hypothesis item_plain : no_group item_words = true.
Hypothesis unit_blind : case_blind_classes unit_words.
Hypothesis item_blind : case_blind_classes item_words.

Lemma exec_from_item_case_blind (s s' : jsstring) :
  Forall2 same_letter s s' ->
  forall start,
    match exec_from (item_regexp unit_words item_words) s start, exec_from (item_regexp unit_words item_words) s' start with
    | Some mtch, Some mtch' => index mtch' = index mtch /\ group mtch' 1 = group mtch 1
    | None, None => True
    | _, _ => False
    end.
Proof.
  induction 1 as [|c c' t t' Hc Ht IH]; intros start.
  - cbn [exec_from].
    destruct (match_at (flag_i (item_regexp unit_words item_words)) (pattern (item_regexp unit_words item_words)) []) as [[len caps]|]; [|exact I].
    split; reflexivity.
  - assert (Hs : Forall2 same_letter (c :: t) (c' :: t')) by now constructor.
    cbn [exec_from].
    change (flag_i (item_regexp unit_words item_words)) with true.
    rewrite (@match_at_case_blind (pattern (item_regexp unit_words item_words)) (c :: t) (c' :: t')
               (@item_pattern_case_blind unit_words item_words unit_blind item_blind) Hs).
    destruct (match_at true (pattern (item_regexp unit_words item_words)) (c :: t)) as [[len caps]|] eqn:E; [|apply IH].
    cbn [index group]. split; [reflexivity|].
    destruct (@match_at_item_capture unit_words item_words unit_plain item_plain
                (c :: t) len caps E) as (ds & rest & Hsplit & Hne & Hds & ->).
    cbn [lookup_capture Nat.eqb]. f_equal.
    rewrite Hsplit in Hs. destruct (@same_letter_digits ds Hds rest (c' :: t') Hs) as (rest' & Hsplit').
    rewrite Hsplit'.
    rewrite Hsplit. unfold substring. rewrite Nat.sub_0_r. cbn [skipn].
    now rewrite !firstn_app, Nat.sub_diag, firstn_all.
Qed.
End ItemCase.

Lemma contribution_case_blind (report report' : jsstring) (p : food_pattern) :
  In p patterns -> Forall2 same_letter report report' ->
  contribution report' p = contribution report p.
Proof.
  intros Hp Hs.
  destruct (pattern_words_case_blind Hp) as (u & i & Hre & Hu & Hi & Bu & Bi).
  unfold contribution, String_match. rewrite Hre.
  pose proof (@exec_from_item_case_blind u i Hu Hi Bu Bi report report' Hs 0%nat) as H.
  destruct (exec_from (item_regexp u i) report 0) as [mtch|],
           (exec_from (item_regexp u i) report' 0) as [mtch'|]; try contradiction.
  - destruct H as [_ ->]. reflexivity.
  - reflexivity.
Qed.

Lemma same_canonical_form (s : jsstring) :
  forall s', map canonicalize s' = map canonicalize s -> Forall2 same_letter s s'.
Proof.
  induction s as [|c s IH]; intros [|c' s'] H; try discriminate; [constructor|].
  cbn [map] in H. injection H as Hc Hs. constructor; [now symmetry|now apply IH].
Qed.

(** X10.  extractFoodItems ignores the case of letters.  Every pattern carries
    the [i] flag and the entries are built from the pattern's own name and
    unit, so two reports that are the same text once their ASCII letters are
    put in upper case give the same items, the same total quantity and the
    same total value. *)
Theorem extractFoodItems_ignores_letter_case (report report' : jsstring) :
  map canonicalize report' = map canonicalize report ->
  extractFoodItems report' = extractFoodItems report.
Proof.
  intros Hs. apply same_canonical_form in Hs. unfold extractFoodItems.
  generalize {| items := []; totalQuantity := Int 0; totalValue := Int 0 |}.
  assert (H : forall p, In p patterns ->
                        forall acc, accumulate report' acc p = accumulate report acc p).
  { intros p Hp acc. rewrite !accumulate_contribution.
    now rewrite (contribution_case_blind Hp Hs). }
  induction patterns as [|p ps IH]; intros acc; [reflexivity|].
  cbn [fold_left]. rewrite (H p (or_introl eq_refl)).
  apply IH. intros q Hq. apply H. now right.
Qed.

Lemma extractFoodItems_ignores_letter_case_witness :
  map canonicalize #"50KG tomatoes, 2 liters of milk"
  = map canonicalize #"50kg Tomatoes, 2 Liters of MILK"
  /\ extractFoodItems #"50KG tomatoes, 2 liters of milk"
     = extractFoodItems #"50kg Tomatoes, 2 Liters of MILK".
Proof.
  assert (H : map canonicalize #"50KG tomatoes, 2 liters of milk"
              = map canonicalize #"50kg Tomatoes, 2 Liters of MILK")
    by (vm_compute; reflexivity).
  split; [exact H|].
  exact (@extractFoodItems_ignores_letter_case
           #"50kg Tomatoes, 2 Liters of MILK" #"50KG tomatoes, 2 liters of milk" H).
Defined.

End CaseExtras.

Module PageExtras.
Import SmartShelterAllocator.

(** X11.  The page on the states it can reach.  On every state the
    component can reach from its initial state by clicks on the button,
    rendering completes: before the first click the page is the button
    alone (generatedShelterPlan is null and the plan block is left out),
    after any number of clicks it is the button followed by the block of
    the static plan. *)
Theorem page_on_reachable_states (n : nat) :
  render (clicks n initial_state)
  = Normal (match n with
            | O => Element "div" [Element "Button" [Text #"Generate Shelter Plan"]]
            | S _ => plan_view
            end).
Proof.
  destruct n as [|n].
  - reflexivity.
  - change (clicks (S n) initial_state) with staticShelterPlan.
    vm_compute. reflexivity.
Qed.

End PageExtras.
